(** * playRebus: the daily puzzle generation pipeline

    A shallow embedding of the Go backend of playRebus: the scheduler
    ([internal/scheduler]), the prompt source with its per-date cache and
    the image job client ([internal/ai]), the store facade
    ([internal/store]), the reads and writes of the table
    ([internal/database]), the HTTP handlers ([internal/handlers]) and
    the choice of the image store in [cmd/server].

    Go functions that return [(value, error)] and touch the process memory
    or the outside world become computations in a state-and-error monad
    over a [World]: the [puzzles] table, the image store, the replies of
    the two external services, the clock and the two in-process caches. *)

From Stdlib Require Import ZArith NArith String Ascii List Bool Lia DecimalString DecimalPos.
From Stdlib Require Import Sorted Permutation.
From stdpp Require Import base option list gmap strings.
Import ListNotations.

#[local] Set Warnings "-register-all".

(** ** Runes

    [unicode/utf8]: a rune is a code point, an [N]; a byte above 0x7F
    that begins no well-formed sequence decodes to [RuneError], of
    width 1. *)

Module utf8.

Definition RuneError : N := 65533.
Definition RuneSelf : N := 128.
Definition MaxRune : N := 1114111.
Definition UTFMax : nat := 4.

Definition bytes (l : list N) : string :=
  string_of_list_ascii (map ascii_of_N l).

Definition within (lo hi b : N) : bool := ((lo <=? b) && (b <=? hi))%N.

(** The table [first] with its [acceptRanges]: for a leading byte, the
    size of the sequence and the range of its second byte. *)
Definition first (b : N) : option (nat * (N * N)) :=
  if within 194 223 b then Some (2%nat, (128, 191)%N)
  else if (b =? 224)%N then Some (3%nat, (160, 191)%N)
  else if within 225 236 b then Some (3%nat, (128, 191)%N)
  else if (b =? 237)%N then Some (3%nat, (128, 159)%N)
  else if within 238 239 b then Some (3%nat, (128, 191)%N)
  else if (b =? 240)%N then Some (4%nat, (144, 191)%N)
  else if within 241 243 b then Some (4%nat, (128, 191)%N)
  else if (b =? 244)%N then Some (4%nat, (128, 143)%N)
  else None.

(** [s0&mask<<k | ...]: the bits of a continuation byte are its low
    six. *)
Definition bits (mask : N) (b : N) (shift : N) : N := N.shiftl (N.land b mask) shift.

(** [utf8.DecodeRuneInString]: the first rune and its width. *)
Definition DecodeRune (s : string) : N * nat :=
  match s with
  | EmptyString => (RuneError, 0%nat)
  | String c0 r0 =>
      let s0 := N_of_ascii c0 in
      if (s0 <? RuneSelf)%N then (s0, 1%nat)
      else
        match first s0 with
        | None => (RuneError, 1%nat)
        | Some (sz, (lo, hi)) =>
            if (String.length s <? sz)%nat then (RuneError, 1%nat)
            else
              match r0 with
              | EmptyString => (RuneError, 1%nat)
              | String c1 r1 =>
                  let s1 := N_of_ascii c1 in
                  if negb (within lo hi s1) then (RuneError, 1%nat)
                  else if (sz <=? 2)%nat
                  then (N.lor (bits 31 s0 6) (bits 63 s1 0), 2%nat)
                  else
                    match r1 with
                    | EmptyString => (RuneError, 1%nat)
                    | String c2 r2 =>
                        let s2 := N_of_ascii c2 in
                        if negb (within 128 191 s2) then (RuneError, 1%nat)
                        else if (sz <=? 3)%nat
                        then (N.lor (bits 15 s0 12) (N.lor (bits 63 s1 6) (bits 63 s2 0)),
                              3%nat)
                        else
                          match r2 with
                          | EmptyString => (RuneError, 1%nat)
                          | String c3 _ =>
                              let s3 := N_of_ascii c3 in
                              if negb (within 128 191 s3) then (RuneError, 1%nat)
                              else (N.lor (bits 7 s0 18)
                                      (N.lor (bits 63 s1 12)
                                         (N.lor (bits 63 s2 6) (bits 63 s3 0))),
                                    4%nat)
                          end
                    end
              end
        end
  end.

(** [utf8.RuneStart] *)
Definition RuneStart (c : ascii) : bool := negb (N.land (N_of_ascii c) 192 =? 128)%N.

(** The bytes [s[lo:hi]], for [lo <= hi]. *)
Definition between (s : string) (lo hi : nat) : string := substring lo (hi - lo) s.

(** The loop of [DecodeLastRuneInString]: from [start] down to [lim],
    the first position of a byte that starts a rune; one below [lim]
    when there is none. *)
Fixpoint runeStartFrom (s : string) (lim : Z) (steps : nat) (start : Z) : Z :=
  match steps with
  | O => start
  | S k =>
      if (start <? lim)%Z then start
      else
        match String.get (Z.to_nat start) s with
        | Some c => if RuneStart c then start else runeStartFrom s lim k (start - 1)
        | None => start
        end
  end.

(** [utf8.DecodeLastRuneInString]: the last rune and its width. *)
Definition DecodeLastRune (s : string) : N * nat :=
  let end_ := String.length s in
  match String.get (end_ - 1) s with
  | None => (RuneError, 0%nat)
  | Some c =>
      if (N_of_ascii c <? RuneSelf)%N then (N_of_ascii c, 1%nat)
      else
        let lim := Z.max 0 (Z.of_nat end_ - Z.of_nat UTFMax) in
        let start := Z.max 0 (runeStartFrom s lim UTFMax (Z.of_nat end_ - 2)) in
        let (r, size) := DecodeRune (between s (Z.to_nat start) end_) in
        if negb (Z.to_nat start + size =? end_)%nat then (RuneError, 1%nat)
        else (r, size)
  end.

(** [utf8.EncodeRune] *)
Definition EncodeRune (r : N) : string :=
  (if r <=? 127 then bytes [r]
   else if r <=? 2047 then bytes [N.lor 192 (N.shiftr r 6); N.lor 128 (N.land r 63)]
   else
     let r := if (MaxRune <? r) || ((55296 <=? r) && (r <=? 57343)) then RuneError else r in
     if r <=? 65535 then
       bytes [N.lor 224 (N.shiftr r 12); N.lor 128 (N.land (N.shiftr r 6) 63);
              N.lor 128 (N.land r 63)]
     else
       bytes [N.lor 240 (N.shiftr r 18); N.lor 128 (N.land (N.shiftr r 12) 63);
              N.lor 128 (N.land (N.shiftr r 6) 63); N.lor 128 (N.land r 63)])%N.

(** [for _, r := range s]: the runes of a string; [skip] counts the
    bytes that belong to the rune just decoded. *)
Fixpoint runesFrom (skip : nat) (s : string) : list N :=
  match s with
  | EmptyString => []
  | String _ rest =>
      match skip with
      | S k => runesFrom k rest
      | O => let (r, size) := DecodeRune s in r :: runesFrom (size - 1) rest
      end
  end.

Definition runes : string -> list N := runesFrom 0.

End utf8.

(** ** Letters and white space

    [unicode]: the tables are those of Unicode 15.0.0, which the Go
    release of the build (1.21) carries. *)

Module unicode.

(** The lower-case column of [CaseRanges]: the first and the last rune
    of a range, the step between its runes, and the distance from each
    of them to its lower-case form. *)
Definition lowerRanges : list (N * N * N * Z) :=
  [
   (65, 90, 1, 32%Z); (192, 214, 1, 32%Z); (216, 222, 1, 32%Z); (256, 302, 2, 1%Z);
   (304, 304, 1, (-199)%Z); (306, 310, 2, 1%Z); (313, 327, 2, 1%Z); (330, 374, 2, 1%Z);
   (376, 376, 1, (-121)%Z); (377, 381, 2, 1%Z); (385, 385, 1, 210%Z); (386, 388, 2, 1%Z);
   (390, 390, 1, 206%Z); (391, 391, 1, 1%Z); (393, 394, 1, 205%Z); (395, 395, 1, 1%Z);
   (398, 398, 1, 79%Z); (399, 399, 1, 202%Z); (400, 400, 1, 203%Z); (401, 401, 1, 1%Z);
   (403, 403, 1, 205%Z); (404, 404, 1, 207%Z); (406, 406, 1, 211%Z);
   (407, 407, 1, 209%Z); (408, 408, 1, 1%Z); (412, 412, 1, 211%Z); (413, 413, 1, 213%Z);
   (415, 415, 1, 214%Z); (416, 420, 2, 1%Z); (422, 422, 1, 218%Z); (423, 423, 1, 1%Z);
   (425, 425, 1, 218%Z); (428, 428, 1, 1%Z); (430, 430, 1, 218%Z); (431, 431, 1, 1%Z);
   (433, 434, 1, 217%Z); (435, 437, 2, 1%Z); (439, 439, 1, 219%Z); (440, 440, 1, 1%Z);
   (444, 444, 1, 1%Z); (452, 452, 1, 2%Z); (453, 453, 1, 1%Z); (455, 455, 1, 2%Z);
   (456, 456, 1, 1%Z); (458, 458, 1, 2%Z); (459, 475, 2, 1%Z); (478, 494, 2, 1%Z);
   (497, 497, 1, 2%Z); (498, 500, 2, 1%Z); (502, 502, 1, (-97)%Z);
   (503, 503, 1, (-56)%Z); (504, 542, 2, 1%Z); (544, 544, 1, (-130)%Z);
   (546, 562, 2, 1%Z); (570, 570, 1, 10795%Z); (571, 571, 1, 1%Z);
   (573, 573, 1, (-163)%Z); (574, 574, 1, 10792%Z); (577, 577, 1, 1%Z);
   (579, 579, 1, (-195)%Z); (580, 580, 1, 69%Z); (581, 581, 1, 71%Z); (582, 590, 2, 1%Z);
   (880, 882, 2, 1%Z); (886, 886, 1, 1%Z); (895, 895, 1, 116%Z); (902, 902, 1, 38%Z);
   (904, 906, 1, 37%Z); (908, 908, 1, 64%Z); (910, 911, 1, 63%Z); (913, 929, 1, 32%Z);
   (931, 939, 1, 32%Z); (975, 975, 1, 8%Z); (984, 1006, 2, 1%Z);
   (1012, 1012, 1, (-60)%Z); (1015, 1015, 1, 1%Z); (1017, 1017, 1, (-7)%Z);
   (1018, 1018, 1, 1%Z); (1021, 1023, 1, (-130)%Z); (1024, 1039, 1, 80%Z);
   (1040, 1071, 1, 32%Z); (1120, 1152, 2, 1%Z); (1162, 1214, 2, 1%Z);
   (1216, 1216, 1, 15%Z); (1217, 1229, 2, 1%Z); (1232, 1326, 2, 1%Z);
   (1329, 1366, 1, 48%Z); (4256, 4293, 1, 7264%Z); (4295, 4295, 1, 7264%Z);
   (4301, 4301, 1, 7264%Z); (5024, 5103, 1, 38864%Z); (5104, 5109, 1, 8%Z);
   (7312, 7354, 1, (-3008)%Z); (7357, 7359, 1, (-3008)%Z); (7680, 7828, 2, 1%Z);
   (7838, 7838, 1, (-7615)%Z); (7840, 7934, 2, 1%Z); (7944, 7951, 1, (-8)%Z);
   (7960, 7965, 1, (-8)%Z); (7976, 7983, 1, (-8)%Z); (7992, 7999, 1, (-8)%Z);
   (8008, 8013, 1, (-8)%Z); (8025, 8031, 2, (-8)%Z); (8040, 8047, 1, (-8)%Z);
   (8072, 8079, 1, (-8)%Z); (8088, 8095, 1, (-8)%Z); (8104, 8111, 1, (-8)%Z);
   (8120, 8121, 1, (-8)%Z); (8122, 8123, 1, (-74)%Z); (8124, 8124, 1, (-9)%Z);
   (8136, 8139, 1, (-86)%Z); (8140, 8140, 1, (-9)%Z); (8152, 8153, 1, (-8)%Z);
   (8154, 8155, 1, (-100)%Z); (8168, 8169, 1, (-8)%Z); (8170, 8171, 1, (-112)%Z);
   (8172, 8172, 1, (-7)%Z); (8184, 8185, 1, (-128)%Z); (8186, 8187, 1, (-126)%Z);
   (8188, 8188, 1, (-9)%Z); (8486, 8486, 1, (-7517)%Z); (8490, 8490, 1, (-8383)%Z);
   (8491, 8491, 1, (-8262)%Z); (8498, 8498, 1, 28%Z); (8544, 8559, 1, 16%Z);
   (8579, 8579, 1, 1%Z); (9398, 9423, 1, 26%Z); (11264, 11311, 1, 48%Z);
   (11360, 11360, 1, 1%Z); (11362, 11362, 1, (-10743)%Z); (11363, 11363, 1, (-3814)%Z);
   (11364, 11364, 1, (-10727)%Z); (11367, 11371, 2, 1%Z); (11373, 11373, 1, (-10780)%Z);
   (11374, 11374, 1, (-10749)%Z); (11375, 11375, 1, (-10783)%Z);
   (11376, 11376, 1, (-10782)%Z); (11378, 11378, 1, 1%Z); (11381, 11381, 1, 1%Z);
   (11390, 11391, 1, (-10815)%Z); (11392, 11490, 2, 1%Z); (11499, 11501, 2, 1%Z);
   (11506, 11506, 1, 1%Z); (42560, 42604, 2, 1%Z); (42624, 42650, 2, 1%Z);
   (42786, 42798, 2, 1%Z); (42802, 42862, 2, 1%Z); (42873, 42875, 2, 1%Z);
   (42877, 42877, 1, (-35332)%Z); (42878, 42886, 2, 1%Z); (42891, 42891, 1, 1%Z);
   (42893, 42893, 1, (-42280)%Z); (42896, 42898, 2, 1%Z); (42902, 42920, 2, 1%Z);
   (42922, 42922, 1, (-42308)%Z); (42923, 42923, 1, (-42319)%Z);
   (42924, 42924, 1, (-42315)%Z); (42925, 42925, 1, (-42305)%Z);
   (42926, 42926, 1, (-42308)%Z); (42928, 42928, 1, (-42258)%Z);
   (42929, 42929, 1, (-42282)%Z); (42930, 42930, 1, (-42261)%Z);
   (42931, 42931, 1, 928%Z); (42932, 42946, 2, 1%Z); (42948, 42948, 1, (-48)%Z);
   (42949, 42949, 1, (-42307)%Z); (42950, 42950, 1, (-35384)%Z); (42951, 42953, 2, 1%Z);
   (42960, 42960, 1, 1%Z); (42966, 42968, 2, 1%Z); (42997, 42997, 1, 1%Z);
   (65313, 65338, 1, 32%Z); (66560, 66599, 1, 40%Z); (66736, 66771, 1, 40%Z);
   (66928, 66938, 1, 39%Z); (66940, 66954, 1, 39%Z); (66956, 66962, 1, 39%Z);
   (66964, 66965, 1, 39%Z); (68736, 68786, 1, 64%Z); (71840, 71871, 1, 32%Z);
   (93760, 93791, 1, 32%Z); (125184, 125217, 1, 34%Z)
  ]%N.

Definition inRange (r : N) (range : N * N * N * Z) : bool :=
  let '(lo, hi, step, _) := range in
  ((lo <=? r) && (r <=? hi) && ((r - lo) mod step =? 0))%N.

(** [unicode.ToLower] *)
Definition ToLower (r : N) : N :=
  if (r <=? 127)%N then
    if ((65 <=? r) && (r <=? 90))%N then (r + 32)%N else r
  else
    match List.find (inRange r) lowerRanges with
    | Some (_, _, _, delta) => Z.to_N (Z.of_N r + delta)
    | None => r
    end.

(** [unicode.IsSpace]: the property White_Space. *)
Definition IsSpace (r : N) : bool :=
  (((9 <=? r) && (r <=? 13)) || (r =? 32) || (r =? 133) || (r =? 160)
   || (r =? 5760) || ((8192 <=? r) && (r <=? 8202)) || (r =? 8232) || (r =? 8233)
   || (r =? 8239) || (r =? 8287) || (r =? 12288))%N.

End unicode.

(** ** Go strings

    A Go string is a sequence of bytes; so is a [string] here. *)

Module GoStrings.

Definition dq : ascii := "034"%char.
Definition backslash : ascii := "\"%char.

Definition byteIn (lo hi : N) (c : ascii) : bool :=
  ((lo <=? N_of_ascii c) && (N_of_ascii c <=? hi))%N.

Definition isDigit : ascii -> bool := byteIn 48 57.
Definition isLower : ascii -> bool := byteIn 97 122.
Definition isUpper : ascii -> bool := byteIn 65 90.

(** [asciiSpace]: the white space below 0x80. *)
Definition isSpace (c : ascii) : bool :=
  byteIn 9 13 c || (N_of_ascii c =? 32)%N.

Fixpoint takeWhile (p : ascii -> bool) (s : string) : string :=
  match s with
  | EmptyString => EmptyString
  | String c r => if p c then String c (takeWhile p r) else EmptyString
  end.

Fixpoint dropWhile (p : ascii -> bool) (s : string) : string :=
  match s with
  | EmptyString => EmptyString
  | String c r => if p c then dropWhile p r else s
  end.

Fixpoint mapBytes (f : ascii -> ascii) (s : string) : string :=
  match s with
  | EmptyString => EmptyString
  | String c r => String (f c) (mapBytes f r)
  end.

Definition lowerByte (c : ascii) : ascii :=
  if isUpper c then ascii_of_N (N_of_ascii c + 32) else c.

(** Whether every byte is below [utf8.RuneSelf]. *)
Fixpoint isASCII (s : string) : bool :=
  match s with
  | EmptyString => true
  | String c r => (N_of_ascii c <? utf8.RuneSelf)%N && isASCII r
  end.

(** [strings.Map], for a [mapping] that drops no rune: every rune is
    written anew, so that a byte that decodes to [utf8.RuneError] is
    replaced by the three bytes of U+FFFD. *)
Definition Map (mapping : N -> N) (s : string) : string :=
  fold_right (fun r out => utf8.EncodeRune (mapping r) +:+ out) EmptyString (utf8.runes s).

(** [strings.ToLower]: byte by byte when every byte is ASCII, rune by
    rune otherwise. *)
Definition ToLower (s : string) : string :=
  if isASCII s then mapBytes lowerByte s else Map unicode.ToLower s.

Definition rev (s : string) : string :=
  string_of_list_ascii (List.rev (list_ascii_of_string s)).

(** [strings.TrimLeftFunc]: the bytes from the first rune on that does
    not satisfy [f]; [skip] counts the bytes that belong to the rune just
    decoded. *)
Fixpoint trimLeftFrom (f : N -> bool) (skip : nat) (s : string) : string :=
  match s with
  | EmptyString => EmptyString
  | String _ rest =>
      match skip with
      | S k => trimLeftFrom f k rest
      | O =>
          let (r, size) := utf8.DecodeRune s in
          if f r then trimLeftFrom f (size - 1) rest else s
      end
  end.

Definition TrimLeftFunc (s : string) (f : N -> bool) : string := trimLeftFrom f 0 s.

(** [lastIndexFunc(s[:i], f, truth)]: the position of the last rune [r],
    decoded from the end, with [f(r) == truth], or -1.  [n] bounds the
    number of runes. *)
Fixpoint lastIndexFunc (f : N -> bool) (truth : bool) (n : nat) (s : string) (i : nat) : Z :=
  match n with
  | O => (-1)%Z
  | S k =>
      if (i =? 0)%nat then (-1)%Z
      else
        let (r, size) := utf8.DecodeLastRune (utf8.between s 0 i) in
        if Bool.eqb (f r) truth then Z.of_nat (i - size)
        else lastIndexFunc f truth k s (i - size)
  end.

(** [strings.TrimRightFunc] *)
Definition TrimRightFunc (s : string) (f : N -> bool) : string :=
  let n := String.length s in
  let i := lastIndexFunc f false n s n in
  match (if (0 <=? i)%Z then String.get (Z.to_nat i) s else None) with
  | Some c =>
      if (utf8.RuneSelf <=? N_of_ascii c)%N
      then utf8.between s 0 (Z.to_nat i + snd (utf8.DecodeRune (utf8.between s (Z.to_nat i) n)))
      else utf8.between s 0 (Z.to_nat i + 1)
  | None => utf8.between s 0 (Z.to_nat (i + 1))
  end.

(** [strings.TrimFunc] *)
Definition TrimFunc (s : string) (f : N -> bool) : string :=
  TrimRightFunc (TrimLeftFunc s f) f.

(** One loop of [strings.TrimSpace] over the ASCII white space: the
    bytes from the first one on that is not ASCII white space, and
    whether that byte is above 0x7F. *)
Fixpoint trimASCII (s : string) : bool * string :=
  match s with
  | EmptyString => (false, EmptyString)
  | String c r =>
      if (utf8.RuneSelf <=? N_of_ascii c)%N then (true, s)
      else if isSpace c then trimASCII r
      else (false, s)
  end.

(** [strings.TrimSpace]: the loop from the front, then the same loop
    from the back; at the first byte above 0x7F the rest of the work is
    handed to [TrimFunc] and [TrimRightFunc] with [unicode.IsSpace]. *)
Definition TrimSpace (s : string) : string :=
  match trimASCII s with
  | (true, t) => TrimFunc t unicode.IsSpace
  | (false, t) =>
      match trimASCII (rev t) with
      | (true, u) => TrimRightFunc (rev u) unicode.IsSpace
      | (false, u) => rev u
      end
  end.

(** [strings.Index(s, c)] for a one-byte needle: the first position of
    [c], or -1. *)
Fixpoint Index (s : string) (c : ascii) : Z :=
  match s with
  | EmptyString => (-1)%Z
  | String x r =>
      if (x =? c)%char then 0%Z
      else let i := Index r c in if (i <? 0)%Z then (-1)%Z else (i + 1)%Z
  end.

(** [strings.LastIndex(s, c)]: the last position of [c], or -1. *)
Fixpoint LastIndex (s : string) (c : ascii) : Z :=
  match s with
  | EmptyString => (-1)%Z
  | String x r =>
      let i := LastIndex r c in
      if (0 <=? i)%Z then (i + 1)%Z
      else if (x =? c)%char then 0%Z else (-1)%Z
  end.

(** The slice expression [s[lo:hi]]; it panics (here: [None]) unless
    [0 <= lo <= hi <= len(s)]. *)
Definition slice (s : string) (lo hi : Z) : option string :=
  if ((0 <=? lo) && (lo <=? hi) && (hi <=? Z.of_nat (String.length s)))%Z
  then Some (substring (Z.to_nat lo) (Z.to_nat (hi - lo)) s)
  else None.

(** The verb [%d]. *)
Definition itoa (z : Z) : string := NilZero.string_of_int (Z.to_int z).

(** The verb [%02d] and the like, for a non-negative number. *)
Fixpoint zeros (n : nat) : string :=
  match n with O => EmptyString | S k => String "0" (zeros k) end.

Definition pad (width : nat) (z : Z) : string :=
  let d := itoa z in zeros (width - String.length d) +:+ d.

Fixpoint join (sep : string) (l : list string) : string :=
  match l with
  | [] => EmptyString
  | [x] => x
  | x :: r => x +:+ sep +:+ join sep r
  end.

(** [strings.Split(s, sep)] for a one-byte separator. *)
Fixpoint splitAcc (c : ascii) (s : string) (cur : string) : list string :=
  match s with
  | EmptyString => [rev cur]
  | String x r =>
      if (x =? c)%char then rev cur :: splitAcc c r EmptyString
      else splitAcc c r (String x cur)
  end.

Definition Split (s : string) (c : ascii) : list string := splitAcc c s EmptyString.

(** [strings.HasPrefix], [strings.TrimPrefix] *)
Fixpoint HasPrefix (s prefix : string) : bool :=
  match prefix, s with
  | EmptyString, _ => true
  | String p prefix', String c s' => (c =? p)%char && HasPrefix s' prefix'
  | String _ _, EmptyString => false
  end.

Definition TrimPrefix (s prefix : string) : string :=
  if HasPrefix s prefix
  then substring (String.length prefix) (String.length s - String.length prefix) s
  else s.

(** [strings.HasSuffix], [strings.TrimSuffix] *)
Definition HasSuffix (s suffix : string) : bool := HasPrefix (rev s) (rev suffix).

Definition TrimSuffix (s suffix : string) : string :=
  if HasSuffix s suffix
  then substring 0 (String.length s - String.length suffix) s
  else s.

(** [strings.Contains] *)
Fixpoint Contains (s substr : string) : bool :=
  HasPrefix s substr
  || match s with
     | EmptyString => false
     | String _ s' => Contains s' substr
     end.

End GoStrings.

(** ** Numbers in decimal

    [strconv.ParseFloat(s, 64)] on a number of the JSON grammar: the
    value is rounded to the nearest [float64], and a value that rounds
    beyond the largest one is a range error.  Only that verdict is
    modelled. *)

Module strconv.
Import GoStrings.

(** [decimal]: the digits [d] read as a number, their count [nd] and
    the position [dp] of the decimal point: the value is
    [d * 10 ^ (dp - nd)]. *)
Record decimal : Type := mkDecimal { d : N; nd : N; dp : Z }.

Definition digitVal (c : ascii) : N := (N_of_ascii c - 48)%N.

(** The first loop of [decimal.set]: leading zeros move the decimal
    point, at most 800 digits are kept. *)
Fixpoint readDigits (s : string) (sawdot : bool) (b : decimal) : decimal * bool * string :=
  match s with
  | EmptyString => (b, sawdot, s)
  | String c r =>
      if (c =? ".")%char then readDigits r true (mkDecimal (d b) (nd b) (Z.of_N (nd b)))
      else if isDigit c then
        if (c =? "0")%char && (nd b =? 0)%N
        then readDigits r sawdot (mkDecimal (d b) (nd b) (dp b - 1))
        else if (nd b <? 800)%N
        then readDigits r sawdot (mkDecimal (d b * 10 + digitVal c) (nd b + 1) (dp b))
        else readDigits r sawdot b
      else (b, sawdot, s)
  end.

(** The exponent: it is no longer added to from 10000 on. *)
Fixpoint readExponent (s : string) (e : Z) : Z :=
  match s with
  | EmptyString => e
  | String c r =>
      if isDigit c
      then readExponent r (if (e <? 10000)%Z then (e * 10 + Z.of_N (digitVal c))%Z else e)
      else e
  end.

(** [decimal.set] *)
Definition set (s : string) : decimal :=
  let digits :=
    match s with
    | String c r => if (c =? "+")%char || (c =? "-")%char then r else s
    | EmptyString => s
    end in
  let '(b, sawdot, rest) := readDigits digits false (mkDecimal 0 0 0) in
  let b := if sawdot then b else mkDecimal (d b) (nd b) (Z.of_N (nd b)) in
  match rest with
  | String c r =>
      if (c =? "e")%char || (c =? "E")%char then
        match r with
        | String sign r' =>
            if (sign =? "+")%char then mkDecimal (d b) (nd b) (dp b + readExponent r' 0)
            else if (sign =? "-")%char then mkDecimal (d b) (nd b) (dp b - readExponent r' 0)
            else mkDecimal (d b) (nd b) (dp b + readExponent r 0)
        | EmptyString => b
        end
      else b
  | EmptyString => b
  end.

(** The largest [float64] is [2^1024 - 2^971]; rounding to the nearest,
    ties to even, goes beyond it from [2^1024 - 2^970] on. *)
Definition overflowFrom : Z := (2 ^ 1024 - 2 ^ 970)%Z.

(** The overflow verdict of [decimal.floatBits] for [float64]. *)
Definition overflows (b : decimal) : bool :=
  if (nd b =? 0)%N then false
  else if (310 <? dp b)%Z then true
  else if (dp b <? -330)%Z then false
  else
    let e := (dp b - Z.of_N (nd b))%Z in
    if (0 <=? e)%Z then (overflowFrom <=? Z.of_N (d b) * 10 ^ e)%Z
    else (overflowFrom * 10 ^ (- e) <=? Z.of_N (d b))%Z.

(** Whether [ParseFloat(s, 64)] returns a range error. *)
Definition outOfRange (s : string) : bool := overflows (set s).

End strconv.

(** ** encoding/json

    [json.Unmarshal] first checks that the whole input is one JSON value
    (with white space around it) and then stores it into the Go value it
    is given.  [parseJSON] is the first half; the second half, for the
    four Go types the program decodes into, is in the module [ai].  The
    input is taken to be valid UTF-8, as the text of a decoded reply
    is. *)

Module Json.
Import GoStrings.

Inductive json : Type :=
| JNull
| JBool (b : bool)
| JNum (lit : string)
| JStr (s : string)
| JArr (elems : list json)
| JObj (fields : list (string * json)).

Inductive token : Type :=
| TLBrack | TRBrack | TLBrace | TRBrace | TComma | TColon
| TStr (s : string) | TNum (lit : string) | TTrue | TFalse | TNull.

(** *** Lexical level *)

Definition hexVal (c : ascii) : option N :=
  if isDigit c then Some (N_of_ascii c - 48)%N
  else if byteIn 97 102 c then Some (N_of_ascii c - 87)%N
  else if byteIn 65 70 c then Some (N_of_ascii c - 55)%N
  else None.

Definition hex4 (a b c d : ascii) : option N :=
  match hexVal a, hexVal b, hexVal c, hexVal d with
  | Some x, Some y, Some z, Some t => Some (((x * 16 + y) * 16 + z) * 16 + t)%N
  | _, _, _, _ => None
  end.

Definition bytes (l : list N) : string :=
  string_of_list_ascii (map ascii_of_N l).

(** [utf8.EncodeRune]. *)
Definition utf8 (r : N) : string :=
  (if r <? 128 then bytes [r]
   else if r <? 2048 then bytes [192 + r / 64; 128 + r mod 64]
   else if r <? 65536 then
     bytes [224 + r / 4096; 128 + (r / 64) mod 64; 128 + r mod 64]
   else
     bytes [240 + r / 262144; 128 + (r / 4096) mod 64;
            128 + (r / 64) mod 64; 128 + r mod 64])%N.

Definition isHighSurrogate (u : N) : bool := ((55296 <=? u) && (u <? 56320))%N.
Definition isLowSurrogate (u : N) : bool := ((56320 <=? u) && (u <? 57344))%N.
Definition replacementChar : N := 65533.

(** [utf16.DecodeRune]. *)
Definition decodeSurrogates (hi lo : N) : N :=
  ((hi - 55296) * 1024 + (lo - 56320) + 65536)%N.

Definition simpleEscape (e : ascii) : option ascii :=
  if (e =? dq)%char then Some dq
  else if (e =? backslash)%char then Some backslash
  else if (e =? "/")%char then Some "/"%char
  else if (e =? "b")%char then Some (ascii_of_N 8)
  else if (e =? "f")%char then Some (ascii_of_N 12)
  else if (e =? "n")%char then Some (ascii_of_N 10)
  else if (e =? "r")%char then Some (ascii_of_N 13)
  else if (e =? "t")%char then Some (ascii_of_N 9)
  else None.

Definition emit (pre : string) (n : nat) (rest : option (string * nat))
  : option (string * nat) :=
  match rest with
  | Some (s, k) => Some (pre +:+ s, (n + k)%nat)
  | None => None
  end.

(** The body of a string literal, from just after its opening quote:
    the decoded bytes and the number of input bytes up to and including
    the closing quote.  A [\u] escape of a surrogate that has no partner
    becomes U+FFFD, as in [unquote]. *)
Fixpoint scanString (s : string) : option (string * nat) :=
  match s with
  | EmptyString => None
  | String c r =>
      if (c =? dq)%char then Some (EmptyString, 1%nat)
      else if (c =? backslash)%char then
        match r with
        | EmptyString => None
        | String e r1 =>
            if (e =? "u")%char then
              match r1 with
              | String h1 (String h2 (String h3 (String h4 r2))) =>
                  match hex4 h1 h2 h3 h4 with
                  | None => None
                  | Some u =>
                      if isHighSurrogate u then
                        match r2 with
                        | String b (String v (String l1 (String l2 (String l3 (String l4 r3))))) =>
                            match (if (b =? backslash)%char && (v =? "u")%char
                                   then hex4 l1 l2 l3 l4 else None) with
                            | Some lo =>
                                if isLowSurrogate lo
                                then emit (utf8 (decodeSurrogates u lo)) 12 (scanString r3)
                                else emit (utf8 replacementChar) 6 (scanString r2)
                            | None => emit (utf8 replacementChar) 6 (scanString r2)
                            end
                        | _ => emit (utf8 replacementChar) 6 (scanString r2)
                        end
                      else if isLowSurrogate u
                      then emit (utf8 replacementChar) 6 (scanString r2)
                      else emit (utf8 u) 6 (scanString r2)
                  end
              | _ => None
              end
            else
              match simpleEscape e with
              | Some x => emit (String x EmptyString) 2 (scanString r1)
              | None => None
              end
        end
      else if (N_of_ascii c <? 32)%N then None
      else emit (String c EmptyString) 1 (scanString r)
  end.

Definition isNumChar (c : ascii) : bool :=
  isDigit c || (c =? "-")%char || (c =? "+")%char || (c =? ".")%char
  || (c =? "e")%char || (c =? "E")%char.

Definition dropSign (signs : ascii -> bool) (s : string) : string :=
  match s with
  | String c r => if signs c then r else s
  | EmptyString => s
  end.

(** After the integer and fraction parts: nothing, or an exponent. *)
Definition validExponent (s : string) : bool :=
  match s with
  | EmptyString => true
  | String c r =>
      if (c =? "e")%char || (c =? "E")%char then
        let d := dropSign (fun x => (x =? "+")%char || (x =? "-")%char) r in
        negb (String.eqb (takeWhile isDigit d) EmptyString)
        && String.eqb (dropWhile isDigit d) EmptyString
      else false
  end.

Definition validFraction (s : string) : bool :=
  match s with
  | String c r =>
      if (c =? ".")%char then
        negb (String.eqb (takeWhile isDigit r) EmptyString)
        && validExponent (dropWhile isDigit r)
      else validExponent s
  | EmptyString => true
  end.

(** The JSON number grammar. *)
Definition validNumber (s : string) : bool :=
  match dropSign (fun x => (x =? "-")%char) s with
  | EmptyString => false
  | String c r =>
      if (c =? "0")%char then validFraction r
      else if isDigit c then validFraction (dropWhile isDigit r)
      else false
  end.

Definition punct (c : ascii) : option token :=
  if (c =? "[")%char then Some TLBrack
  else if (c =? "]")%char then Some TRBrack
  else if (c =? "{")%char then Some TLBrace
  else if (c =? "}")%char then Some TRBrace
  else if (c =? ",")%char then Some TComma
  else if (c =? ":")%char then Some TColon
  else None.

Definition literal (w : string) : option token :=
  if String.eqb w "null" then Some TNull
  else if String.eqb w "true" then Some TTrue
  else if String.eqb w "false" then Some TFalse
  else None.

(** The JSON white space: space, tab, line feed, carriage return. *)
Definition isJsonSpace (c : ascii) : bool :=
  (c =? " ")%char || (N_of_ascii c =? 9)%N || (N_of_ascii c =? 10)%N
  || (N_of_ascii c =? 13)%N.

(** The token sequence of an input; [skip] counts the bytes that belong
    to the token just produced. *)
Fixpoint lex (skip : nat) (s : string) : option (list token) :=
  match s with
  | EmptyString => Some []
  | String c r =>
      match skip with
      | S k => lex k r
      | O =>
          if isJsonSpace c then lex 0 r
          else
            match punct c with
            | Some t => cons t <$> lex 0 r
            | None =>
                if (c =? dq)%char then
                  match scanString r with
                  | Some (str, n) => cons (TStr str) <$> lex n r
                  | None => None
                  end
                else if isNumChar c then
                  let lit := takeWhile isNumChar s in
                  if validNumber lit
                  then cons (TNum lit) <$> lex (String.length lit - 1) r
                  else None
                else if isLower c then
                  let w := takeWhile isLower s in
                  match literal w with
                  | Some t => cons t <$> lex (String.length w - 1) r
                  | None => None
                  end
                else None
            end
      end
  end.

(** *** Syntactic level: a pushdown automaton over the tokens *)

Inductive arrState : Type := AOpen | AValue | AComma.
Inductive objState : Type :=
| OOpen | OKey (k : string) | OColon (k : string) | OValue | OComma.

Inductive frame : Type :=
| FArr (acc : list json) (st : arrState)
| FObj (acc : list (string * json)) (st : objState).

(** The open containers, innermost first, and the finished top-level
    value. *)
Definition pstate : Type := list frame * option json.

Definition maxNestingDepth : N := 10000.

Definition pushValue (v : json) (p : pstate) : option pstate :=
  match p with
  | ([], None) => Some ([], Some v)
  | ([], Some _) => None
  | (FArr acc AValue :: _, _) => None
  | (FArr acc _ :: tl, res) => Some (FArr (v :: acc) AValue :: tl, res)
  | (FObj acc (OColon k) :: tl, res) => Some (FObj ((k, v) :: acc) OValue :: tl, res)
  | (FObj _ _ :: _, _) => None
  end.

Definition valueAllowed (p : pstate) : bool :=
  match p with
  | ([], None) => true
  | ([], Some _) => false
  | (FArr _ AValue :: _, _) => false
  | (FArr _ _ :: _, _) => true
  | (FObj _ (OColon _) :: _, _) => true
  | (FObj _ _ :: _, _) => false
  end.

Definition openFrame (f : frame) (p : pstate) : option pstate :=
  if valueAllowed p && (N.of_nat (length (fst p)) <? maxNestingDepth)%N
  then Some (f :: fst p, snd p) else None.

Definition pstep (p : pstate) (t : token) : option pstate :=
  match t, p with
  | TLBrack, _ => openFrame (FArr [] AOpen) p
  | TLBrace, _ => openFrame (FObj [] OOpen) p
  | TRBrack, (FArr acc AOpen :: tl, res)
  | TRBrack, (FArr acc AValue :: tl, res) => pushValue (JArr (List.rev acc)) (tl, res)
  | TRBrace, (FObj acc OOpen :: tl, res)
  | TRBrace, (FObj acc OValue :: tl, res) => pushValue (JObj (List.rev acc)) (tl, res)
  | TComma, (FArr acc AValue :: tl, res) => Some (FArr acc AComma :: tl, res)
  | TComma, (FObj acc OValue :: tl, res) => Some (FObj acc OComma :: tl, res)
  | TColon, (FObj acc (OKey k) :: tl, res) => Some (FObj acc (OColon k) :: tl, res)
  | TStr s, (FObj acc OOpen :: tl, res)
  | TStr s, (FObj acc OComma :: tl, res) => Some (FObj acc (OKey s) :: tl, res)
  | TStr s, _ => pushValue (JStr s) p
  | TNum lit, _ => pushValue (JNum lit) p
  | TTrue, _ => pushValue (JBool true) p
  | TFalse, _ => pushValue (JBool false) p
  | TNull, _ => pushValue JNull p
  | _, _ => None
  end.

Fixpoint prun (p : pstate) (ts : list token) : option pstate :=
  match ts with
  | [] => Some p
  | t :: r => match pstep p t with Some p' => prun p' r | None => None end
  end.

(** The value a text denotes, if the text is valid JSON. *)
Definition parseJSON (text : string) : option json :=
  match lex 0 text with
  | None => None
  | Some ts =>
      match prun ([], None) ts with
      | Some ([], Some v) => Some v
      | _ => None
      end
  end.

End Json.

(** ** Data model *)

Module models.

(** [models.Puzzle]: one record of a day's batch, and one row of the
    [puzzles] table. *)
Record Puzzle : Type := mkPuzzle {
  ID : string;          (* "YYYY-MM-DD-index" *)
  ImageURL : string;
  ImagePath : string;
  Answer : string;
  Hint : string;
  Date : string;
  Index : Z             (* 0..4 *)
}.

(** The zero value of the struct. *)
Definition zeroPuzzle : Puzzle :=
  mkPuzzle EmptyString EmptyString EmptyString EmptyString EmptyString EmptyString 0.

End models.

(** ** The world the process runs in *)

Module Runtime.
Import models.

(** [ai.RebusPrompt]: what the prompt service is asked to produce. *)
Record RebusPrompt : Type := mkPrompt {
  Prompt : string;
  PromptAnswer : string;    (* field [Answer] *)
  PromptHint : string       (* field [Hint] *)
}.

(** One element of [content] in a reply of the prompt service. *)
Record ContentBlock : Type := mkBlock { BlockType : string; Text : string }.

(** [ai.ReplicatePrediction], the fields the program reads.  [OutputRaw]
    is a [json.RawMessage]: the text of the [output] member, empty when
    the member is absent. *)
Record ReplicatePrediction : Type := mkPrediction {
  PredictionID : string;
  Status : string;
  OutputRaw : string;
  Error : option string
}.

(** What an HTTP exchange with a JSON body comes to, seen from the
    caller: no response at all, or a status with a body that cannot be
    read, cannot be decoded, or decodes to a Go value. *)
Inductive body (A : Type) : Type :=
| Unreadable
| Malformed
| Payload (v : A).
Arguments Unreadable {A}.
Arguments Malformed {A}.
Arguments Payload {A} v.

Inductive reply (A : Type) : Type :=
| NoResponse
| Response (status : Z) (b : body A).
Arguments NoResponse {A}.
Arguments Response {A} status b.

(** The same for the download of a file: the body is bytes, or cannot
    be read. *)
Inductive download : Type :=
| NoDownload
| Downloaded (status : Z) (data : option (list Byte.byte)).

(** Local wall-clock time, as [time.Now()] reports it. *)
Record Time : Type := mkTime {
  Year : Z; Month : Z; Day : Z;
  Hour : Z; Minute : Z; Second : Z; Nanosecond : Z
}.

(** Every error value the program builds, one constructor for each
    [fmt.Errorf] (the message is quoted), and [Wrap] for the [%w]
    wrappers.  Errors that come from below the program (driver, file
    system, network) carry no detail. *)
Inductive error : Type :=
| Wrap (context : string) (cause : error)
(* prompt source *)
| ErrClaudeCall                      (* failed to call Claude API *)
| ErrClaudeKeyNotSet                 (* authentication failed: CLAUDE_API_KEY ... is not set or is empty *)
| ErrClaudeAuth (status : Z)         (* authentication failed: invalid or expired API key *)
| ErrClaudeStatus (status : Z)       (* claude API returned status %d *)
| ErrClaudeDecode                    (* failed to decode Claude response *)
| ErrNoContent                       (* no content in Claude response *)
| ErrNoJSONArray                     (* could not find JSON array in Claude response *)
| ErrParsePrompts                    (* failed to parse prompts from Claude response *)
| ErrExpectedFive (got : nat)        (* expected 5 prompts, got %d *)
(* image job client *)
| ErrFetchModelInfo                  (* failed to fetch model info *)
| ErrModelInfoStatus (status : Z)    (* failed to fetch model info: status %d *)
| ErrModelInfoDecode                 (* failed to decode model info *)
| ErrNoLatestVersion                 (* no latest version found for model %s *)
| ErrReplicateCall                   (* failed to call Replicate API *)
| ErrReplicateStatus (status : Z)    (* replicate API returned status %d *)
| ErrPredictionDecode                (* failed to decode prediction response *)
| ErrPollCall                        (* failed to poll prediction *)
| ErrPollRead                        (* failed to read poll response *)
| ErrPollDecode                      (* failed to decode poll response *)
| ErrOutputEmpty                     (* output is empty *)
| ErrNoImageURL                      (* could not extract image URL from output: %s *)
| ErrPredictionFailed (msg : string) (* prediction failed: %s *)
| ErrPredictionCanceled              (* prediction was canceled *)
| ErrUnknownStatus (status : string) (* unknown prediction status: %s *)
| ErrPredictionTimedOut (attempts : nat) (* prediction timed out after %d attempts *)
| ErrDownloadCall                    (* failed to download image *)
| ErrDownloadStatus (status : Z)     (* failed to download image: status %d *)
| ErrDownloadRead                    (* failed to read image data *)
(* generator *)
| ErrIndexOutOfRange (index : Z)     (* index %d out of range (max %d) *)
(* store *)
| ErrWriteFile                       (* the error of os.WriteFile *)
| ErrPutObject                       (* the error of s3 PutObject *)
(* database *)
| ErrBegin                           (* failed to begin transaction *)
| ErrDelete                          (* failed to delete existing puzzles *)
| ErrPrepare                         (* failed to prepare statement *)
| ErrInsert (id : string)            (* failed to insert puzzle %s *)
| ErrCommit                          (* failed to commit transaction *)
| ErrCheckPuzzles                    (* failed to check puzzles *)
(* scheduler and store helpers *)
| ErrInvalidDateFormat               (* invalid date format. Use YYYY-MM-DD *)
| ErrParseDate                       (* the error of time.Parse *)
| ErrAlreadyExist (date : string)    (* puzzles already exist for date: %s *)
| ErrFailedToGenerateToday           (* failed to generate puzzles for today *)
(* reading the table, single rows *)
| ErrQueryPuzzles                    (* failed to query puzzles *)
| ErrScanPuzzle                      (* failed to scan puzzle *)
| ErrIteratePuzzles                  (* error iterating puzzles *)
| ErrSavePuzzle                      (* failed to save puzzle *)
| ErrPuzzleNotFound (id : string)    (* puzzle not found: %s *)
| ErrGetPuzzle                       (* failed to get puzzle *)
(* puzzle ids *)
| ErrInvalidPuzzleID                 (* invalid puzzle ID format *)
| ErrInvalidIndex                    (* invalid index in puzzle ID *)
(* reading the image store *)
| ErrGetObject                       (* failed to get image from Supabase *)
| ErrReadObject                      (* failed to read image data *)
| ErrHeadObject.                     (* failed to check image existence *)

(** The state.  The first group is outside the process: the table, the
    image store, and what each service will answer to the requests to
    come, in order (a script that has run out answers with no response).
    [dbFaults] and [imageFaults] say which of the statements and writes
    to come fail for a reason that is not modelled (connection, disk,
    column types); one that has run out means no such failure.  The last
    two fields are process memory: [PromptGenerator.promptCache] and
    [ImageGenerator.modelVersion]. *)
Record World : Type := mkWorld {
  clock : Time;
  puzzles : list Puzzle;
  dbFaults : list bool;
  images : gmap string (list Byte.byte);
  imageFaults : list bool;
  claude : list (reply (list ContentBlock));
  claudeRequests : nat;
  modelInfo : list (reply string);
  predictions : list (reply ReplicatePrediction);
  polls : list (reply ReplicatePrediction);
  downloads : list download;
  slept : Z;                                   (* seconds spent in time.Sleep *)
  promptCache : gmap string (list RebusPrompt);
  modelVersion : string
}.

Definition set_clock (v : Time) (w : World) : World :=
  mkWorld v (puzzles w) (dbFaults w) (images w) (imageFaults w) (claude w)
    (claudeRequests w) (modelInfo w) (predictions w) (polls w) (downloads w)
    (slept w) (promptCache w) (modelVersion w).
Definition set_puzzles (v : list Puzzle) (w : World) : World :=
  mkWorld (clock w) v (dbFaults w) (images w) (imageFaults w) (claude w)
    (claudeRequests w) (modelInfo w) (predictions w) (polls w) (downloads w)
    (slept w) (promptCache w) (modelVersion w).
Definition set_dbFaults (v : list bool) (w : World) : World :=
  mkWorld (clock w) (puzzles w) v (images w) (imageFaults w) (claude w)
    (claudeRequests w) (modelInfo w) (predictions w) (polls w) (downloads w)
    (slept w) (promptCache w) (modelVersion w).
Definition set_images (v : gmap string (list Byte.byte)) (w : World) : World :=
  mkWorld (clock w) (puzzles w) (dbFaults w) v (imageFaults w) (claude w)
    (claudeRequests w) (modelInfo w) (predictions w) (polls w) (downloads w)
    (slept w) (promptCache w) (modelVersion w).
Definition set_imageFaults (v : list bool) (w : World) : World :=
  mkWorld (clock w) (puzzles w) (dbFaults w) (images w) v (claude w)
    (claudeRequests w) (modelInfo w) (predictions w) (polls w) (downloads w)
    (slept w) (promptCache w) (modelVersion w).
Definition set_claude (v : list (reply (list ContentBlock))) (n : nat) (w : World) : World :=
  mkWorld (clock w) (puzzles w) (dbFaults w) (images w) (imageFaults w) v
    n (modelInfo w) (predictions w) (polls w) (downloads w)
    (slept w) (promptCache w) (modelVersion w).
Definition set_modelInfo (v : list (reply string)) (w : World) : World :=
  mkWorld (clock w) (puzzles w) (dbFaults w) (images w) (imageFaults w) (claude w)
    (claudeRequests w) v (predictions w) (polls w) (downloads w)
    (slept w) (promptCache w) (modelVersion w).
Definition set_predictions (v : list (reply ReplicatePrediction)) (w : World) : World :=
  mkWorld (clock w) (puzzles w) (dbFaults w) (images w) (imageFaults w) (claude w)
    (claudeRequests w) (modelInfo w) v (polls w) (downloads w)
    (slept w) (promptCache w) (modelVersion w).
Definition set_polls (v : list (reply ReplicatePrediction)) (w : World) : World :=
  mkWorld (clock w) (puzzles w) (dbFaults w) (images w) (imageFaults w) (claude w)
    (claudeRequests w) (modelInfo w) (predictions w) v (downloads w)
    (slept w) (promptCache w) (modelVersion w).
Definition set_downloads (v : list download) (w : World) : World :=
  mkWorld (clock w) (puzzles w) (dbFaults w) (images w) (imageFaults w) (claude w)
    (claudeRequests w) (modelInfo w) (predictions w) (polls w) v
    (slept w) (promptCache w) (modelVersion w).
Definition set_slept (v : Z) (w : World) : World :=
  mkWorld (clock w) (puzzles w) (dbFaults w) (images w) (imageFaults w) (claude w)
    (claudeRequests w) (modelInfo w) (predictions w) (polls w) (downloads w)
    v (promptCache w) (modelVersion w).
Definition set_promptCache (v : gmap string (list RebusPrompt)) (w : World) : World :=
  mkWorld (clock w) (puzzles w) (dbFaults w) (images w) (imageFaults w) (claude w)
    (claudeRequests w) (modelInfo w) (predictions w) (polls w) (downloads w)
    (slept w) v (modelVersion w).
Definition set_modelVersion (v : string) (w : World) : World :=
  mkWorld (clock w) (puzzles w) (dbFaults w) (images w) (imageFaults w) (claude w)
    (claudeRequests w) (modelInfo w) (predictions w) (polls w) (downloads w)
    (slept w) (promptCache w) v.

(** *** The monad

    A call ends with a value ([Ok]), with a non-nil [error] ([Fail]) or
    in a run-time panic, which no function of the program recovers. *)
Inductive result (A : Type) : Type :=
| Ok (a : A)
| Fail (e : error)
| Panic.
Arguments Ok {A} a.
Arguments Fail {A} e.
Arguments Panic {A}.

Definition M (A : Type) : Type := World -> result A * World.

Definition ret {A} (a : A) : M A := fun w => (Ok a, w).
Definition fail {A} (e : error) : M A := fun w => (Fail e, w).
Definition panic {A} : M A := fun w => (Panic, w).

Definition bind {A B} (c : M A) (k : A -> M B) : M B :=
  fun w =>
    match c w with
    | (Ok a, w') => k a w'
    | (Fail e, w') => (Fail e, w')
    | (Panic, w') => (Panic, w')
    end.

Notation "x <- c ;; k" := (bind c (fun x => k))
  (at level 100, c at next level, right associativity).
Notation "c ;;; k" := (bind c (fun _ => k))
  (at level 100, right associativity).

Definition gets {A} (f : World -> A) : M A := fun w => (Ok (f w), w).
Definition modify (f : World -> World) : M unit := fun w => (Ok tt, f w).

(** [if err != nil { return ..., fmt.Errorf("context: %w", err) }] *)
Definition wrap {A} (context : string) (c : M A) : M A :=
  fun w =>
    match c w with
    | (Fail e, w') => (Fail (Wrap context e), w')
    | r => r
    end.

(** [v, err := f()]: the caller looks at the error itself. *)
Definition attempt {A} (c : M A) : M (error + A) :=
  fun w =>
    match c w with
    | (Ok a, w') => (Ok (inr a), w')
    | (Fail e, w') => (Ok (inl e), w')
    | (Panic, w') => (Panic, w')
    end.

(** The next entry of a script. *)
Definition next {A} (dflt : A) (l : list A) : A * list A :=
  match l with
  | [] => (dflt, [])
  | x :: r => (x, r)
  end.

End Runtime.

(** ** internal/database: the [puzzles] table *)

Module database.
Import models Runtime.

(** One statement sent to the database: it fails when the script of
    faults says so. *)
Definition stmt (e : error) : M unit :=
  fun w =>
    let (f, rest) := next false (dbFaults w) in
    if f then (Fail e, set_dbFaults rest w) else (Ok tt, set_dbFaults rest w).

Definition forDate (date : string) (p : Puzzle) : bool := String.eqb (Date p) date.

(** [SELECT COUNT( * ) FROM puzzles WHERE date = $1] *)
Definition countForDate (date : string) (rows : list Puzzle) : nat :=
  length (List.filter (forDate date) rows).

(** [DB.HasPuzzlesForDate]: [(false, err)] when the query fails, else
    [(count > 0, nil)]. *)
Definition HasPuzzlesForDate (date : string) : M bool :=
  stmt ErrCheckPuzzles ;;;
  rows <- gets puzzles ;;
  ret (0 <? countForDate date rows)%nat.

(** The two constraints of the schema that depend on the rows present:
    [id ... PRIMARY KEY] and [UNIQUE(date, index_num)]. *)
Definition conflicts (p : Puzzle) (rows : list Puzzle) : bool :=
  existsb (fun r => String.eqb (ID r) (ID p)) rows
  || existsb (fun r => String.eqb (Date r) (Date p) && (Index r =? Index p)%Z) rows.

(** The loop of [stmt.Exec] calls, on the rows the transaction sees. *)
Fixpoint insertAll (ps : list Puzzle) (tx : list Puzzle) : M (list Puzzle) :=
  match ps with
  | [] => ret tx
  | puzzle :: rest =>
      stmt (ErrInsert (ID puzzle)) ;;;
      if conflicts puzzle tx then fail (ErrInsert (ID puzzle))
      else insertAll rest (tx ++ [puzzle])
  end.

(** [DB.SavePuzzles]: begin, delete the rows of the date, insert the
    given ones, commit.  The rows of the transaction are a local value
    until the commit succeeds; every early return runs the deferred
    [tx.Rollback()], which drops them. *)
Definition SavePuzzles (date : string) (ps : list Puzzle) : M unit :=
  stmt ErrBegin ;;;
  tx0 <- gets puzzles ;;
  stmt ErrDelete ;;;
  let tx1 := List.filter (fun r => negb (forDate date r)) tx0 in
  stmt ErrPrepare ;;;
  tx2 <- insertAll ps tx1 ;;
  stmt ErrCommit ;;;
  modify (set_puzzles tx2).

(** [ORDER BY index_num ASC], as a stable insertion sort.
    [UNIQUE(date, index_num)] leaves no two rows of a date at the same
    position, so the order of the rows of one date is determined. *)
Fixpoint insertByIndex (p : Puzzle) (sorted : list Puzzle) : list Puzzle :=
  match sorted with
  | [] => [p]
  | q :: rest =>
      if (Index p <=? Index q)%Z then p :: sorted else q :: insertByIndex p rest
  end.

Definition orderByIndex (rows : list Puzzle) : list Puzzle :=
  fold_right insertByIndex [] rows.

(** The loop [for rows.Next()] with its [rows.Scan] and [append]. *)
Fixpoint scanRows (rows : list Puzzle) (scanned : list Puzzle) : M (list Puzzle) :=
  match rows with
  | [] => ret scanned
  | p :: rest =>
      stmt ErrScanPuzzle ;;;
      scanRows rest (scanned ++ [p])
  end.

(** [DB.GetPuzzlesForDate]: the query, the loop over its rows, and the
    check of [rows.Err()]. *)
Definition GetPuzzlesForDate (date : string) : M (list Puzzle) :=
  stmt ErrQueryPuzzles ;;;
  table <- gets puzzles ;;
  ps <- scanRows (orderByIndex (List.filter (forDate date) table)) [] ;;
  stmt ErrIteratePuzzles ;;;
  ret ps.

(** [INSERT ... ON CONFLICT (id) DO UPDATE SET image_url, image_path,
    answer, hint]: a row with the id is updated in these four columns;
    without one the row is inserted, unless [UNIQUE(date, index_num)]
    forbids it ([None]). *)
Definition updated (p r : Puzzle) : Puzzle :=
  {| ID := ID r; ImageURL := ImageURL p; ImagePath := ImagePath p;
     Answer := Answer p; Hint := Hint p; Date := Date r; Index := Index r |}.

Definition upsert (p : Puzzle) (rows : list Puzzle) : option (list Puzzle) :=
  if existsb (fun r => String.eqb (ID r) (ID p)) rows then
    Some (map (fun r => if String.eqb (ID r) (ID p) then updated p r else r) rows)
  else if existsb (fun r => String.eqb (Date r) (Date p) && (Index r =? Index p)%Z) rows
  then None
  else Some (rows ++ [p]).

(** [DB.SavePuzzle] *)
Definition SavePuzzle (puzzle : Puzzle) : M unit :=
  stmt ErrSavePuzzle ;;;
  rows <- gets puzzles ;;
  match upsert puzzle rows with
  | None => fail ErrSavePuzzle
  | Some rows' => modify (set_puzzles rows')
  end.

(** [DB.GetPuzzleByID]: [sql.ErrNoRows] is told apart from the other
    errors of the query. *)
Definition GetPuzzleByID (id : string) : M Puzzle :=
  stmt ErrGetPuzzle ;;;
  rows <- gets puzzles ;;
  match List.find (fun r => String.eqb (ID r) id) rows with
  | None => fail (ErrPuzzleNotFound id)
  | Some p => ret p
  end.

End database.

(** ** internal/store: the facade over the table and the image store *)

Module store.
Import models Runtime.

Record SupabaseStorage : Type := mkSupabase {
  bucketName : string;
  publicURL : string;
  region : string
}.

Record Store : Type := mkStore {
  imagesPath : string;
  supabaseStorage : SupabaseStorage;
  useSupabase : bool
}.

(** [filepath.Clean] and [filepath.Join], with [/] as the separator. *)
Definition cleanStep (rooted : bool) (stack : list string) (part : string) : list string :=
  if String.eqb part EmptyString || String.eqb part "." then stack
  else if String.eqb part ".." then
    match stack with
    | top :: below => if String.eqb top ".." then part :: stack else below
    | [] => if rooted then [] else [part]
    end
  else part :: stack.

Definition Clean (path : string) : string :=
  match path with
  | EmptyString => "."
  | String c _ =>
      let rooted := (c =? "/")%char in
      let kept := List.rev (fold_left (cleanStep rooted) (GoStrings.Split path "/") []) in
      let inner := GoStrings.join "/" kept in
      if rooted then String "/" inner
      else if String.eqb inner EmptyString then "." else inner
  end.

Definition Join (elems : list string) : string :=
  match List.filter (fun e => negb (String.eqb e EmptyString)) elems with
  | [] => EmptyString
  | kept => Clean (GoStrings.join "/" kept)
  end.

(** [filepath.Ext]: the suffix from the last dot of the last element of
    the path on, found by going back from the end. *)
Fixpoint extFrom (reversed : list ascii) (suffix : string) : string :=
  match reversed with
  | [] => EmptyString
  | c :: before =>
      if (c =? "/")%char then EmptyString
      else if (c =? ".")%char then String c suffix
      else extFrom before (String c suffix)
  end.

Definition Ext (path : string) : string :=
  extFrom (List.rev (list_ascii_of_string path)) EmptyString.

Definition objectKey (date : string) (index : Z) : string :=
  date +:+ "/" +:+ GoStrings.itoa index +:+ ".png".

(** [SupabaseStorage.GetImageURL], [GetImagePath], [SaveImage] *)
Definition Supabase_GetImageURL (s : SupabaseStorage) (date : string) (index : Z) : string :=
  publicURL s +:+ "/" +:+ objectKey date index.

Definition Supabase_GetImagePath (s : SupabaseStorage) (date : string) (index : Z) : string :=
  objectKey date index.

(** One write to the image store, under a key. *)
Definition writeImage (e : error) (key : string) (data : list Byte.byte) : M unit :=
  fun w =>
    let (f, rest) := next false (imageFaults w) in
    if f then (Fail e, set_imageFaults rest w)
    else (Ok tt, set_images (<[key := data]> (images w)) (set_imageFaults rest w)).

Definition Supabase_SaveImage (s : SupabaseStorage) (date : string) (index : Z)
    (imageData : list Byte.byte) : M unit :=
  wrap "failed to upload image to Supabase"
    (writeImage ErrPutObject (objectKey date index) imageData).

(** One request for an object of the image store: it fails when the
    script of faults says so, and else finds the object or not. *)
Definition readImage (key : string) : M (option (option (list Byte.byte))) :=
  fun w =>
    let (f, rest) := next false (imageFaults w) in
    (Ok (if f then None else Some (images w !! key)), set_imageFaults rest w).

(** [SupabaseStorage.GetImage]: [GetObject], then [io.ReadAll] of the
    body. *)
Definition Supabase_GetImage (s : SupabaseStorage) (date : string) (index : Z)
  : M (list Byte.byte) :=
  r <- readImage (objectKey date index) ;;
  match r with
  | Some (Some data) =>
      fun w =>
        let (f, rest) := next false (imageFaults w) in
        (if f then Fail ErrReadObject else Ok data, set_imageFaults rest w)
  | _ => fail ErrGetObject
  end.

(** [SupabaseStorage.ImageExists]: [HeadObject]; the error "not found"
    is the answer [false]. *)
Definition Supabase_ImageExists (s : SupabaseStorage) (date : string) (index : Z)
  : M bool :=
  r <- readImage (objectKey date index) ;;
  match r with
  | None => fail ErrHeadObject
  | Some None => ret false
  | Some (Some _) => ret true
  end.

(** [NewSupabaseStorage], [NewStore] and [NewStoreWithSupabase], when
    they return no error.  The S3 client, with its keys and its
    endpoint, is outside this model; a store on local files has no
    Supabase storage (a nil pointer, here one with empty fields). *)
Definition NewSupabaseStorage (bucket region_ accessKey secretKey endpoint url : string)
  : SupabaseStorage :=
  mkSupabase bucket url region_.

Definition NewStore (path : string) : Store :=
  mkStore path (mkSupabase EmptyString EmptyString EmptyString) false.

Definition NewStoreWithSupabase (bucket region_ accessKey secretKey endpoint url : string)
  : Store :=
  mkStore EmptyString (NewSupabaseStorage bucket region_ accessKey secretKey endpoint url) true.

(** [Store.SavePuzzles] *)
Definition SavePuzzles (s : Store) (date : string) (ps : list Puzzle) : M unit :=
  database.SavePuzzles date ps.

(** [Store.GetPuzzlesForDate] *)
Definition GetPuzzlesForDate (s : Store) (date : string) : M (list Puzzle) :=
  database.GetPuzzlesForDate date.

(** [Store.HasPuzzlesForDate]: an error of the query is answered with
    [false]. *)
Definition HasPuzzlesForDate (s : Store) (date : string) : M bool :=
  r <- attempt (database.HasPuzzlesForDate date) ;;
  match r with
  | inl _ => ret false
  | inr exists_ => ret exists_
  end.

Definition GetImagePath (s : Store) (date : string) (index : Z) : string :=
  if useSupabase s then Supabase_GetImagePath (supabaseStorage s) date index
  else Join [imagesPath s; date +:+ "-" +:+ GoStrings.itoa index +:+ ".png"].

Definition GetImageURL (s : Store) (date : string) (index : Z) : string :=
  if useSupabase s then Supabase_GetImageURL (supabaseStorage s) date index
  else "/api/images/" +:+ date +:+ "-" +:+ GoStrings.itoa index +:+ ".png".

Definition SaveImage (s : Store) (date : string) (index : Z)
    (imageData : list Byte.byte) : M unit :=
  if useSupabase s then Supabase_SaveImage (supabaseStorage s) date index imageData
  else writeImage ErrWriteFile (GetImagePath s date index) imageData.

(** [GetTodayDate]: [time.Now().Format("2006-01-02")] *)
Definition formatDate (t : Time) : string :=
  GoStrings.pad 4 (Year t) +:+ "-" +:+ GoStrings.pad 2 (Month t) +:+ "-"
  +:+ GoStrings.pad 2 (Day t).

Definition GetTodayDate : M string := gets (fun w => formatDate (clock w)).

(** The number a string of decimal digits denotes. *)
Fixpoint digitsAcc (s : string) (acc : Z) : option Z :=
  match s with
  | EmptyString => Some acc
  | String c r =>
      if GoStrings.isDigit c
      then digitsAcc r (acc * 10 + Z.of_N (N_of_ascii c) - 48)%Z
      else None
  end.

Definition isLeap (y : Z) : bool :=
  ((y mod 4 =? 0) && (negb (y mod 100 =? 0) || (y mod 400 =? 0)))%Z.

Definition daysIn (y m : Z) : Z :=
  (if m =? 2 then (if isLeap y then 29 else 28)
   else if (m =? 4) || (m =? 6) || (m =? 9) || (m =? 11) then 30 else 31)%Z.

(** [time.Parse("2006-01-02", date)] succeeds, for a [date] of ten bytes
    with [-] at positions 4 and 7. *)
Definition parsesAsDate (date : string) : bool :=
  match digitsAcc (substring 0 4 date) 0, digitsAcc (substring 5 2 date) 0,
        digitsAcc (substring 8 2 date) 0 with
  | Some y, Some m, Some d =>
      ((1 <=? m) && (m <=? 12) && (1 <=? d) && (d <=? daysIn y m))%Z
  | _, _, _ => false
  end.

(** [ValidateDate]: [None] is the nil error. *)
Definition ValidateDate (date : string) : option error :=
  if negb ((String.length date =? 10)%nat
           && String.eqb (substring 4 1 date) "-"
           && String.eqb (substring 7 1 date) "-")
  then Some ErrInvalidDateFormat
  else if parsesAsDate date then None
  else Some (Wrap "invalid date" ErrParseDate).

(** [fmt.Sscanf(s, "%d", &idx)] into an [int] of 64 bits: the runes of
    white space are skipped (a newline is an error), then come an
    optional sign and one or more decimal digits, which must denote a
    number of 64 bits; what follows the digits is not looked at.  [None]
    is a non-nil error. *)
Fixpoint skipSpace (skip : nat) (s : string) : option string :=
  match s with
  | EmptyString => Some EmptyString
  | String _ rest =>
      match skip with
      | S k => skipSpace k rest
      | O =>
          let (r, size) := utf8.DecodeRune s in
          if (r =? 10)%N then None
          else if unicode.IsSpace r then skipSpace (size - 1) rest
          else Some s
      end
  end.

Definition Sscanf_d (s : string) : option Z :=
  match skipSpace 0 s with
  | None | Some EmptyString => None
  | Some (String c r as t) =>
      let negative := (c =? "-")%char in
      let digits :=
        GoStrings.takeWhile GoStrings.isDigit
          (if negative || (c =? "+")%char then r else t) in
      match digits with
      | EmptyString => None
      | _ =>
          match digitsAcc digits 0 with
          | None => None
          | Some n =>
              let v := (if negative then - n else n)%Z in
              if ((- 2 ^ 63 <=? v) && (v <? 2 ^ 63))%Z then Some v else None
          end
      end
  end.

(** [ParsePuzzleID]: [inr (date, index)] with the nil error, or [inl]
    the error. *)
Definition ParsePuzzleID (puzzleID : string) : error + string * Z :=
  let parts := GoStrings.Split puzzleID "-" in
  if (length parts <? 4)%nat then inl ErrInvalidPuzzleID
  else
    let date := GoStrings.join "-" (firstn 3 parts) in
    match ValidateDate date with
    | Some err => inl err
    | None =>
        match Sscanf_d (nth 3 parts EmptyString) with
        | None => inl ErrInvalidIndex
        | Some idx => inr (date, idx)
        end
    end.

End store.

(** ** internal/ai: prompts, image jobs, the generator *)

Module ai.
Import models Runtime Json.

(** *** [json.Unmarshal] into the Go types of this package

    A JSON [null] leaves the Go value as it is (the zero value here); a
    JSON value of the wrong kind makes [Unmarshal] return an error. *)

Definition storeString (v : json) : option string :=
  match v with
  | JStr s => Some s
  | JNull => Some EmptyString
  | _ => None
  end.

Fixpoint storeEach {A} (f : json -> option A) (l : list json) : option (list A) :=
  match l with
  | [] => Some []
  | v :: r =>
      match f v, storeEach f r with
      | Some a, Some tl => Some (a :: tl)
      | _, _ => None
      end
  end.

Definition storeSlice {A} (f : json -> option A) (v : json) : option (list A) :=
  match v with
  | JArr elems => storeEach f elems
  | JNull => Some []
  | _ => None
  end.

(** [var s string; json.Unmarshal(raw, &s)] *)
Definition Unmarshal_string (raw : string) : option string :=
  match parseJSON raw with Some v => storeString v | None => None end.

(** [var a []string; json.Unmarshal(raw, &a)] *)
Definition Unmarshal_strings (raw : string) : option (list string) :=
  match parseJSON raw with Some v => storeSlice storeString v | None => None end.

(** A number is stored into an [interface{}] as a [float64]: one that
    [strconv.ParseFloat] finds out of range, at any depth, makes
    [Unmarshal] return an error. *)
Fixpoint numbersFit (v : json) : bool :=
  match v with
  | JNum lit => negb (strconv.outOfRange lit)
  | JArr elems => forallb numbersFit elems
  | JObj fields => forallb (fun m => let (_, x) := (m : string * json) in numbersFit x) fields
  | _ => true
  end.

(** [var a []interface{}; json.Unmarshal(raw, &a)]: every element is
    kept as it is. *)
Definition storeAny (v : json) : option (list json) :=
  match v with
  | JArr elems => if forallb numbersFit elems then Some elems else None
  | JNull => Some []
  | _ => None
  end.

Definition Unmarshal_any (raw : string) : option (list json) :=
  match parseJSON raw with Some v => storeAny v | None => None end.

(** [foldRune]: the least rune of the fold set of [r].  The names of the
    fields of this package are ASCII, and the fold sets that meet ASCII
    are those of the letters: a letter with its other case, and besides
    S with U+017F (long s) and K with U+212A (Kelvin sign).  Runes of
    other fold sets are left as they are. *)
Definition foldRune (r : N) : N :=
  if ((97 <=? r) && (r <=? 122))%N then (r - 32)%N
  else if (r =? 383)%N then 83%N
  else if (r =? 8490)%N then 75%N
  else r.

(** [foldName] *)
Definition foldName (name : string) : list N := map foldRune (utf8.runes name).

(** A member is stored into the field whose name is its key, or else
    into the one whose name has the folded name of the key. *)
Definition foldEq (key name : string) : bool :=
  String.eqb key name
  || bool_decide (foldName key = foldName name).

Definition zeroPrompt : RebusPrompt := mkPrompt EmptyString EmptyString EmptyString.

Definition storeMember (p : RebusPrompt) (member : string * json) : option RebusPrompt :=
  let (name, v) := member in
  if foldEq name "prompt" then
    match storeString v with
    | Some s => Some (match v with JNull => p | _ => mkPrompt s (PromptAnswer p) (PromptHint p) end)
    | None => None
    end
  else if foldEq name "answer" then
    match storeString v with
    | Some s => Some (match v with JNull => p | _ => mkPrompt (Prompt p) s (PromptHint p) end)
    | None => None
    end
  else if foldEq name "hint" then
    match storeString v with
    | Some s => Some (match v with JNull => p | _ => mkPrompt (Prompt p) (PromptAnswer p) s end)
    | None => None
    end
  else Some p.

Fixpoint storeMembers (p : RebusPrompt) (members : list (string * json)) : option RebusPrompt :=
  match members with
  | [] => Some p
  | m :: r =>
      match storeMember p m with
      | Some p' => storeMembers p' r
      | None => None
      end
  end.

(** A member that is absent leaves its field at the zero value, the
    empty string. *)
Definition storeRebusPrompt (v : json) : option RebusPrompt :=
  match v with
  | JObj members => storeMembers zeroPrompt members
  | JNull => Some zeroPrompt
  | _ => None
  end.

(** [var prompts []RebusPrompt; json.Unmarshal(jsonText, &prompts)] *)
Definition Unmarshal_prompts (jsonText : string) : option (list RebusPrompt) :=
  match parseJSON jsonText with Some v => storeSlice storeRebusPrompt v | None => None end.

(** *** The prompt source *)

Record PromptGenerator : Type := mkPromptGenerator { claudeAPIKey : string }.

(** [pg.client.Do(req)]: one request to the prompt service. *)
Definition callClaude : M (reply (list ContentBlock)) :=
  fun w =>
    let (r, rest) := next NoResponse (claude w) in
    (Ok r, set_claude rest (S (claudeRequests w)) w).

(** From the text of the reply to the prompts: the lines from
    [responseText := ...] to the check of the length. *)
Definition promptsOfText (responseText : string) : result (list RebusPrompt) :=
  let jsonStart := GoStrings.Index responseText "[" in
  let jsonEnd := GoStrings.LastIndex responseText "]" in
  if ((jsonStart =? -1) || (jsonEnd =? -1))%Z then Fail ErrNoJSONArray
  else
    match GoStrings.slice responseText jsonStart (jsonEnd + 1) with
    | None => Panic
    | Some jsonText =>
        match Unmarshal_prompts jsonText with
        | None => Fail ErrParsePrompts
        | Some prompts =>
            if negb (length prompts =? 5)%nat
            then Fail (ErrExpectedFive (length prompts))
            else Ok prompts
        end
    end.

Definition lift {A} (r : result A) : M A := fun w => (r, w).

(** [PromptGenerator.GetPromptsFromClaude] *)
Definition GetPromptsFromClaude (pg : PromptGenerator) (date : string)
  : M (list RebusPrompt) :=
  cache <- gets promptCache ;;
  match cache !! date with
  | Some prompts => ret prompts
  | None =>
      resp <- callClaude ;;
      match resp with
      | NoResponse => fail ErrClaudeCall
      | Response status b =>
          if negb (status =? 200)%Z then
            if (status =? 401)%Z then
              if String.eqb (claudeAPIKey pg) EmptyString
              then fail ErrClaudeKeyNotSet
              else fail (ErrClaudeAuth status)
            else fail (ErrClaudeStatus status)
          else
            match b with
            | Unreadable | Malformed => fail ErrClaudeDecode
            | Payload [] => fail ErrNoContent
            | Payload (first :: _) =>
                prompts <- lift (promptsOfText (Text first)) ;;
                modify (fun w => set_promptCache (<[date := prompts]> (promptCache w)) w) ;;;
                ret prompts
            end
      end
  end.

(** *** The image job client *)

Record ImageGenerator : Type := mkImageGenerator {
  replicateAPIKey : string;
  model : string
}.

(** [ImageGenerator.extractImageURL]: the three decodings, in the order
    of the source. *)
Definition extractImageURL (outputRaw : string) : result string :=
  if (String.length outputRaw =? 0)%nat then Fail ErrOutputEmpty
  else
    match (match Unmarshal_string outputRaw with
           | Some urlString =>
               if negb (String.eqb urlString EmptyString) then Some urlString else None
           | None => None
           end) with
    | Some url => Ok url
    | None =>
        match (match Unmarshal_strings outputRaw with
               | Some (first :: _) =>
                   if negb (String.eqb first EmptyString) then Some first else None
               | _ => None
               end) with
        | Some url => Ok url
        | None =>
            match (match Unmarshal_any outputRaw with
                   | Some (JStr url :: _) =>
                       if negb (String.eqb url EmptyString) then Some url else None
                   | _ => None
                   end) with
            | Some url => Ok url
            | None => Fail ErrNoImageURL
            end
        end
    end.

(** One GET of the model metadata. *)
Definition getModelInfo : M (reply string) :=
  fun w =>
    let (r, rest) := next NoResponse (modelInfo w) in (Ok r, set_modelInfo rest w).

(** One POST of a prediction. *)
Definition postPrediction : M (reply ReplicatePrediction) :=
  fun w =>
    let (r, rest) := next NoResponse (predictions w) in (Ok r, set_predictions rest w).

(** One GET of a file. *)
Definition httpGet : M download :=
  fun w =>
    let (r, rest) := next NoDownload (downloads w) in (Ok r, set_downloads rest w).

Definition fetchLatestModelVersion (ig : ImageGenerator) : M string :=
  resp <- getModelInfo ;;
  match resp with
  | NoResponse => fail ErrFetchModelInfo
  | Response status b =>
      if negb (status =? 200)%Z then fail (ErrModelInfoStatus status)
      else
        match b with
        | Unreadable | Malformed => fail ErrModelInfoDecode
        | Payload id =>
            if String.eqb id EmptyString then fail ErrNoLatestVersion else ret id
        end
  end.

Definition getModelVersion (ig : ImageGenerator) : M string :=
  cached <- gets modelVersion ;;
  if negb (String.eqb cached EmptyString) then ret cached
  else
    version <- wrap "failed to fetch model version" (fetchLatestModelVersion ig) ;;
    modify (set_modelVersion version) ;;;
    ret version.

Definition createPrediction (ig : ImageGenerator) (prompt : string)
  : M ReplicatePrediction :=
  _ <- wrap "failed to get model version" (getModelVersion ig) ;;
  resp <- postPrediction ;;
  match resp with
  | NoResponse => fail ErrReplicateCall
  | Response status b =>
      if negb (status =? 201)%Z && negb (status =? 200)%Z
      then fail (ErrReplicateStatus status)
      else
        match b with
        | Unreadable | Malformed => fail ErrPredictionDecode
        | Payload prediction => ret prediction
        end
  end.

Definition maxAttempts : nat := 60.

(** [time.Sleep(n * time.Second)] *)
Definition Sleep (seconds : Z) : M unit :=
  modify (fun w => set_slept (slept w + seconds)%Z w).

(** One GET of the prediction. *)
Definition poll : M (reply ReplicatePrediction) :=
  fun w =>
    let (r, rest) := next NoResponse (polls w) in (Ok r, set_polls rest w).

(** The loop [for attempt < maxAttempts] of [pollPrediction];
    [remaining] is [maxAttempts - attempt]. *)
Fixpoint pollFrom (ig : ImageGenerator) (remaining : nat) : M string :=
  match remaining with
  | O => fail (ErrPredictionTimedOut maxAttempts)
  | S remaining' =>
      resp <- poll ;;
      match resp with
      | NoResponse => fail ErrPollCall
      | Response _ Unreadable => fail ErrPollRead
      | Response _ Malformed => fail ErrPollDecode
      | Response _ (Payload prediction) =>
          let status := Status prediction in
          if String.eqb status "succeeded" then
            wrap "prediction succeeded but failed to extract image URL"
              (lift (extractImageURL (OutputRaw prediction)))
          else if String.eqb status "failed" then
            fail (ErrPredictionFailed
                    (match Error prediction with
                     | Some msg => msg
                     | None => "unknown error"
                     end))
          else if String.eqb status "canceled" then fail ErrPredictionCanceled
          else if String.eqb status "starting" || String.eqb status "processing" then
            Sleep 5 ;;;
            pollFrom ig remaining'
          else fail (ErrUnknownStatus status)
      end
  end.

(** [ImageGenerator.pollPrediction] *)
Definition pollPrediction (ig : ImageGenerator) (predictionID : string) : M string :=
  pollFrom ig maxAttempts.

Definition downloadImage (ig : ImageGenerator) (imageURL : string)
  : M (list Byte.byte) :=
  resp <- httpGet ;;
  match resp with
  | NoDownload => fail ErrDownloadCall
  | Downloaded status data =>
      if negb (status =? 200)%Z then fail (ErrDownloadStatus status)
      else
        match data with
        | None => fail ErrDownloadRead
        | Some imageData => ret imageData
        end
  end.

(** [ImageGenerator.GenerateImageFromPrompt]: submit, poll, fetch. *)
Definition GenerateImageFromPrompt (ig : ImageGenerator) (prompt : string)
  : M (list Byte.byte) :=
  prediction <- wrap "failed to create prediction" (createPrediction ig prompt) ;;
  imageURL <- wrap "failed to get prediction result"
                (pollPrediction ig (PredictionID prediction)) ;;
  wrap "failed to download image" (downloadImage ig imageURL).

(** *** The generator *)

(** The interface [AIGenerator].  A slice of pointers is a list of
    options; [None] is the nil pointer. *)
Class AIGenerator (G : Type) : Type := {
  GenerateRebusPuzzle : G -> string -> Z -> store.Store -> M Puzzle;
  GenerateRebusPuzzles : G -> string -> store.Store -> M (list (option Puzzle))
}.

Record RealAIGenerator : Type := mkRealAIGenerator {
  promptGenerator : PromptGenerator;
  imageGenerator : ImageGenerator;
  environment : string
}.

(** The body shared by the two methods: image, file, record. *)
Definition buildPuzzle (g : RealAIGenerator) (date : string) (index : Z)
    (imageStore : store.Store) (prompt : RebusPrompt) : Puzzle :=
  {| ID := date +:+ "-" +:+ GoStrings.itoa index;
     ImageURL := store.GetImageURL imageStore date index;
     ImagePath := store.GetImagePath imageStore date index;
     Answer := GoStrings.ToLower (GoStrings.TrimSpace (PromptAnswer prompt));
     Hint := PromptHint prompt;
     Date := date;
     Index := index |}.

(** [RealAIGenerator.GenerateRebusPuzzle] *)
Definition Real_GenerateRebusPuzzle (g : RealAIGenerator) (date : string) (index : Z)
    (imageStore : store.Store) : M Puzzle :=
  prompts <- wrap "failed to get prompts"
               (GetPromptsFromClaude (promptGenerator g) date) ;;
  if (Z.of_nat (length prompts) <=? index)%Z then fail (ErrIndexOutOfRange index)
  else if (index <? 0)%Z then panic
  else
    match prompts !! Z.to_nat index with
    | None => panic
    | Some prompt =>
        imageData <- wrap "failed to generate image"
                       (GenerateImageFromPrompt (imageGenerator g) (Prompt prompt)) ;;
        wrap "failed to save image" (store.SaveImage imageStore date index imageData) ;;;
        ret (buildPuzzle g date index imageStore prompt)
    end.

(** The loop [for i, prompt := range prompts] of
    [GenerateRebusPuzzles], from position [i] on. *)
Fixpoint generateFrom (g : RealAIGenerator) (date : string) (imageStore : store.Store)
    (i : Z) (prompts : list RebusPrompt) : M (list (option Puzzle)) :=
  match prompts with
  | [] => ret []
  | prompt :: later =>
      imageData <- wrap ("failed to generate image for puzzle " +:+ GoStrings.itoa i)
                     (GenerateImageFromPrompt (imageGenerator g) (Prompt prompt)) ;;
      wrap ("failed to save image for puzzle " +:+ GoStrings.itoa i)
        (store.SaveImage imageStore date i imageData) ;;;
      puzzles <- generateFrom g date imageStore (i + 1) later ;;
      ret (Some (buildPuzzle g date i imageStore prompt) :: puzzles)
  end.

(** [RealAIGenerator.GenerateRebusPuzzles] *)
Definition Real_GenerateRebusPuzzles (g : RealAIGenerator) (date : string)
    (imageStore : store.Store) : M (list (option Puzzle)) :=
  prompts <- wrap "failed to get prompts from Claude"
               (GetPromptsFromClaude (promptGenerator g) date) ;;
  generateFrom g date imageStore 0 prompts.

#[export] Instance RealAIGenerator_AIGenerator : AIGenerator RealAIGenerator := {
  GenerateRebusPuzzle := Real_GenerateRebusPuzzle;
  GenerateRebusPuzzles := Real_GenerateRebusPuzzles
}.

End ai.

(** ** internal/scheduler *)

Module scheduler.
Import models Runtime ai.

Section Scheduler.
Context {G : Type} `{AIGenerator G}.

Record Scheduler : Type := mkScheduler {
  store_ : store.Store;        (* field [store] *)
  generator : G;
  hour : Z;
  minute : Z;
  running : bool
}.

(** [NewScheduler] *)
Definition NewScheduler (st : store.Store) (g : G) (h m : Z) : Scheduler :=
  mkScheduler st g h m false.

(** What a run of [generatePuzzlesForToday] comes to.  The Go function
    returns nothing and writes one of these lines to the log. *)
Inductive runOutcome : Type :=
| AlreadyExist          (* Puzzles already exist for %s, skipping *)
| NotGenerating         (* Puzzles do not exist for %s, not generating *)
| GenerateError (e : error)   (* Error generating puzzles: %v *)
| SaveError (e : error)       (* Error saving puzzles: %v *)
| Saved.                (* Successfully generated and saved 5 puzzles for %s *)

(** [puzzles[i] = *p] for the pointers that are not nil. *)
Definition derefAll (puzzlePointers : list (option Puzzle)) : list Puzzle :=
  map (fun p => match p with Some v => v | None => zeroPuzzle end) puzzlePointers.

(** The second half of [generatePuzzlesForToday], from the call of the
    generator to the last log line. *)
Definition generateAndSave (s : Scheduler) (today : string) : M runOutcome :=
  r <- attempt (GenerateRebusPuzzles (generator s) today (store_ s)) ;;
  match r with
  | inl err => ret (GenerateError err)
  | inr puzzlePointers =>
      let puzzles := derefAll puzzlePointers in
      r' <- attempt (store.SavePuzzles (store_ s) today puzzles) ;;
      match r' with
      | inl err => ret (SaveError err)
      | inr _ => ret Saved
      end
  end.

(** [Scheduler.generatePuzzlesForToday]: the two checks, then the
    production. *)
Definition generatePuzzlesForToday (s : Scheduler) : M runOutcome :=
  today <- store.GetTodayDate ;;
  has <- store.HasPuzzlesForDate (store_ s) today ;;
  if has then ret AlreadyExist
  else
    has' <- store.HasPuzzlesForDate (store_ s) today ;;
    if negb has' then ret NotGenerating
    else generateAndSave s today.

(** [Scheduler.TriggerManualGeneration] *)
Definition TriggerManualGeneration (s : Scheduler) (date : string) : M unit :=
  match store.ValidateDate date with
  | Some err => fail (Wrap "invalid date" err)
  | None =>
      has <- store.HasPuzzlesForDate (store_ s) date ;;
      if has then fail (ErrAlreadyExist date)
      else
        puzzlePointers <- wrap "failed to generate puzzles"
                            (GenerateRebusPuzzles (generator s) date (store_ s)) ;;
        store.SavePuzzles (store_ s) date (derefAll puzzlePointers)
  end.

(** [Scheduler.TriggerTodayGeneration]: [Ok b] is [(b, nil)], [Fail e]
    is [(false, e)]. *)
Definition TriggerTodayGeneration (s : Scheduler) : M bool :=
  today <- store.GetTodayDate ;;
  has <- store.HasPuzzlesForDate (store_ s) today ;;
  if has then ret false
  else
    _ <- generatePuzzlesForToday s ;;
    has' <- store.HasPuzzlesForDate (store_ s) today ;;
    if negb has' then fail ErrFailedToGenerateToday
    else ret true.

(** [now.After(scheduledTime)] for [scheduledTime] today at
    [hour:minute:00], both counted in nanoseconds from local midnight. *)
Definition nanosOfDay (h m sec ns : Z) : Z :=
  (((h * 60 + m) * 60 + sec) * 1000000000 + ns)%Z.

Definition pastScheduledTime (s : Scheduler) (now : Time) : bool :=
  (nanosOfDay (hour s) (minute s) 0 0
   <? nanosOfDay (Hour now) (Minute now) (Second now) (Nanosecond now))%Z.

(** What [checkAndRunIfNeeded] does: it returns nothing either. *)
Inductive checkOutcome : Type :=
| SkippedExisting       (* Puzzles already exist for today (%s), skipping generation *)
| NotYetDue
| Ran (o : runOutcome). (* Scheduled time (%02d:%02d) has passed, generating ... *)

(** [Scheduler.checkAndRunIfNeeded] *)
Definition checkAndRunIfNeeded (s : Scheduler) : M checkOutcome :=
  now <- gets clock ;;
  today <- store.GetTodayDate ;;
  has <- store.HasPuzzlesForDate (store_ s) today ;;
  if has then ret SkippedExisting
  else if pastScheduledTime s now then
    o <- generatePuzzlesForToday s ;;
    ret (Ran o)
  else ret NotYetDue.

Definition set_running (b : bool) (s : Scheduler) : Scheduler :=
  mkScheduler (store_ s) (generator s) (hour s) (minute s) b.

(** [Scheduler.Start], up to the start of the background loop
    ([go s.run()]), which is outside this model: the scheduler after the
    call, and what the catch-up check did ([None] when the scheduler was
    running already). *)
Definition Start (s : Scheduler) : M (Scheduler * option checkOutcome) :=
  if running s then ret (s, None)
  else
    let s' := set_running true s in
    o <- checkAndRunIfNeeded s' ;;
    ret (s', Some o).

(** The wait of one turn of the loop of [Scheduler.run], in
    nanoseconds: [nextRun] is today at [hour:minute:00], moved by 24
    hours if it is before [now], and the wait is [nextRun.Sub(now)].
    Times are counted from local midnight, as in [pastScheduledTime]. *)
Definition day : Z := 24 * 60 * 60 * 1000000000.

Definition nextRunIn (s : Scheduler) (now : Time) : Z :=
  let nextRun := nanosOfDay (hour s) (minute s) 0 0 in
  let current := nanosOfDay (Hour now) (Minute now) (Second now) (Nanosecond now) in
  (if nextRun <? current then nextRun + day - current else nextRun - current)%Z.

End Scheduler.
Arguments Scheduler G : clear implicits.

(** The calls a process makes in its life: the entry points of the
    scheduler and of the generator it was built with, and the passing of
    time in between. *)
Inductive call : Type :=
| CallStart
| CallTriggerToday
| CallTriggerManual (date : string)
| CallGeneratePuzzle (date : string) (index : Z)
| CallGeneratePuzzles (date : string)
| CallGetPrompts (date : string)
| ClockMoves (now : Time).

Definition process : Type := Scheduler RealAIGenerator * World.

Definition step (p : process) (c : call) : process :=
  let (s, w) := p in
  match c with
  | CallStart =>
      match Start s w with
      | (Ok (s', _), w') => (s', w')
      | (_, w') => (set_running true s, w')
      end
  | CallTriggerToday => (s, snd (TriggerTodayGeneration s w))
  | CallTriggerManual date => (s, snd (TriggerManualGeneration s date w))
  | CallGeneratePuzzle date index =>
      (s, snd (GenerateRebusPuzzle (generator s) date index (store_ s) w))
  | CallGeneratePuzzles date =>
      (s, snd (GenerateRebusPuzzles (generator s) date (store_ s) w))
  | CallGetPrompts date =>
      (s, snd (GetPromptsFromClaude (promptGenerator (generator s)) date w))
  | ClockMoves now => (s, set_clock now w)
  end.

Definition lifetime (calls : list call) (p : process) : process :=
  fold_left step calls p.

End scheduler.

(** ** internal/handlers: the HTTP handlers *)

Module handlers.
Import models Runtime.

(** [models.VerifyRequest] *)
Record VerifyRequest : Type := mkVerifyRequest {
  PuzzleID : string;
  RequestAnswer : string     (* field [Answer] *)
}.

(** The text of an error response: a fixed text, or a prefix and the
    text of an error ([err.Error()]). *)
Inductive message : Type :=
| Plain (text : string)
| OfError (prefix : string) (err : error).

(** What a handler writes.  A failure to write the response itself (the
    branch "Failed to encode response") is outside this model. *)
Inductive response : Type :=
| HttpError (status : Z) (m : message)                   (* http.Error *)
| PuzzlesResponse (date : string) (puzzles : list Puzzle) (* 200, models.PuzzlesResponse *)
| VerifyResponse (correct : bool)                        (* 200, models.VerifyResponse *)
| TriggerResponse (generated : bool) (text : string)     (* 200, success: true *)
| Redirect (status : Z) (url : string)                   (* http.Redirect *)
| Preflight                                              (* 200 to OPTIONS *)
| ServeFile (contentType : string) (path : string).      (* http.ServeFile *)

Section PuzzleHandler.
Context {G : Type} `{ai.AIGenerator G}.

Record PuzzleHandler : Type := mkPuzzleHandler {
  store_ : store.Store;                      (* field [store] *)
  scheduler_ : scheduler.Scheduler G         (* field [scheduler] *)
}.

(** [NewPuzzleHandler] *)
Definition NewPuzzleHandler (st : store.Store) (sched : scheduler.Scheduler G)
  : PuzzleHandler := mkPuzzleHandler st sched.

(** [PuzzleHandler.GetPuzzlesHandler], for the path variable [date]. *)
Definition GetPuzzlesHandler (h : PuzzleHandler) (date : string) : M response :=
  match store.ValidateDate date with
  | Some err => ret (HttpError 400 (OfError EmptyString err))
  | None =>
      r <- attempt (store.GetPuzzlesForDate (store_ h) date) ;;
      match r with
      | inl _ =>
          ret (HttpError 404
                 (Plain ("No puzzles found for date: " +:+ date
                         +:+ ". They may not have been generated yet.")))
      | inr puzzles => ret (PuzzlesResponse date puzzles)
      end
  end.

(** The loop that looks for the puzzle with the id. *)
Definition findPuzzle (puzzleID : string) (puzzles : list Puzzle) : option Puzzle :=
  List.find (fun p => String.eqb (ID p) puzzleID) puzzles.

(** [PuzzleHandler.VerifyAnswerHandler], for what decoding the body of
    the request gives. *)
Definition VerifyAnswerHandler (h : PuzzleHandler) (requestBody : body VerifyRequest)
  : M response :=
  match requestBody with
  | Unreadable | Malformed => ret (HttpError 400 (Plain "Invalid request body"))
  | Payload req =>
      match store.ParsePuzzleID (PuzzleID req) with
      | inl err => ret (HttpError 400 (OfError EmptyString err))
      | inr (date, _) =>
          r <- attempt (store.GetPuzzlesForDate (store_ h) date) ;;
          match r with
          | inl _ => ret (HttpError 404 (Plain "Puzzle not found"))
          | inr puzzles =>
              match findPuzzle (PuzzleID req) puzzles with
              | None => ret (HttpError 404 (Plain "Puzzle not found"))
              | Some puzzle =>
                  let userAnswer :=
                    GoStrings.ToLower (GoStrings.TrimSpace (RequestAnswer req)) in
                  let correctAnswer :=
                    GoStrings.ToLower (GoStrings.TrimSpace (Answer puzzle)) in
                  ret (VerifyResponse (String.eqb userAnswer correctAnswer))
              end
          end
      end
  end.

(** [PuzzleHandler.TriggerJobHandler] *)
Definition TriggerJobHandler (h : PuzzleHandler) : M response :=
  r <- attempt (scheduler.TriggerTodayGeneration (scheduler_ h)) ;;
  match r with
  | inl err => ret (HttpError 500 (OfError "Failed to trigger job: " err))
  | inr generated =>
      ret (TriggerResponse generated
             (if generated then "Puzzles generated successfully for today"
              else "Puzzles already exist for today"))
  end.

End PuzzleHandler.
Arguments PuzzleHandler G : clear implicits.

Record ImageHandler : Type := mkImageHandler {
  imagesPath : string;
  useSupabase : bool;
  supabaseBaseURL : string
}.

(** [NewImageHandler], [NewImageHandlerWithSupabase] *)
Definition NewImageHandler (path : string) : ImageHandler :=
  mkImageHandler path false EmptyString.

Definition NewImageHandlerWithSupabase (baseURL : string) : ImageHandler :=
  mkImageHandler EmptyString true baseURL.

Definition contentTypeOf (ext : string) : string :=
  if String.eqb ext ".png" then "image/png"
  else if String.eqb ext ".jpg" || String.eqb ext ".jpeg" then "image/jpeg"
  else if String.eqb ext ".gif" then "image/gif"
  else "application/octet-stream".

(** [ImageHandler.ServeImage], for the method and the path of the
    request. *)
Definition ServeImage (h : ImageHandler) (method path : string) : response :=
  let filename := GoStrings.TrimPrefix path "/api/images/" in
  if GoStrings.Contains filename ".." then HttpError 400 (Plain "Invalid filename")
  else if useSupabase h then
    let parts := GoStrings.Split filename "-" in
    if (4 <=? length parts)%nat then
      let date := GoStrings.join "-" (firstn 3 parts) in
      let indexWithExt := nth 3 parts EmptyString in
      let index := GoStrings.TrimSuffix indexWithExt (store.Ext indexWithExt) in
      Redirect 301 (supabaseBaseURL h +:+ "/" +:+ date +:+ "/" +:+ index +:+ ".png")
    else Redirect 301 (supabaseBaseURL h +:+ "/" +:+ filename)
  else if GoStrings.Contains filename "/" then HttpError 400 (Plain "Invalid filename")
  else
    let imagePath := store.Join [imagesPath h; filename] in
    if String.eqb method "OPTIONS" then Preflight
    else ServeFile (contentTypeOf (store.Ext filename)) imagePath.

End handlers.

(** ** cmd/server: how [main] builds the store and the image handler *)

Module server.

(** [config.Config], the fields that decide where images are kept. *)
Record Config : Type := mkConfig {
  ImagesPath : string;
  SupabaseS3Bucket : string;
  SupabaseS3Region : string;
  SupabaseS3AccessKey : string;
  SupabaseS3SecretKey : string;
  SupabaseS3Endpoint : string;
  SupabaseS3PublicURL : string
}.

Definition nonEmpty (s : string) : bool := negb (String.eqb s EmptyString).

(** [storeInstance] of [main], when the constructor returns no error. *)
Definition storeInstance (cfg : Config) : store.Store :=
  if nonEmpty (SupabaseS3Bucket cfg) && nonEmpty (SupabaseS3AccessKey cfg)
     && nonEmpty (SupabaseS3SecretKey cfg)
  then store.NewStoreWithSupabase (SupabaseS3Bucket cfg) (SupabaseS3Region cfg)
         (SupabaseS3AccessKey cfg) (SupabaseS3SecretKey cfg) (SupabaseS3Endpoint cfg)
         (SupabaseS3PublicURL cfg)
  else store.NewStore (ImagesPath cfg).

(** [imageHandler] of [main] *)
Definition imageHandler (cfg : Config) : handlers.ImageHandler :=
  if nonEmpty (SupabaseS3Bucket cfg) && nonEmpty (SupabaseS3PublicURL cfg)
  then handlers.NewImageHandlerWithSupabase (SupabaseS3PublicURL cfg)
  else handlers.NewImageHandler (ImagesPath cfg).

End server.

(** ** Vocabulary of the statements *)

Module Observe.
Import models Runtime.

(** The next [n] entries of a script of faults are all [false]. *)
Definition noFaults (n : nat) (script : list bool) : bool :=
  forallb negb (firstn n script).

(** The table holds a row for the date. *)
Definition batchExists (date : string) (w : World) : bool :=
  (0 <? database.countForDate date (puzzles w))%nat.

(** The rows of a date, in table order. *)
Definition rowsFor (date : string) (w : World) : list Puzzle :=
  List.filter (database.forDate date) (puzzles w).

(** A poll reply that reports a job still under way. *)
Definition inProgress (r : reply ReplicatePrediction) : bool :=
  match r with
  | Response _ (Payload p) =>
      String.eqb (Status p) "starting" || String.eqb (Status p) "processing"
  | _ => false
  end.

(** The statuses [pollPrediction] has a case for. *)
Definition knownStatus (status : string) : bool :=
  String.eqb status "succeeded" || String.eqb status "failed"
  || String.eqb status "canceled" || String.eqb status "starting"
  || String.eqb status "processing".

(** The key of [UNIQUE(date, index_num)]. *)
Definition slot (p : Puzzle) : string * Z := (Date p, Index p).

(** A batch that can be written for [date] over the rows [rows]: its ids
    and positions are pairwise distinct, its records carry the date, and
    no row of another date has one of its ids. *)
Definition writable (date : string) (ps rows : list Puzzle) : Prop :=
  NoDup (map ID ps) /\ NoDup (map Index ps)
  /\ Forall (fun p => Date p = date) ps
  /\ (forall p r, In p ps -> In r rows -> Date r <> date -> ID r <> ID p).

(** No member of an object has the name, as [encoding/json] folds
    names. *)
Definition memberAbsent (name : string) (members : list (string * Json.json)) : Prop :=
  forall m, In m members -> ai.foldEq (fst m) name = false.

(** Every member of an object is a string. *)
Definition allStrings (members : list (string * Json.json)) : Prop :=
  Forall (fun m => exists s, snd m = Json.JStr s) members.

(** Two relations between the world before and after a call: the
    table is the same; the cache still has the entry it had for a
    date. *)
Definition sameTable (w w' : World) : Prop := puzzles w' = puzzles w.

Definition entryKept (date : string) (prompts : list RebusPrompt) (w w' : World) : Prop :=
  promptCache w !! date = Some prompts -> promptCache w' !! date = Some prompts.

(** Every entry of the prompt cache holds five prompts. *)
Definition cacheWellFormed (w : World) : Prop :=
  forall date prompts, promptCache w !! date = Some prompts -> length prompts = 5%nat.

Definition cacheKeptWellFormed (w w' : World) : Prop :=
  cacheWellFormed w -> cacheWellFormed w'.

(** The records [GenerateRebusPuzzles] builds from a list of prompts,
    the first at position [i]. *)
Fixpoint recordsFrom (g : ai.RealAIGenerator) (date : string) (st : store.Store)
    (i : Z) (prompts : list RebusPrompt) : list Puzzle :=
  match prompts with
  | [] => []
  | prompt :: later =>
      ai.buildPuzzle g date i st prompt :: recordsFrom g date st (i + 1) later
  end.

(** A model version that has been resolved stays, and the model
    metadata is not asked for again. *)
Definition versionKept (w w' : World) : Prop :=
  modelVersion w <> EmptyString ->
  modelVersion w' = modelVersion w /\ modelInfo w' = modelInfo w.

(** An image that is stored stays stored (its bytes may be replaced). *)
Definition imageKept (key : string) (w w' : World) : Prop :=
  is_Some (images w !! key) -> is_Some (images w' !! key).

(** The scripts of the polls and of the downloads are where they
    were. *)
Definition noPollNoDownload (w w' : World) : Prop :=
  polls w' = polls w /\ downloads w' = downloads w.

(** Ascending order of position. *)
Definition byIndex (a b : Puzzle) : Prop := (Index a <= Index b)%Z.

(** The row has the id. *)
Definition hasID (id : string) (r : Puzzle) : bool := String.eqb (ID r) id.

(** A time of day, and the nanoseconds from midnight to it. *)
Definition validClock (t : Time) : Prop :=
  (0 <= Hour t < 24 /\ 0 <= Minute t < 60 /\ 0 <= Second t < 60
   /\ 0 <= Nanosecond t < 1000000000)%Z.

Definition timeOfDay (t : Time) : Z :=
  scheduler.nanosOfDay (Hour t) (Minute t) (Second t) (Nanosecond t).

(** The bytes of a generated id: digits and [-]. *)
Definition idByte (c : ascii) : bool := GoStrings.isDigit c || (c =? "-")%char.

(** A calendar date of the years 0 to 9999. *)
Definition validDate (t : Time) : Prop :=
  (0 <= Year t <= 9999 /\ 1 <= Month t <= 12
   /\ 1 <= Day t <= store.daysIn (Year t) (Month t))%Z.

(** [%04d] writes four digits that denote the number, [%02d] two. *)
Definition fourDigits (y : Z) : bool :=
  match GoStrings.pad 4 y with
  | String a (String b (String c (String d EmptyString))) =>
      match store.digitsAcc (String a (String b (String c (String d EmptyString)))) 0 with
      | Some n => (n =? y)%Z
      | None => false
      end
  | _ => false
  end.

Definition twoDigits (m : Z) : bool :=
  match GoStrings.pad 2 m with
  | String a (String b EmptyString) =>
      match store.digitsAcc (String a (String b EmptyString)) 0 with
      | Some n => (n =? m)%Z
      | None => false
      end
  | _ => false
  end.

(** A part of the world is what it was. *)
Definition unchanged {A} (part : World -> A) (w w' : World) : Prop := part w' = part w.

(** A relation holds between the world before a call and the world
    after it, however the call ends. *)
Definition holdsAcross (R : World -> World -> Prop) {A} (c : M A) : Prop :=
  forall w, R w (snd (c w)).

End Observe.

(** ** Concrete worlds

    The inputs at which the statements below are exercised. *)

Module Samples.
Import models Runtime ai scheduler.

(** A JSON string literal for a text without special characters. *)
Definition quoted (s : string) : string :=
  String GoStrings.dq (s +:+ String GoStrings.dq EmptyString).

Definition member (name value : string) : string :=
  quoted name +:+ ": " +:+ quoted value.

Definition item (prompt answer hint : string) : string :=
  "{" +:+ member "prompt" prompt +:+ ", " +:+ member "answer" answer +:+ ", "
  +:+ member "hint" hint +:+ "}".

Definition fourItems : string :=
  item "a clock with wings" " Time Flies " "watch the hours"
  +:+ ", " +:+ item "a cake cut in pieces" "Piece of Cake" "dessert, and easy"
  +:+ ", " +:+ item "a hammer over ice" "break the ice" "a cold start"
  +:+ ", " +:+ item "cats and dogs falling" "raining cats and dogs" "bring an umbrella".

(** Five objects with every member, wrapped in prose. *)
Definition fiveItemsText : string :=
  "Here are your puzzles: [" +:+ fourItems +:+ ", "
  +:+ item "a house and sugar" "home sweet home" "where the heart is"
  +:+ "] Enjoy!".

(** Five objects, the last one without its hint. *)
Definition missingHintText : string :=
  "[" +:+ fourItems +:+ ", {" +:+ member "prompt" "a house and sugar" +:+ ", "
  +:+ member "answer" "home sweet home" +:+ "}]".

Definition fourPrompts : list RebusPrompt :=
  [ mkPrompt "a clock with wings" " Time Flies " "watch the hours";
    mkPrompt "a cake cut in pieces" "Piece of Cake" "dessert, and easy";
    mkPrompt "a hammer over ice" "break the ice" "a cold start";
    mkPrompt "cats and dogs falling" "raining cats and dogs" "bring an umbrella" ].

Definition fivePrompts : list RebusPrompt :=
  fourPrompts ++ [mkPrompt "a house and sugar" "home sweet home" "where the heart is"].

Definition today : string := "2024-01-15".

(** 15 January 2024, 07:00:00. *)
Definition sevenOClock : Time := mkTime 2024 1 15 7 0 0 0.

Definition theStore : store.Store :=
  store.mkStore "./storage/images" (store.mkSupabase EmptyString EmptyString EmptyString) false.

Definition theGenerator : RealAIGenerator :=
  mkRealAIGenerator (mkPromptGenerator "sk-key") (mkImageGenerator "r8-key" "black-forest-labs/flux-1.1-pro") "development".

(** The scheduler of [main], set for 06:00. *)
Definition theScheduler : Scheduler RealAIGenerator :=
  NewScheduler theStore theGenerator 6 0.

Definition claudeSays (text : string) : reply (list ContentBlock) :=
  Response 200 (Payload [mkBlock "text" text]).

Definition job (status output : string) : reply ReplicatePrediction :=
  Response 200 (Payload (mkPrediction "job-1" status output None)).

Definition created : reply ReplicatePrediction :=
  Response 201 (Payload (mkPrediction "job-1" "starting" EmptyString None)).

Definition png : download := Downloaded 200 (Some [Byte.x89; Byte.x50; Byte.x4e; Byte.x47]).

(** Nothing stored, nothing cached, no service reachable. *)
Definition quiet : World :=
  mkWorld sevenOClock [] [] ∅ [] [] 0 [] [] [] [] 0 ∅ EmptyString.

(** The end-to-end scenario: the prompt service returns five valid
    objects, every job succeeds with a string output (the first after
    one poll that finds it under way), every download succeeds. *)
Definition endToEnd : World :=
  mkWorld sevenOClock [] [] ∅ []
    [claudeSays fiveItemsText] 0
    [Response 200 (Payload "version-1")]
    (repeat created 5)
    (job "processing" EmptyString :: repeat (job "succeeded" (quoted "https://x/a.png")) 5)
    (repeat png 5)
    0 ∅ EmptyString.

(** The same, but the job for position 3 fails. *)
Definition renderFailsAt3 : World :=
  set_polls (repeat (job "succeeded" (quoted "https://x/a.png")) 3
             ++ [Response 200 (Payload (mkPrediction "job-1" "failed" EmptyString (Some "NSFW content detected")))])
    endToEnd.

(** The prompt service returns five objects, the last without its hint. *)
Definition missingHint : World :=
  set_claude [claudeSays missingHintText] 0 quiet.

Definition record (date : string) (i : Z) (answer hint : string) : Puzzle :=
  {| ID := date +:+ "-" +:+ GoStrings.itoa i;
     ImageURL := "/api/images/" +:+ date +:+ "-" +:+ GoStrings.itoa i +:+ ".png";
     ImagePath := "storage/images/" +:+ date +:+ "-" +:+ GoStrings.itoa i +:+ ".png";
     Answer := answer; Hint := hint; Date := date; Index := i |}.

Definition batch (date : string) : list Puzzle :=
  [ record date 0 "time flies" "watch the hours";
    record date 1 "piece of cake" "dessert, and easy";
    record date 2 "break the ice" "a cold start";
    record date 3 "raining cats and dogs" "bring an umbrella";
    record date 4 "home sweet home" "where the heart is" ].

(** Yesterday's and today's batches are in the table. *)
Definition withBatch : World := set_puzzles (batch "2024-01-14" ++ batch today) endToEnd.

(** The same, and the next query of the database fails. *)
Definition withBatchDbDown : World := set_dbFaults [true] withBatch.

(** A replacement batch for today. *)
Definition newBatch : list Puzzle :=
  [ record today 0 "butterfly" "it flutters";
    record today 1 "sunshine" "look up";
    record today 2 "rainbow" "after the rain";
    record today 3 "once upon a time" "how tales begin";
    record today 4 "time flies" "watch the hours" ].

(** An object with a prompt and an answer, and no hint. *)
Definition missingHintItem : Json.json :=
  Json.JObj [("prompt", Json.JStr "a house and sugar");
             ("answer", Json.JStr "home sweet home")].

(** Sixty polls find the job under way. *)
Definition neverDone : World := set_polls (repeat (job "processing" EmptyString) 60) quiet.

(** The first poll finds the job in a status the client has no case
    for; a second poll would find it done. *)
Definition submitted : World :=
  set_polls [job "submitted" EmptyString; job "succeeded" (quoted "https://x/a.png")] quiet.

Definition queued : World :=
  set_polls [job "queued" EmptyString; job "succeeded" (quoted "https://x/a.png")] quiet.

(** The handlers of [main] for the store on local files. *)
Definition thePuzzleHandler : handlers.PuzzleHandler RealAIGenerator :=
  handlers.NewPuzzleHandler theStore theScheduler.

Definition theImageHandler : handlers.ImageHandler :=
  handlers.NewImageHandler "./storage/images".

(** A configuration with Supabase set up in full, and one with the
    bucket and the public URL but no keys. *)
Definition cloud : server.Config :=
  server.mkConfig "./storage/images" "rebus" "eu-west-1" "access" "secret"
    "https://s3.example" "https://cdn.example/rebus".

Definition halfCloud : server.Config :=
  server.mkConfig "./storage/images" "rebus" "eu-west-1" EmptyString EmptyString
    "https://s3.example" "https://cdn.example/rebus".

(** A record whose answer has a letter outside ASCII: e acute, then
    [clair]; and what a player may submit for it: a no-break space, E
    acute, [CLAIR], an em space. *)
Definition eclair : Puzzle :=
  record today 0 (utf8.EncodeRune 233 +:+ "clair") "a pastry".

Definition shoutedEclair : string :=
  utf8.EncodeRune 160 +:+ utf8.EncodeRune 201 +:+ "CLAIR" +:+ utf8.EncodeRune 8195.

Definition withEclair : World := set_puzzles [eclair] quiet.

(** The record of position 2 of today's batch with another image and
    answer, filed under tomorrow. *)
Definition retouched : Puzzle :=
  {| ID := "2024-01-15-2"; ImageURL := "/api/images/new.png";
     ImagePath := "storage/images/new.png"; Answer := "thin ice"; Hint := "careful";
     Date := "2024-01-16"; Index := 9 |}.

End Samples.

(** * Properties *)

Import models Runtime Observe.


(** ** The table *)

Lemma next_drop {A} (d : A) (l : list A) : snd (next d l) = drop 1 l.
Proof. destruct l; reflexivity. Qed.

Lemma next_noFault (l : list bool) : noFaults 1 l = true -> fst (next false l) = false.
Proof. unfold noFaults. destruct l as [|[] l]; simpl; intros; congruence. Qed.

Lemma noFaults_S n l :
  noFaults (S n) l = true -> noFaults 1 l = true /\ noFaults n (drop 1 l) = true.
Proof.
  unfold noFaults. destruct l as [|b l]; simpl.
  - destruct n; auto.
  - rewrite drop_0. rewrite andb_true_iff. intros [-> ->]. auto.
Qed.

Lemma noFaults_split n m l :
  noFaults (n + m) l = true -> noFaults n l = true /\ noFaults m (drop n l) = true.
Proof.
  unfold noFaults. rewrite <- (take_take_drop l n m), forallb_app.
  apply andb_true_iff.
Qed.

Lemma stmt_ok e w :
  noFaults 1 (dbFaults w) = true ->
  database.stmt e w = (Ok tt, set_dbFaults (drop 1 (dbFaults w)) w).
Proof.
  intros Hf. unfold database.stmt.
  pose proof (next_noFault _ Hf) as Hn. pose proof (next_drop false (dbFaults w)) as Hd.
  destruct (next false (dbFaults w)) as [f rest]; simpl in *. subst. reflexivity.
Qed.

Lemma stmt_cases e w :
  database.stmt e w = (Ok tt, set_dbFaults (drop 1 (dbFaults w)) w)
  \/ database.stmt e w = (Fail e, set_dbFaults (drop 1 (dbFaults w)) w).
Proof.
  unfold database.stmt. pose proof (next_drop false (dbFaults w)) as Hd.
  destruct (next false (dbFaults w)) as [[] rest]; simpl in *; subst; auto.
Qed.

Lemma insertAll_cases ps : forall tx w,
  exists w', puzzles w' = puzzles w /\
    (database.insertAll ps tx w = (Ok (tx ++ ps), w')
     \/ exists e, database.insertAll ps tx w = (Fail e, w')).
Proof.
  induction ps as [|p ps IH]; intros tx w; simpl.
  - exists w. split; [reflexivity|]. left. unfold ret. by rewrite app_nil_r.
  - unfold bind.
    destruct (stmt_cases (ErrInsert (ID p)) w) as [-> | ->].
    + destruct (database.conflicts p tx).
      * eexists. split; [|right; eexists; reflexivity]. reflexivity.
      * destruct (IH (tx ++ [p]) (set_dbFaults (drop 1 (dbFaults w)) w)) as (w' & Hp & Hr).
        exists w'. split; [exact Hp|]. rewrite <- app_assoc in Hr. exact Hr.
    + eexists. split; [|right; eexists; reflexivity]. reflexivity.
Qed.

Lemma conflicts_false p rows :
  (forall r, In r rows -> ID r <> ID p /\ slot r <> slot p) ->
  database.conflicts p rows = false.
Proof.
  intros Hfresh. unfold database.conflicts. apply orb_false_iff. split.
  - apply not_true_iff_false. intros Hex. apply existsb_exists in Hex as (r & Hin & Heq).
    apply String.eqb_eq in Heq. by destruct (Hfresh r Hin).
  - apply not_true_iff_false. intros Hex. apply existsb_exists in Hex as (r & Hin & Heq).
    apply andb_true_iff in Heq as [Hd Hi].
    apply String.eqb_eq in Hd. apply Z.eqb_eq in Hi.
    destruct (Hfresh r Hin) as [_ Hs]. apply Hs. unfold slot. congruence.
Qed.

Lemma insertAll_ok ps : forall tx w,
  noFaults (length ps) (dbFaults w) = true ->
  NoDup (map ID ps) -> NoDup (map slot ps) ->
  (forall p r, In p ps -> In r tx -> ID r <> ID p /\ slot r <> slot p) ->
  database.insertAll ps tx w
  = (Ok (tx ++ ps), set_dbFaults (drop (length ps) (dbFaults w)) w).
Proof.
  induction ps as [|p ps IH]; intros tx w Hf Hid Hslot Hfresh; simpl.
  - unfold ret. rewrite app_nil_r, drop_0. by destruct w.
  - apply noFaults_S in Hf as [Hf1 Hf].
    inversion Hid as [|? ? Hp1 Hid']; subst. inversion Hslot as [|? ? Hp2 Hslot']; subst.
    unfold bind. rewrite (stmt_ok _ _ Hf1).
    rewrite conflicts_false by (intros r Hr; apply Hfresh; [by left | done]).
    rewrite IH; simpl; try done.
    + rewrite <- app_assoc. simpl. rewrite drop_drop. reflexivity.
    + intros p' r Hp' Hr. apply in_app_or in Hr as [Hr | [<- | []]].
      * apply Hfresh; [by right | done].
      * split; intros Heq.
        -- apply Hp1. rewrite Heq. apply list_elem_of_In. by apply in_map.
        -- apply Hp2. rewrite Heq. apply list_elem_of_In. by apply in_map.
Qed.

Lemma filter_forDate_all date ps :
  Forall (fun p => Date p = date) ps -> List.filter (database.forDate date) ps = ps.
Proof.
  induction 1 as [|p ps Hp _ IH]; simpl; [done|].
  unfold database.forDate at 1. rewrite Hp, String.eqb_refl. by rewrite IH.
Qed.

Lemma filter_forDate_other date d ps :
  d <> date -> Forall (fun p => Date p = date) ps -> List.filter (database.forDate d) ps = [].
Proof.
  intros Hne. induction 1 as [|p ps Hp _ IH]; simpl; [done|].
  unfold database.forDate at 1. rewrite Hp.
  destruct (String.eqb_spec date d); [congruence | done].
Qed.

Lemma filter_forDate_removed date d rows :
  List.filter (database.forDate d) (List.filter (fun r => negb (database.forDate date r)) rows)
  = if String.eqb d date then [] else List.filter (database.forDate d) rows.
Proof.
  induction rows as [|r rows IH]; simpl; [by destruct (String.eqb d date)|].
  destruct (database.forDate date r) eqn:E1; simpl.
  - rewrite IH. destruct (String.eqb_spec d date) as [->|Hd]; [done|].
    unfold database.forDate in *. apply String.eqb_eq in E1.
    destruct (String.eqb_spec (Date r) d); [congruence|done].
  - rewrite IH. destruct (String.eqb_spec d date) as [->|Hd]; [by rewrite E1|done].
Qed.

Lemma SavePuzzles_cases date ps w :
  (exists w', database.SavePuzzles date ps w = (Ok tt, w')
              /\ puzzles w' = List.filter (fun r => negb (database.forDate date r)) (puzzles w) ++ ps)
  \/ (exists e w', database.SavePuzzles date ps w = (Fail e, w')
                   /\ puzzles w' = puzzles w).
Proof.
  unfold database.SavePuzzles, bind, gets, modify.
  destruct (stmt_cases ErrBegin w) as [-> | ->]; [|right; eauto].
  set (w1 := set_dbFaults _ w).
  destruct (stmt_cases ErrDelete w1) as [-> | ->]; [|right; eauto].
  set (w2 := set_dbFaults _ w1).
  destruct (stmt_cases ErrPrepare w2) as [-> | ->]; [|right; eauto].
  set (w3 := set_dbFaults _ w2).
  destruct (insertAll_cases ps (List.filter (fun r => negb (database.forDate date r)) (puzzles w1)) w3)
    as (w4 & Hp4 & [-> | [e ->]]); [|right; eauto].
  destruct (stmt_cases ErrCommit w4) as [-> | ->]; [|right; eauto 6].
  left. eexists. split; [reflexivity|]. reflexivity.
Qed.

Lemma slots_NoDup date ps :
  NoDup (map Index ps) -> Forall (fun p => Date p = date) ps -> NoDup (map slot ps).
Proof.
  intros Hidx Hdate. induction ps as [|p ps IH]; simpl; [constructor|].
  inversion Hidx as [|? ? Hp Hidx']; subst. inversion Hdate as [|? ? Hd Hdate']; subst.
  constructor; [|by apply IH].
  intros Hin. apply Hp. apply list_elem_of_In in Hin. apply in_map_iff in Hin as (p' & Heq & Hin).
  apply list_elem_of_In. apply in_map_iff. exists p'. split; [|done].
  unfold slot in Heq. congruence.
Qed.

Lemma SavePuzzles_replaces date ps w :
  noFaults (4 + length ps) (dbFaults w) = true ->
  writable date ps (puzzles w) ->
  exists w', database.SavePuzzles date ps w = (Ok tt, w')
             /\ rowsFor date w' = ps
             /\ forall d, d <> date -> rowsFor d w' = rowsFor d w.
Proof.
  intros Hf (Hid & Hidx & Hdate & Hother).
  unfold database.SavePuzzles, bind, gets, modify.
  replace (4 + length ps) with (1 + (1 + (1 + (length ps + 1)))) in Hf by lia.
  apply noFaults_split in Hf as [Hf1 Hf]. rewrite (stmt_ok _ _ Hf1).
  set (w1 := set_dbFaults _ w).
  apply noFaults_split in Hf as [Hf2 Hf]. rewrite (stmt_ok _ w1 Hf2).
  set (w2 := set_dbFaults _ w1).
  apply noFaults_split in Hf as [Hf3 Hf]. rewrite (stmt_ok _ w2 Hf3).
  set (w3 := set_dbFaults _ w2).
  apply noFaults_split in Hf as [Hf4 Hf5].
  rewrite (insertAll_ok ps _ w3).
  - set (w4 := set_dbFaults _ w3).
    rewrite (stmt_ok _ w4 Hf5). eexists. split; [reflexivity|].
    unfold rowsFor. simpl. split.
    + rewrite List.filter_app, filter_forDate_removed, String.eqb_refl. simpl.
      by apply filter_forDate_all.
    + intros d Hd. rewrite List.filter_app, filter_forDate_removed.
      destruct (String.eqb_spec d date); [done|].
      rewrite (filter_forDate_other date d ps) by done. by rewrite app_nil_r.
  - exact Hf4.
  - done.
  - by apply (slots_NoDup date).
  - intros p r Hp Hr. simpl in Hr. apply filter_In in Hr as [Hr Hnd].
    assert (Hne : Date r <> date).
    { unfold database.forDate in Hnd. by destruct (String.eqb_spec (Date r) date). }
    split; [by eapply Hother|].
    unfold slot. rewrite Forall_forall in Hdate.
    intros Heq. apply Hne. injection Heq as -> _. apply Hdate. by apply list_elem_of_In.
Qed.

(** C4.  [SavePuzzles] is all or nothing: it either returns nil and the
    table is the old one without the rows of the date, followed by all
    the supplied records, or it returns an error and the table is what
    it was.  Rows already present for the date are no obstacle: with no
    failing statement and a well-formed batch the call succeeds, the
    rows of the date are then exactly the batch, and the rows of every
    other date are untouched. *)
Theorem SavePuzzles_atomic (date : string) (ps : list Puzzle) (w : World) :
  ((exists w', database.SavePuzzles date ps w = (Ok tt, w')
               /\ puzzles w' = List.filter (fun r => negb (database.forDate date r)) (puzzles w) ++ ps)
   \/ (exists e w', database.SavePuzzles date ps w = (Fail e, w')
                    /\ puzzles w' = puzzles w))
  /\ (noFaults (4 + length ps) (dbFaults w) = true ->
      writable date ps (puzzles w) ->
      exists w', database.SavePuzzles date ps w = (Ok tt, w')
                 /\ rowsFor date w' = ps
                 /\ forall d, d <> date -> rowsFor d w' = rowsFor d w).
Proof.
  split; [apply SavePuzzles_cases | apply SavePuzzles_replaces].
Qed.

(** ** The existence check *)

Import store scheduler ai.

Lemma db_Has_cases date w :
  database.HasPuzzlesForDate date w
  = (if fst (next false (dbFaults w)) then Fail ErrCheckPuzzles
     else Ok (batchExists date w),
     set_dbFaults (drop 1 (dbFaults w)) w).
Proof.
  unfold database.HasPuzzlesForDate, bind, database.stmt, gets, ret.
  pose proof (next_drop false (dbFaults w)) as Hd.
  destruct (next false (dbFaults w)) as [[] rest]; simpl in *; subst; reflexivity.
Qed.

Lemma Has_cases s date w :
  store.HasPuzzlesForDate s date w
  = (Ok (negb (fst (next false (dbFaults w))) && batchExists date w),
     set_dbFaults (drop 1 (dbFaults w)) w).
Proof.
  unfold store.HasPuzzlesForDate, bind, attempt. rewrite db_Has_cases.
  destruct (fst (next false (dbFaults w))); reflexivity.
Qed.

Lemma Has_absent s date w :
  batchExists date w = false ->
  store.HasPuzzlesForDate s date w = (Ok false, set_dbFaults (drop 1 (dbFaults w)) w).
Proof. intros Hb. rewrite Has_cases, Hb. by rewrite andb_false_r. Qed.

Lemma Has_present s date w :
  batchExists date w = true -> noFaults 1 (dbFaults w) = true ->
  store.HasPuzzlesForDate s date w = (Ok true, set_dbFaults (drop 1 (dbFaults w)) w).
Proof. intros Hb Hf. rewrite Has_cases, Hb, (next_noFault _ Hf). reflexivity. Qed.

Section SchedulerFacts.
Context {G : Type} `{AIGenerator G}.
Implicit Types (s : Scheduler G) (w : World).

Lemma generatePuzzlesForToday_absent s w :
  batchExists (formatDate (clock w)) w = false ->
  generatePuzzlesForToday s w = (Ok NotGenerating, set_dbFaults (drop 2 (dbFaults w)) w).
Proof.
  intros Hb. unfold generatePuzzlesForToday, bind, GetTodayDate, gets.
  rewrite (Has_absent _ _ w Hb).
  rewrite (Has_absent _ _ (set_dbFaults _ w)) by exact Hb.
  simpl. unfold ret. rewrite drop_drop. reflexivity.
Qed.

(** C1.  With no batch for today, [TriggerTodayGeneration] calls no
    service and writes nothing: [generatePuzzlesForToday] returns at its
    second check, and the call reports [(false, error)].  Only the four
    existence checks have been spent. *)
Theorem TriggerTodayGeneration_produces_nothing s w :
  batchExists (formatDate (clock w)) w = false ->
  TriggerTodayGeneration s w
  = (Fail ErrFailedToGenerateToday, set_dbFaults (drop 4 (dbFaults w)) w).
Proof.
  intros Hb. unfold TriggerTodayGeneration, bind, GetTodayDate, gets.
  rewrite (Has_absent _ _ w Hb).
  rewrite (generatePuzzlesForToday_absent s (set_dbFaults _ w)) by exact Hb.
  rewrite (Has_absent _ _ (set_dbFaults _ (set_dbFaults _ w))) by exact Hb.
  simpl. unfold fail. rewrite !drop_drop. reflexivity.
Qed.

(** C2.  [Start] on a scheduler that is not running: when the scheduled
    time has passed and there is no batch for today, the catch-up run is
    entered but produces nothing (it ends at the second check of
    [generatePuzzlesForToday]); when a batch exists and the check
    answers, no run is made. *)
Theorem Start_catch_up s w :
  running s = false ->
  (batchExists (formatDate (clock w)) w = false ->
   pastScheduledTime s (clock w) = true ->
   Start s w = (Ok (set_running true s, Some (Ran NotGenerating)),
                set_dbFaults (drop 3 (dbFaults w)) w))
  /\ (batchExists (formatDate (clock w)) w = true ->
      noFaults 1 (dbFaults w) = true ->
      Start s w = (Ok (set_running true s, Some SkippedExisting),
                   set_dbFaults (drop 1 (dbFaults w)) w)).
Proof.
  intros Hr. unfold Start. rewrite Hr. split.
  - intros Hb Hpast. unfold checkAndRunIfNeeded, bind, GetTodayDate, gets.
    rewrite (Has_absent _ _ w Hb).
    change (pastScheduledTime (set_running true s) (clock w)) with (pastScheduledTime s (clock w)).
    rewrite Hpast.
    rewrite (generatePuzzlesForToday_absent _ (set_dbFaults _ w)) by exact Hb.
    simpl. unfold ret. rewrite drop_drop. reflexivity.
  - intros Hb Hf. unfold checkAndRunIfNeeded, bind, GetTodayDate, gets.
    rewrite (Has_present _ _ w Hb Hf). reflexivity.
Qed.

(** C5.  With a batch for today in the table and the next two existence
    checks answered, two calls of [TriggerTodayGeneration] in a row both
    return [(false, nil)]; nothing but the two checks has happened, so
    the table is what it was. *)
Theorem TriggerTodayGeneration_idempotent s w :
  batchExists (formatDate (clock w)) w = true ->
  noFaults 2 (dbFaults w) = true ->
  let first := TriggerTodayGeneration s w in
  let second := TriggerTodayGeneration s (snd first) in
  fst first = Ok false /\ fst second = Ok false
  /\ puzzles (snd first) = puzzles w /\ puzzles (snd second) = puzzles w
  /\ snd second = set_dbFaults (drop 2 (dbFaults w)) w.
Proof.
  intros Hb Hf. apply (noFaults_split 1 1) in Hf as [Hf1 Hf2].
  assert (H1 : TriggerTodayGeneration s w = (Ok false, set_dbFaults (drop 1 (dbFaults w)) w)).
  { unfold TriggerTodayGeneration, bind, GetTodayDate, gets.
    by rewrite (Has_present _ _ w Hb Hf1). }
  assert (H2 : TriggerTodayGeneration s (set_dbFaults (drop 1 (dbFaults w)) w)
               = (Ok false, set_dbFaults (drop 2 (dbFaults w)) w)).
  { unfold TriggerTodayGeneration, bind, GetTodayDate, gets.
    rewrite (Has_present _ _ (set_dbFaults _ w)) by done.
    simpl. unfold ret. rewrite drop_drop. reflexivity. }
  simpl. rewrite H1. simpl. rewrite H2. simpl. auto.
Qed.

End SchedulerFacts.

Section StorageFailure.
Context {G : Type} `{AIGenerator G}.

(** C10.  When the query of [DB.HasPuzzlesForDate] fails,
    [Store.HasPuzzlesForDate] answers [false], whatever the table holds:
    the answer it gives when there is no row for the date.  A caller
    that sees this [false] goes on to produce:
    [TriggerManualGeneration] calls the generator and saves, and
    [generatePuzzlesForToday] does once its second check has answered
    that the batch exists. *)
Theorem HasPuzzlesForDate_hides_errors (sch : Scheduler G) (date : string)
    (w w' : World) (e : error) :
  database.HasPuzzlesForDate date w = (Fail e, w') ->
  store.HasPuzzlesForDate (store_ sch) date w = (Ok false, w')
  /\ (forall w0, batchExists date w0 = false ->
        fst (store.HasPuzzlesForDate (store_ sch) date w0)
        = fst (store.HasPuzzlesForDate (store_ sch) date w))
  /\ (ValidateDate date = None ->
      TriggerManualGeneration sch date w
      = (puzzlePointers <- wrap "failed to generate puzzles"
                             (GenerateRebusPuzzles (generator sch) date (store_ sch)) ;;
         store.SavePuzzles (store_ sch) date (derefAll puzzlePointers)) w')
  /\ (formatDate (clock w) = date -> batchExists date w = true ->
      forall later, dbFaults w' = false :: later ->
      generatePuzzlesForToday sch w = generateAndSave sch date (set_dbFaults later w')).
Proof.
  intros Hq.
  assert (Hs : store.HasPuzzlesForDate (store_ sch) date w = (Ok false, w')).
  { unfold store.HasPuzzlesForDate, bind, attempt. by rewrite Hq. }
  split; [exact Hs|]. split; [|split].
  - intros w0 Hb. by rewrite (Has_absent _ _ w0 Hb), Hs.
  - intros Hv. unfold TriggerManualGeneration. rewrite Hv.
    unfold bind at 1. by rewrite Hs.
  - intros Hd Hb later Hl. unfold generatePuzzlesForToday, bind, GetTodayDate, gets.
    rewrite Hd, Hs.
    rewrite db_Has_cases in Hq. injection Hq as Hfault Hw'.
    assert (Hb' : batchExists date w' = true) by (by rewrite <- Hw').
    rewrite (Has_cases _ _ w'), Hb', Hl. reflexivity.
Qed.

End StorageFailure.

(** ** What the pipeline leaves alone

    [R] is a relation between the world before and after a call that
    holds across every elementary effect of the generator. *)

Create HintDb keeps.

Section Frame.
Variable R : World -> World -> Prop.
Hypothesis R_refl : forall w, R w w.
Hypothesis R_trans : forall a b c, R a b -> R b c -> R a c.
Hypothesis R_images : forall w v, R w (set_images v w).
Hypothesis R_imageFaults : forall w v, R w (set_imageFaults v w).
Hypothesis R_claude : forall w v n, R w (set_claude v n w).
Hypothesis R_modelInfo : forall w v, R w (set_modelInfo v w).
Hypothesis R_predictions : forall w v, R w (set_predictions v w).
Hypothesis R_polls : forall w v, R w (set_polls v w).
Hypothesis R_downloads : forall w v, R w (set_downloads v w).
Hypothesis R_slept : forall w v, R w (set_slept v w).
Hypothesis R_modelVersion : forall w v, R w (set_modelVersion v w).
Hypothesis R_dbFaults : forall w v, R w (set_dbFaults v w).
Hypothesis R_puzzles : forall w v, R w (set_puzzles v w).
Hypothesis R_promptCache : forall w date v,
  promptCache w !! date = None ->
  R w (set_promptCache (<[date := v]> (promptCache w)) w).

#[local] Abbreviation keeps := (holdsAcross R).

Lemma keeps_ret {A} (a : A) : keeps (ret a).
Proof. intros w. apply R_refl. Qed.

Lemma keeps_fail {A} (e : error) : keeps (@fail A e).
Proof. intros w. apply R_refl. Qed.

Lemma keeps_panic {A} : keeps (@panic A).
Proof. intros w. apply R_refl. Qed.

Lemma keeps_lift {A} (r : result A) : keeps (lift r).
Proof. intros w. apply R_refl. Qed.

Lemma keeps_gets {A} (f : World -> A) : keeps (gets f).
Proof. intros w. apply R_refl. Qed.

Lemma keeps_bind {A B} (c : M A) (k : A -> M B) :
  keeps c -> (forall a, keeps (k a)) -> keeps (bind c k).
Proof.
  intros Hc Hk w. unfold bind. specialize (Hc w).
  destruct (c w) as [[a| |] w1]; simpl in *; [|done|done].
  eapply R_trans; [exact Hc | apply Hk].
Qed.

Lemma keeps_wrap {A} (context : string) (c : M A) : keeps c -> keeps (wrap context c).
Proof.
  intros Hc w. unfold wrap. specialize (Hc w). by destruct (c w) as [[| |] w1].
Qed.

Lemma keeps_attempt {A} (c : M A) : keeps c -> keeps (attempt c).
Proof.
  intros Hc w. unfold attempt. specialize (Hc w). by destruct (c w) as [[| |] w1].
Qed.

Lemma keeps_modify f : (forall w, R w (f w)) -> keeps (modify f).
Proof. intros Hf w. apply Hf. Qed.

Lemma keeps_callClaude : keeps callClaude.
Proof. intros w. unfold callClaude. destruct (next NoResponse (claude w)). apply R_claude. Qed.

Lemma keeps_getModelInfo : keeps getModelInfo.
Proof. intros w. unfold getModelInfo. destruct (next NoResponse (modelInfo w)). apply R_modelInfo. Qed.

Lemma keeps_postPrediction : keeps postPrediction.
Proof. intros w. unfold postPrediction. destruct (next NoResponse (predictions w)). apply R_predictions. Qed.

Lemma keeps_poll : keeps poll.
Proof. intros w. unfold poll. destruct (next NoResponse (polls w)). apply R_polls. Qed.

Lemma keeps_httpGet : keeps httpGet.
Proof. intros w. unfold httpGet. destruct (next NoDownload (downloads w)). apply R_downloads. Qed.

Lemma keeps_Sleep n : keeps (Sleep n).
Proof. intros w. apply R_slept. Qed.

Lemma keeps_writeImage e key data : keeps (writeImage e key data).
Proof.
  intros w. unfold writeImage. destruct (next false (imageFaults w)) as [[] rest]; simpl.
  - apply R_imageFaults.
  - eapply R_trans; [apply R_imageFaults | apply R_images].
Qed.

#[local] Hint Resolve keeps_ret keeps_fail keeps_panic keeps_lift keeps_gets
  keeps_callClaude keeps_getModelInfo keeps_postPrediction keeps_poll
  keeps_httpGet keeps_Sleep keeps_writeImage : keeps.

(** Walks down a computation built from [bind], [wrap], [attempt] and
    case distinctions, closing the leaves with the [keeps] hints. *)
Ltac frame :=
  repeat first
    [ solve [auto with keeps]
    | apply keeps_wrap | apply keeps_attempt
    | apply keeps_bind; [|intros ?]
    | match goal with
      | |- keeps (if ?b then _ else _) => destruct b
      | |- keeps (match ?x with _ => _ end) => destruct x
      end ].

Lemma keeps_SaveImage s date index data : keeps (store.SaveImage s date index data).
Proof. unfold store.SaveImage, Supabase_SaveImage. frame. Qed.

Lemma keeps_GetPromptsFromClaude pg date : keeps (GetPromptsFromClaude pg date).
Proof.
  intros w. unfold GetPromptsFromClaude, bind, gets, callClaude.
  destruct (promptCache w !! date) eqn:Hmiss; [apply R_refl|].
  destruct (next NoResponse (claude w)) as [[|status b] rest]; simpl; [apply R_claude|].
  destruct (negb (status =? 200)%Z).
  { destruct (status =? 401)%Z; [destruct (String.eqb _ _)|]; apply R_claude. }
  destruct b as [| |[|first others]]; try apply R_claude.
  unfold lift. destruct (promptsOfText (Text first)); simpl; try apply R_claude.
  eapply R_trans; [apply (R_claude w rest (S (claudeRequests w)))|].
  apply (R_promptCache (set_claude rest (S (claudeRequests w)) w)). exact Hmiss.
Qed.

Lemma keeps_fetchLatestModelVersion ig : keeps (fetchLatestModelVersion ig).
Proof. unfold fetchLatestModelVersion. frame. Qed.

#[local] Hint Resolve keeps_SaveImage keeps_GetPromptsFromClaude
  keeps_fetchLatestModelVersion : keeps.

Lemma keeps_getModelVersion ig : keeps (getModelVersion ig).
Proof. unfold getModelVersion. frame. apply keeps_modify. intros w. apply R_modelVersion. Qed.

#[local] Hint Resolve keeps_getModelVersion : keeps.

Lemma keeps_createPrediction ig prompt : keeps (createPrediction ig prompt).
Proof. unfold createPrediction. frame. Qed.

Lemma keeps_pollFrom ig remaining : keeps (pollFrom ig remaining).
Proof. induction remaining as [|n IH]; simpl; frame. Qed.

Lemma keeps_downloadImage ig url : keeps (downloadImage ig url).
Proof. unfold downloadImage. frame. Qed.

#[local] Hint Resolve keeps_createPrediction keeps_pollFrom keeps_downloadImage : keeps.

Lemma keeps_GenerateImageFromPrompt ig prompt : keeps (GenerateImageFromPrompt ig prompt).
Proof. unfold GenerateImageFromPrompt, pollPrediction. frame. Qed.

#[local] Hint Resolve keeps_GenerateImageFromPrompt : keeps.

Lemma keeps_generateFrom g date st prompts : forall i, keeps (generateFrom g date st i prompts).
Proof. induction prompts as [|prompt later IH]; intros i; simpl; frame. Qed.

#[local] Hint Resolve keeps_generateFrom : keeps.

Lemma keeps_GenerateRebusPuzzles g date st : keeps (Real_GenerateRebusPuzzles g date st).
Proof. unfold Real_GenerateRebusPuzzles. frame. Qed.

Lemma keeps_GenerateRebusPuzzle g date index st : keeps (Real_GenerateRebusPuzzle g date index st).
Proof. unfold Real_GenerateRebusPuzzle. frame. Qed.

#[local] Hint Resolve keeps_GenerateRebusPuzzles keeps_GenerateRebusPuzzle : keeps.

(** The calls that reach the table as well. *)

Lemma keeps_stmt e : keeps (database.stmt e).
Proof.
  intros w. unfold database.stmt.
  destruct (next false (dbFaults w)) as [[] rest]; apply R_dbFaults.
Qed.

#[local] Hint Resolve keeps_stmt : keeps.

Lemma keeps_insertAll ps : forall tx, keeps (database.insertAll ps tx).
Proof. induction ps as [|p ps IH]; intros tx; simpl; frame. Qed.

#[local] Hint Resolve keeps_insertAll : keeps.

Lemma keeps_SavePuzzles s date ps : keeps (store.SavePuzzles s date ps).
Proof.
  unfold store.SavePuzzles, database.SavePuzzles. frame.
  apply keeps_modify. intros w. apply R_puzzles.
Qed.

Lemma keeps_HasPuzzlesForDate s date : keeps (store.HasPuzzlesForDate s date).
Proof. unfold store.HasPuzzlesForDate, database.HasPuzzlesForDate. frame. Qed.

#[local] Hint Resolve keeps_SavePuzzles keeps_HasPuzzlesForDate : keeps.

Implicit Types s : Scheduler RealAIGenerator.

Lemma keeps_generateAndSave s today : keeps (generateAndSave s today).
Proof. unfold generateAndSave. simpl. frame. Qed.

#[local] Hint Resolve keeps_generateAndSave : keeps.

Lemma keeps_generatePuzzlesForToday s : keeps (generatePuzzlesForToday s).
Proof. unfold generatePuzzlesForToday, GetTodayDate. frame. Qed.

#[local] Hint Resolve keeps_generatePuzzlesForToday : keeps.

Lemma keeps_TriggerManualGeneration s date : keeps (TriggerManualGeneration s date).
Proof. unfold TriggerManualGeneration. simpl. frame. Qed.

Lemma keeps_TriggerTodayGeneration s : keeps (TriggerTodayGeneration s).
Proof. unfold TriggerTodayGeneration, GetTodayDate. frame. Qed.

Lemma keeps_Start s : keeps (Start s).
Proof. unfold Start, checkAndRunIfNeeded, GetTodayDate. frame. Qed.

End Frame.

(** The generator never writes to the table. *)
Lemma GenerateRebusPuzzles_sameTable g date st w :
  sameTable w (snd (Real_GenerateRebusPuzzles g date st w)).
Proof.
  apply (keeps_GenerateRebusPuzzles sameTable);
    unfold sameTable; intros; simpl; congruence.
Qed.

Section Production.
Implicit Types (s : Scheduler RealAIGenerator) (w : World).

Lemma generateAndSave_cases s D w :
  (exists w', generateAndSave s D w = (Ok Saved, w'))
  \/ puzzles (snd (generateAndSave s D w)) = puzzles w.
Proof.
  unfold generateAndSave, bind, attempt. simpl.
  pose proof (GenerateRebusPuzzles_sameTable (generator s) D (store_ s) w) as Hg.
  unfold sameTable in Hg.
  destruct (Real_GenerateRebusPuzzles (generator s) D (store_ s) w) as [[pp|e|] w1];
    simpl in *; [|by right|by right].
  unfold store.SavePuzzles.
  destruct (SavePuzzles_cases D (derefAll pp) w1) as [(w2 & -> & _) | (e & w2 & -> & Hp)].
  - left. by eexists.
  - right. simpl. congruence.
Qed.

Lemma TriggerManualGeneration_cases s D w :
  (exists w', TriggerManualGeneration s D w = (Ok tt, w'))
  \/ puzzles (snd (TriggerManualGeneration s D w)) = puzzles w.
Proof.
  unfold TriggerManualGeneration. destruct (ValidateDate D); [by right|].
  unfold bind, wrap. rewrite Has_cases.
  destruct (negb _ && _); [by right|]. simpl.
  pose proof (GenerateRebusPuzzles_sameTable (generator s) D (store_ s)
                (set_dbFaults (drop 1 (dbFaults w)) w)) as Hg.
  unfold sameTable in Hg.
  destruct (Real_GenerateRebusPuzzles _ _ _ _) as [[pp|e|] w1];
    simpl in *; [|by right|by right].
  unfold store.SavePuzzles.
  destruct (SavePuzzles_cases D (derefAll pp) w1) as [(w2 & -> & _) | (e & w2 & -> & Hp)].
  - left. by eexists.
  - right. simpl. congruence.
Qed.

(** C3.  A production for a date that has no batch and that does not
    end in success, whatever the stage that failed (the prompts, an
    image at any position, the file of an image, the write of the
    batch), leaves the table as it was, so the existence check for the
    date still answers false.  This holds for the production proper
    ([generateAndSave]), for [generatePuzzlesForToday] around it, and
    for [TriggerManualGeneration]. *)
Theorem failed_production_leaves_no_batch s (D : string) w :
  batchExists D w = false ->
  (forall r w', generateAndSave s D w = (r, w') -> r <> Ok Saved ->
     puzzles w' = puzzles w
     /\ fst (store.HasPuzzlesForDate (store_ s) D w') = Ok false)
  /\ (forall r w', formatDate (clock w) = D ->
       generatePuzzlesForToday s w = (r, w') -> r <> Ok Saved ->
       puzzles w' = puzzles w
       /\ fst (store.HasPuzzlesForDate (store_ s) D w') = Ok false)
  /\ (forall r w', TriggerManualGeneration s D w = (r, w') -> r <> Ok tt ->
       puzzles w' = puzzles w
       /\ fst (store.HasPuzzlesForDate (store_ s) D w') = Ok false).
Proof.
  intros Hb.
  assert (Hcheck : forall w', puzzles w' = puzzles w ->
            puzzles w' = puzzles w
            /\ fst (store.HasPuzzlesForDate (store_ s) D w') = Ok false).
  { intros w' Hp. split; [exact Hp|]. rewrite Has_absent; [done|].
    unfold batchExists in *. by rewrite Hp. }
  split; [|split].
  - intros r w' Hrun Hr. apply Hcheck.
    destruct (generateAndSave_cases s D w) as [(w2 & Hs) | Hp].
    + rewrite Hs in Hrun. congruence.
    + by rewrite Hrun in Hp.
  - intros r w' Hd Hrun Hr. apply Hcheck.
    rewrite generatePuzzlesForToday_absent in Hrun by (by rewrite Hd).
    by injection Hrun as _ <-.
  - intros r w' Hrun Hr. apply Hcheck.
    destruct (TriggerManualGeneration_cases s D w) as [(w2 & Hs) | Hp].
    + rewrite Hs in Hrun. congruence.
    + by rewrite Hrun in Hp.
Qed.

End Production.

(** ** The prompt cache *)

Lemma GetPromptsFromClaude_hit pg D w prompts :
  promptCache w !! D = Some prompts ->
  GetPromptsFromClaude pg D w = (Ok prompts, w).
Proof. intros Hhit. unfold GetPromptsFromClaude, bind, gets. by rewrite Hhit. Qed.

Lemma GetPromptsFromClaude_ok pg D w prompts w1 :
  GetPromptsFromClaude pg D w = (Ok prompts, w1) ->
  promptCache w1 !! D = Some prompts
  /\ (claudeRequests w1 <= S (claudeRequests w))%nat.
Proof.
  unfold GetPromptsFromClaude, bind, gets, callClaude.
  destruct (promptCache w !! D) eqn:Hc.
  { unfold ret. intros [= <- <-]. split; [done | lia]. }
  destruct (next NoResponse (claude w)) as [[|status b] rest]; simpl; [by unfold fail|].
  destruct (negb (status =? 200)%Z).
  { destruct (status =? 401)%Z; [destruct (String.eqb _ _)|]; by unfold fail. }
  destruct b as [| |[|first others]]; try by unfold fail.
  unfold lift. destruct (promptsOfText (Text first)); simpl; try done.
  unfold ret. intros [= <- <-]. simpl. split; [apply lookup_insert_eq | lia].
Qed.

Lemma entryKept_step D prompts c : forall s w,
  promptCache w !! D = Some prompts ->
  promptCache (snd (step (s, w) c)) !! D = Some prompts.
Proof.
  intros s w Hin.
  assert (Hrefl : forall w, entryKept D prompts w w) by (by unfold entryKept).
  assert (Htrans : forall a b c, entryKept D prompts a b -> entryKept D prompts b c ->
                                 entryKept D prompts a c) by (unfold entryKept; auto).
  assert (Hcache : forall w date v, promptCache w !! date = None ->
            entryKept D prompts w (set_promptCache (<[date := v]> (promptCache w)) w)).
  { unfold entryKept. intros w0 date v Hnone Hsome. simpl.
    destruct (decide (date = D)) as [->|Hne]; [congruence | by rewrite lookup_insert_ne]. }
  destruct c as [| |date|date index|date|date|now]; simpl.
  - pose proof (keeps_Start (entryKept D prompts)) as Hk.
    unfold holdsAcross in Hk. specialize (Hk Hrefl Htrans).
    assert (Hs : entryKept D prompts w (snd (Start s w))) by (apply Hk; try done; by unfold entryKept).
    destruct (Start s w) as [[[s' o]| |] w']; simpl in *; by apply Hs.
  - apply (keeps_TriggerTodayGeneration (entryKept D prompts)); try done; by unfold entryKept.
  - apply (keeps_TriggerManualGeneration (entryKept D prompts)); try done; by unfold entryKept.
  - apply (keeps_GenerateRebusPuzzle (entryKept D prompts)); try done; by unfold entryKept.
  - apply (keeps_GenerateRebusPuzzles (entryKept D prompts)); try done; by unfold entryKept.
  - apply (keeps_GetPromptsFromClaude (entryKept D prompts)); try done; by unfold entryKept.
  - exact Hin.
Qed.

Lemma entryKept_lifetime D prompts calls : forall s w,
  promptCache w !! D = Some prompts ->
  promptCache (snd (lifetime calls (s, w))) !! D = Some prompts.
Proof.
  unfold lifetime. induction calls as [|c calls IH]; intros s w Hin; [done|].
  cbn [fold_left].
  pose proof (entryKept_step D prompts c s w Hin) as Hstep.
  destruct (step (s, w) c) as [s' w'] eqn:Hs. by apply IH.
Qed.

(** C6.  When a call of [GetPromptsFromClaude] for a date returns
    prompts, a second call returns the same prompts and leaves the world
    as it is (it sends no request), so the two calls together have sent
    at most one request.  The entry then stays in the cache, unchanged,
    through every later call the process makes, and a call for the date
    made after them still returns the same prompts without a request. *)
Theorem prompt_cache_correct (pg : PromptGenerator) (D : string) (w w1 : World)
    (prompts : list RebusPrompt) :
  GetPromptsFromClaude pg D w = (Ok prompts, w1) ->
  GetPromptsFromClaude pg D w1 = (Ok prompts, w1)
  /\ (claudeRequests w1 <= S (claudeRequests w))%nat
  /\ (forall s calls,
        let w2 := snd (lifetime calls (s, w1)) in
        promptCache w2 !! D = Some prompts
        /\ GetPromptsFromClaude pg D w2 = (Ok prompts, w2)).
Proof.
  intros Hfirst. apply GetPromptsFromClaude_ok in Hfirst as [Hin Hreq].
  split; [by apply GetPromptsFromClaude_hit|]. split; [exact Hreq|].
  intros s calls w2. subst w2.
  pose proof (entryKept_lifetime D prompts calls s w1 Hin) as Hkept.
  split; [exact Hkept | by apply GetPromptsFromClaude_hit].
Qed.

(** ** The shape of the prompts *)

Import Json.

Lemma storeEach_length {A} (f : json -> option A) l : forall r,
  storeEach f l = Some r -> length r = length l.
Proof.
  induction l as [|v l IH]; simpl; intros r.
  - by intros [= <-].
  - destruct (f v); [|done]. destruct (storeEach f l) as [tl|]; [|done].
    intros [= <-]. simpl. f_equal. by apply IH.
Qed.

Lemma storeMembers_strings members : forall p,
  allStrings members ->
  exists p', storeMembers p members = Some p'
    /\ (memberAbsent "prompt" members -> Prompt p' = Prompt p)
    /\ (memberAbsent "answer" members -> PromptAnswer p' = PromptAnswer p)
    /\ (memberAbsent "hint" members -> PromptHint p' = PromptHint p).
Proof.
  unfold allStrings, memberAbsent.
  induction members as [|[name v] members IH]; intros p Hall; cbn [storeMembers].
  - exists p. auto.
  - inversion Hall as [|? ? [s Hs] Hall']; subst. simpl in Hs. subst v.
    assert (Hstep : exists p1, storeMember p (name, JStr s) = Some p1
              /\ (foldEq name "prompt" = false -> Prompt p1 = Prompt p)
              /\ (foldEq name "answer" = false -> PromptAnswer p1 = PromptAnswer p)
              /\ (foldEq name "hint" = false -> PromptHint p1 = PromptHint p)).
    { unfold storeMember. simpl.
      destruct (foldEq name "prompt") eqn:E1;
        [eexists; split; [reflexivity|]; repeat split; intros; simpl; congruence|].
      destruct (foldEq name "answer") eqn:E2;
        [eexists; split; [reflexivity|]; repeat split; intros; simpl; congruence|].
      destruct (foldEq name "hint") eqn:E3;
        eexists; (split; [reflexivity|]); repeat split; intros; simpl; congruence. }
    destruct Hstep as (p1 & -> & H1 & H2 & H3).
    destruct (IH p1 Hall') as (p' & -> & K1 & K2 & K3).
    exists p'. split; [reflexivity|].
    repeat split; intros Habs.
    + rewrite K1, H1; [done | apply (Habs (name, JStr s)); by left | intros m Hm; apply Habs; by right].
    + rewrite K2, H2; [done | apply (Habs (name, JStr s)); by left | intros m Hm; apply Habs; by right].
    + rewrite K3, H3; [done | apply (Habs (name, JStr s)); by left | intros m Hm; apply Habs; by right].
Qed.

Lemma GetPromptsFromClaude_miss pg date w first others later :
  promptCache w !! date = None ->
  claude w = Response 200 (Payload (first :: others)) :: later ->
  GetPromptsFromClaude pg date w
  = (prompts <- lift (promptsOfText (Text first)) ;;
     modify (fun w => set_promptCache (<[date := prompts]> (promptCache w)) w) ;;;
     ret prompts) (set_claude later (S (claudeRequests w)) w).
Proof.
  intros Hmiss Hscript. unfold GetPromptsFromClaude at 1.
  unfold bind at 1. unfold gets. rewrite Hmiss.
  unfold bind at 1. unfold callClaude. rewrite Hscript. reflexivity.
Qed.

(** C7.  On a reply whose text holds an array that decodes to
    [prompts], [GetPromptsFromClaude] fails with "expected 5 prompts"
    exactly when the array does not have five elements, and returns the
    prompts exactly when it has five.  Nothing checks that a member is
    present: an object whose members are strings always decodes, and a
    field whose member is absent -- no member has its name, as
    [encoding/json] folds names -- is the empty string. *)
Theorem GetPromptsFromClaude_shape (pg : PromptGenerator) (date : string) (w : World)
    (first : ContentBlock) (others : list ContentBlock)
    (later : list (reply (list ContentBlock)))
    (jsonText : string) (prompts : list RebusPrompt) :
  promptCache w !! date = None ->
  claude w = Response 200 (Payload (first :: others)) :: later ->
  GoStrings.Index (Text first) "[" <> (-1)%Z ->
  GoStrings.LastIndex (Text first) "]" <> (-1)%Z ->
  GoStrings.slice (Text first) (GoStrings.Index (Text first) "[")
    (GoStrings.LastIndex (Text first) "]" + 1) = Some jsonText ->
  Unmarshal_prompts jsonText = Some prompts ->
  (fst (GetPromptsFromClaude pg date w) = Fail (ErrExpectedFive (length prompts))
   <-> length prompts <> 5%nat)
  /\ (fst (GetPromptsFromClaude pg date w) = Ok prompts <-> length prompts = 5%nat)
  /\ (forall elems, parseJSON jsonText = Some (JArr elems) ->
        length elems = length prompts)
  /\ (forall members, allStrings members ->
        exists p, storeRebusPrompt (JObj members) = Some p
          /\ (memberAbsent "prompt" members -> Prompt p = EmptyString)
          /\ (memberAbsent "answer" members -> PromptAnswer p = EmptyString)
          /\ (memberAbsent "hint" members -> PromptHint p = EmptyString)).
Proof.
  intros Hmiss Hscript Hstart Hend Hslice Hdec.
  assert (Htext : promptsOfText (Text first)
                  = if negb (length prompts =? 5)%nat
                    then Fail (ErrExpectedFive (length prompts)) else Ok prompts).
  { unfold promptsOfText.
    apply Z.eqb_neq in Hstart, Hend. rewrite Hstart, Hend. simpl.
    by rewrite Hslice, Hdec. }
  rewrite (GetPromptsFromClaude_miss pg date w first others later Hmiss Hscript).
  unfold bind, lift, modify, ret. rewrite Htext.
  split; [|split; [|split]].
  - destruct (Nat.eqb_spec (length prompts) 5) as [Heq|Hne]; simpl.
    + split; [done | intros Hne; by destruct Hne].
    + split; [done | done].
  - destruct (Nat.eqb_spec (length prompts) 5) as [Heq|Hne]; simpl.
    + split; done.
    + split; [done | intros Heq; by destruct Hne].
  - intros elems Hparse. unfold Unmarshal_prompts in Hdec. rewrite Hparse in Hdec.
    simpl in Hdec. symmetry. by apply (storeEach_length storeRebusPrompt).
  - intros members Hall.
    destruct (storeMembers_strings members zeroPrompt Hall) as (p & Hp & H1 & H2 & H3).
    exists p. split; [exact Hp|]. auto.
Qed.

(** ** Polling *)

Lemma inProgress_status code p :
  inProgress (Response code (Payload p)) = true ->
  Status p = "starting" \/ Status p = "processing".
Proof.
  simpl. intros Hs. apply orb_true_iff in Hs as [Hs|Hs]; apply String.eqb_eq in Hs; auto.
Qed.

Lemma pollFrom_continue ig n w code p later :
  polls w = Response code (Payload p) :: later ->
  inProgress (Response code (Payload p)) = true ->
  pollFrom ig (S n) w = pollFrom ig n (set_slept (slept w + 5) (set_polls later w)).
Proof.
  intros Hscript Hs. cbn [pollFrom]. unfold bind at 1. unfold poll. rewrite Hscript.
  cbn [next]. destruct (inProgress_status _ _ Hs) as [-> | ->]; reflexivity.
Qed.

Lemma pollFrom_inProgress ig n : forall w m,
  (n <= length (polls w))%nat ->
  forallb inProgress (take n (polls w)) = true ->
  pollFrom ig (n + m) w
  = pollFrom ig m (set_slept (slept w + 5 * Z.of_nat n) (set_polls (drop n (polls w)) w)).
Proof.
  induction n as [|n IH]; intros w m Hlen Hall.
  - simpl. rewrite drop_0, Z.add_0_r. by destruct w.
  - destruct (polls w) as [|r later] eqn:Hscript; [simpl in Hlen; lia|].
    simpl in Hall. apply andb_true_iff in Hall as [Hr Hall].
    destruct r as [|code [| |p]]; try discriminate.
    change (S n + m)%nat with (S (n + m)).
    rewrite (pollFrom_continue ig (n + m) w code p later Hscript Hr).
    rewrite IH; [|simpl in *; lia|exact Hall].
    f_equal. unfold set_slept, set_polls. simpl. f_equal. lia.
Qed.

(** C8.  What one poll leads to.  A reply "starting" or "processing"
    makes [pollPrediction] sleep five seconds and poll again; sixty such
    replies in a row end in "timed out after 60 attempts", after sixty
    polls and 300 seconds of sleep.  "succeeded" ends the polling with
    the outcome of [extractImageURL], "failed" and "canceled" with their
    errors, and so does every other status, with "unknown prediction
    status". *)
Theorem pollPrediction_protocol (ig : ImageGenerator) (w : World) :
  (forall id, (60 <= length (polls w))%nat ->
     forallb inProgress (take 60 (polls w)) = true ->
     pollPrediction ig id w
     = (Fail (ErrPredictionTimedOut 60),
        set_slept (slept w + 300) (set_polls (drop 60 (polls w)) w)))
  /\ (forall n code p later,
        polls w = Response code (Payload p) :: later ->
        let w' := set_polls later w in
        (inProgress (Response code (Payload p)) = true ->
           pollFrom ig (S n) w = pollFrom ig n (set_slept (slept w + 5) w'))
        /\ (Status p = "succeeded" ->
            pollFrom ig (S n) w
            = wrap "prediction succeeded but failed to extract image URL"
                (lift (extractImageURL (OutputRaw p))) w')
        /\ (Status p = "failed" ->
            pollFrom ig (S n) w
            = (Fail (ErrPredictionFailed
                       (match Error p with Some msg => msg | None => "unknown error" end)),
               w'))
        /\ (Status p = "canceled" ->
            pollFrom ig (S n) w = (Fail ErrPredictionCanceled, w'))
        /\ (knownStatus (Status p) = false ->
            pollFrom ig (S n) w = (Fail (ErrUnknownStatus (Status p)), w'))).
Proof.
  split.
  - intros id Hlen Hall. unfold pollPrediction, maxAttempts.
    exact (pollFrom_inProgress ig 60 w 0 Hlen Hall).
  - intros n code p later Hscript w'. split; [|split; [|split; [|split]]].
    + intros Hs. by apply (pollFrom_continue ig n w code p later).
    + intros Hs. cbn [pollFrom]. unfold bind at 1. unfold poll. rewrite Hscript.
      cbn [next]. by rewrite Hs.
    + intros Hs. cbn [pollFrom]. unfold bind at 1. unfold poll. rewrite Hscript.
      cbn [next]. by rewrite Hs.
    + intros Hs. cbn [pollFrom]. unfold bind at 1. unfold poll. rewrite Hscript.
      cbn [next]. by rewrite Hs.
    + intros Hs. cbn [pollFrom]. unfold bind at 1. unfold poll. rewrite Hscript.
      cbn [next]. unfold knownStatus in Hs.
      repeat (apply orb_false_iff in Hs as [Hs ?]).
      cbv zeta. rewrite Hs. by repeat match goal with H : _ = false |- _ => rewrite H; clear H end.
Qed.

(** ** The output of a job *)


Lemma nonempty_eqb (s : string) : s <> EmptyString -> String.eqb s EmptyString = false.
Proof. intros Hs. by destruct (String.eqb_spec s EmptyString). Qed.



(** ** The statements at concrete worlds *)

Import Samples.

(** The sibling entry point does produce: in the end-to-end scenario
    [TriggerManualGeneration] writes the five records of the day, at
    positions 0 to 4. *)
Example TriggerManualGeneration_end_to_end :
  fst (TriggerManualGeneration theScheduler today endToEnd) = Ok tt
  /\ rowsFor today (snd (TriggerManualGeneration theScheduler today endToEnd)) = batch today
  /\ map Index (batch today) = [0; 1; 2; 3; 4]%Z.
Proof. vm_compute. auto. Qed.

(** C1 in the end-to-end scenario: both services would answer, and the
    call still fails without producing. *)
Lemma TriggerTodayGeneration_produces_nothing_witness :
  batchExists (formatDate (clock endToEnd)) endToEnd = false
  /\ TriggerTodayGeneration theScheduler endToEnd
     = (Fail ErrFailedToGenerateToday, set_dbFaults (drop 4 (dbFaults endToEnd)) endToEnd).
Proof.
  split; [reflexivity|].
  apply (TriggerTodayGeneration_produces_nothing theScheduler endToEnd). reflexivity.
Defined.

(** C2 at 07:00 with a scheduler set for 06:00: without a batch the
    catch-up run ends in [NotGenerating]; with one, no run is made. *)
Lemma Start_catch_up_witness :
  running theScheduler = false
  /\ batchExists (formatDate (clock endToEnd)) endToEnd = false
  /\ pastScheduledTime theScheduler (clock endToEnd) = true
  /\ Start theScheduler endToEnd
     = (Ok (set_running true theScheduler, Some (Ran NotGenerating)),
        set_dbFaults (drop 3 (dbFaults endToEnd)) endToEnd)
  /\ batchExists (formatDate (clock withBatch)) withBatch = true
  /\ noFaults 1 (dbFaults withBatch) = true
  /\ Start theScheduler withBatch
     = (Ok (set_running true theScheduler, Some SkippedExisting),
        set_dbFaults (drop 1 (dbFaults withBatch)) withBatch).
Proof.
  do 3 (split; [reflexivity|]). split.
  - apply (Start_catch_up theScheduler endToEnd); reflexivity.
  - do 2 (split; [reflexivity|]).
    apply (Start_catch_up theScheduler withBatch); reflexivity.
Defined.

(** C3 when the image job of position 3 fails: the error names the
    position, the table is untouched and the date still has no batch. *)
Lemma failed_production_leaves_no_batch_witness :
  batchExists today renderFailsAt3 = false
  /\ fst (TriggerManualGeneration theScheduler today renderFailsAt3)
     = Fail (Wrap "failed to generate puzzles"
              (Wrap "failed to generate image for puzzle 3"
                (Wrap "failed to get prediction result"
                  (ErrPredictionFailed "NSFW content detected"))))
  /\ puzzles (snd (TriggerManualGeneration theScheduler today renderFailsAt3))
     = puzzles renderFailsAt3
  /\ fst (store.HasPuzzlesForDate (store_ theScheduler) today
            (snd (TriggerManualGeneration theScheduler today renderFailsAt3)))
     = Ok false.
Proof.
  split; [reflexivity|].
  assert (Hrun : fst (TriggerManualGeneration theScheduler today renderFailsAt3)
     = Fail (Wrap "failed to generate puzzles"
              (Wrap "failed to generate image for puzzle 3"
                (Wrap "failed to get prediction result"
                  (ErrPredictionFailed "NSFW content detected"))))) by (vm_compute; reflexivity).
  split; [exact Hrun|].
  destruct (failed_production_leaves_no_batch theScheduler today renderFailsAt3 eq_refl)
    as (_ & _ & Hmanual).
  apply (Hmanual (fst (TriggerManualGeneration theScheduler today renderFailsAt3))).
  - apply surjective_pairing.
  - rewrite Hrun. discriminate.
Defined.

(** The replacement batch is well formed over a table that holds
    yesterday's and today's batches. *)
Lemma newBatch_writable : writable today newBatch (puzzles withBatch).
Proof.
  repeat split.
  - apply (bool_decide_unpack (NoDup (map ID newBatch))). vm_compute. exact I.
  - apply (bool_decide_unpack (NoDup (map Index newBatch))). vm_compute. exact I.
  - repeat constructor.
  - intros p r Hp Hr Hdate.
    assert (Hold : ID r <> ID p -> ID r <> ID p) by auto. apply Hold. clear Hold.
    simpl in Hp, Hr.
    repeat (destruct Hr as [<- | Hr]; [try (exfalso; apply Hdate; reflexivity);
      repeat (destruct Hp as [<- | Hp]; [vm_compute; discriminate|]); destruct Hp|]).
    destruct Hr.
Defined.

(** C4 on a date that has a batch: the new batch replaces it and
    yesterday's rows stay. *)
Lemma SavePuzzles_atomic_witness :
  noFaults (4 + length newBatch) (dbFaults withBatch) = true
  /\ writable today newBatch (puzzles withBatch)
  /\ exists w', database.SavePuzzles today newBatch withBatch = (Ok tt, w')
       /\ rowsFor today w' = newBatch
       /\ rowsFor "2024-01-14" w' = batch "2024-01-14".
Proof.
  split; [reflexivity|]. split; [exact newBatch_writable|].
  destruct (SavePuzzles_atomic today newBatch withBatch) as [_ Hreplace].
  destruct (Hreplace eq_refl newBatch_writable) as (w' & Hrun & Hrows & Hother).
  exists w'. split; [exact Hrun|]. split; [exact Hrows|].
  rewrite (Hother "2024-01-14"); [reflexivity | discriminate].
Defined.

(** C5 with today's batch in the table. *)
Lemma TriggerTodayGeneration_idempotent_witness :
  batchExists (formatDate (clock withBatch)) withBatch = true
  /\ noFaults 2 (dbFaults withBatch) = true
  /\ fst (TriggerTodayGeneration theScheduler withBatch) = Ok false
  /\ fst (TriggerTodayGeneration theScheduler
            (snd (TriggerTodayGeneration theScheduler withBatch))) = Ok false
  /\ puzzles (snd (TriggerTodayGeneration theScheduler
                     (snd (TriggerTodayGeneration theScheduler withBatch))))
     = puzzles withBatch.
Proof.
  do 2 (split; [reflexivity|]).
  destruct (TriggerTodayGeneration_idempotent theScheduler withBatch eq_refl eq_refl)
    as (H1 & H2 & _ & H4 & _).
  split; [exact H1|]. split; [exact H2 | exact H4].
Defined.

(** C6 in the end-to-end scenario: the first call fetches the five
    prompts, the second returns them from the cache, and the entry is
    still there after a manual production and a fetch for another
    date. *)
Lemma prompt_cache_correct_witness :
  let first := GetPromptsFromClaude (promptGenerator theGenerator) today endToEnd in
  first = (Ok fivePrompts, snd first)
  /\ GetPromptsFromClaude (promptGenerator theGenerator) today (snd first)
     = (Ok fivePrompts, snd first)
  /\ (claudeRequests (snd first) <= S (claudeRequests endToEnd))%nat
  /\ promptCache (snd (lifetime [CallTriggerManual today; CallGetPrompts "2024-01-16"]
                         (theScheduler, snd first))) !! today = Some fivePrompts.
Proof.
  intros first.
  assert (Hfirst : first = (Ok fivePrompts, snd first)) by (vm_compute; reflexivity).
  split; [exact Hfirst|].
  destruct (prompt_cache_correct (promptGenerator theGenerator) today endToEnd (snd first)
              fivePrompts Hfirst) as (Hsecond & Hreq & Hlife).
  split; [exact Hsecond|]. split; [exact Hreq|].
  exact (proj1 (Hlife theScheduler [CallTriggerManual today; CallGetPrompts "2024-01-16"])).
Defined.

(** The names of members are matched as [encoding/json] folds them:
    without regard to the case of letters, and with U+017F (long s) for
    an s; U+0131 (dotless i) is no i.  A member named [an], U+017F,
    [wer] is stored as the answer. *)
Example member_names_fold :
  foldEq "ANSWER" "answer" = true
  /\ foldEq ("an" +:+ utf8.EncodeRune 383 +:+ "wer") "answer" = true
  /\ foldEq ("h" +:+ utf8.EncodeRune 305 +:+ "nt") "hint" = false
  /\ ~ memberAbsent "answer" [("an" +:+ utf8.EncodeRune 383 +:+ "wer", JStr "time flies")]
  /\ storeRebusPrompt (JObj [("an" +:+ utf8.EncodeRune 383 +:+ "wer", JStr "time flies")])
     = Some (mkPrompt EmptyString "time flies" EmptyString).
Proof.
  split; [vm_compute; reflexivity|]. split; [vm_compute; reflexivity|].
  split; [vm_compute; reflexivity|]. split; [|vm_compute; reflexivity].
  intros Habsent. by specialize (Habsent _ (or_introl eq_refl)).
Qed.

(** C7 on a reply of five complete objects wrapped in prose. *)
Lemma GetPromptsFromClaude_shape_witness :
  promptCache endToEnd !! today = None
  /\ claude endToEnd = Response 200 (Payload [mkBlock "text" fiveItemsText]) :: []
  /\ GoStrings.Index fiveItemsText "[" = 23%Z
  /\ GoStrings.LastIndex fiveItemsText "]" = 478%Z
  /\ Unmarshal_prompts (substring 23 456 fiveItemsText) = Some fivePrompts
  /\ fst (GetPromptsFromClaude (promptGenerator theGenerator) today endToEnd) = Ok fivePrompts.
Proof.
  do 5 (split; [vm_compute; reflexivity|]).
  assert (Hstart : GoStrings.Index fiveItemsText "[" <> (-1)%Z) by (vm_compute; discriminate).
  assert (Hend : GoStrings.LastIndex fiveItemsText "]" <> (-1)%Z) by (vm_compute; discriminate).
  destruct (GetPromptsFromClaude_shape (promptGenerator theGenerator) today endToEnd
              (mkBlock "text" fiveItemsText) [] [] (substring 23 456 fiveItemsText) fivePrompts
              eq_refl eq_refl Hstart Hend eq_refl eq_refl) as (_ & Hfive & _).
  apply Hfive. reflexivity.
Defined.

(** C7 as stated fails: the last of five objects has no hint, and the
    call returns five prompts, the last with the empty hint; there is no
    shape error. *)
Lemma missing_member_counterexample :
  parseJSON missingHintText
  = Some (JArr [ JObj [("prompt", JStr "a clock with wings"); ("answer", JStr " Time Flies ");
                       ("hint", JStr "watch the hours")];
                 JObj [("prompt", JStr "a cake cut in pieces"); ("answer", JStr "Piece of Cake");
                       ("hint", JStr "dessert, and easy")];
                 JObj [("prompt", JStr "a hammer over ice"); ("answer", JStr "break the ice");
                       ("hint", JStr "a cold start")];
                 JObj [("prompt", JStr "cats and dogs falling");
                       ("answer", JStr "raining cats and dogs");
                       ("hint", JStr "bring an umbrella")];
                 missingHintItem ])
  /\ memberAbsent "hint" [("prompt", JStr "a house and sugar"); ("answer", JStr "home sweet home")]
  /\ fst (GetPromptsFromClaude (promptGenerator theGenerator) today missingHint)
     = Ok (fourPrompts ++ [mkPrompt "a house and sugar" "home sweet home" EmptyString]).
Proof.
  split; [vm_compute; reflexivity|]. split; [|vm_compute; reflexivity].
  intros m [<- | [<- | []]]; reflexivity.
Qed.

(** C8 on sixty polls that find the job under way (timeout after 300
    seconds), and on a job that succeeds at the second poll. *)
Lemma pollPrediction_protocol_witness :
  (60 <= length (polls neverDone))%nat
  /\ forallb inProgress (take 60 (polls neverDone)) = true
  /\ pollPrediction (imageGenerator theGenerator) "job-1" neverDone
     = (Fail (ErrPredictionTimedOut 60),
        set_slept (slept neverDone + 300) (set_polls (drop 60 (polls neverDone)) neverDone))
  /\ polls endToEnd = job "processing" EmptyString
                      :: repeat (job "succeeded" (quoted "https://x/a.png")) 5
  /\ pollFrom (imageGenerator theGenerator) 60 endToEnd
     = (Ok "https://x/a.png",
        set_slept 5 (set_polls (repeat (job "succeeded" (quoted "https://x/a.png")) 4) endToEnd)).
Proof.
  destruct (pollPrediction_protocol (imageGenerator theGenerator) neverDone) as [Htimeout _].
  destruct (pollPrediction_protocol (imageGenerator theGenerator) endToEnd) as [_ Hstep].
  split; [vm_compute; lia|]. split; [reflexivity|].
  split; [apply Htimeout; [vm_compute; lia | reflexivity]|].
  split; [reflexivity|].
  destruct (Hstep 59%nat 200%Z (mkPrediction "job-1" "processing" EmptyString None)
              (repeat (job "succeeded" (quoted "https://x/a.png")) 5) eq_refl) as [Hgo _].
  rewrite (Hgo eq_refl). vm_compute. reflexivity.
Defined.

(** C8 as stated fails: a job reported as "submitted", or as "queued",
    ends the polling at the first poll with an error; nothing is slept
    and the second poll, which would find the job done, is not made. *)
Lemma unknown_status_counterexample :
  pollPrediction (imageGenerator theGenerator) "job-1" submitted
  = (Fail (ErrUnknownStatus "submitted"),
     set_polls [job "succeeded" (quoted "https://x/a.png")] submitted)
  /\ slept (snd (pollPrediction (imageGenerator theGenerator) "job-1" submitted)) = 0%Z
  /\ pollPrediction (imageGenerator theGenerator) "job-1" queued
     = (Fail (ErrUnknownStatus "queued"),
        set_polls [job "succeeded" (quoted "https://x/a.png")] queued).
Proof. repeat split; vm_compute; reflexivity. Qed.



(** C10 with today's batch in the table and a failing query: the check
    answers false, as in the empty world, and the manual trigger
    produces the batch again. *)
Lemma HasPuzzlesForDate_hides_errors_witness :
  batchExists today withBatchDbDown = true
  /\ database.HasPuzzlesForDate today withBatchDbDown
     = (Fail ErrCheckPuzzles, set_dbFaults [] withBatchDbDown)
  /\ store.HasPuzzlesForDate (store_ theScheduler) today withBatchDbDown
     = (Ok false, set_dbFaults [] withBatchDbDown)
  /\ fst (store.HasPuzzlesForDate (store_ theScheduler) today quiet)
     = fst (store.HasPuzzlesForDate (store_ theScheduler) today withBatchDbDown)
  /\ fst (TriggerManualGeneration theScheduler today withBatchDbDown) = Ok tt
  /\ rowsFor today (snd (TriggerManualGeneration theScheduler today withBatchDbDown))
     = batch today.
Proof.
  assert (Hq : database.HasPuzzlesForDate today withBatchDbDown
               = (Fail ErrCheckPuzzles, set_dbFaults [] withBatchDbDown)) by reflexivity.
  destruct (HasPuzzlesForDate_hides_errors theScheduler today withBatchDbDown
              (set_dbFaults [] withBatchDbDown) ErrCheckPuzzles Hq)
    as (Hfalse & Hsame & Hmanual & _).
  split; [reflexivity|]. split; [exact Hq|]. split; [exact Hfalse|].
  split; [exact (Hsame quiet eq_refl)|].
  rewrite (Hmanual eq_refl). split; vm_compute; reflexivity.
Defined.

(** * Further properties of the pipeline *)

(** ** Relations kept by the elementary effects

    As in [Frame], but the assumptions are on the elementary
    computations themselves, so that a relation may depend on what a
    write stores. *)

Section Effects.
Variable R : World -> World -> Prop.
Hypothesis R_refl : forall w, R w w.
Hypothesis R_trans : forall a b c, R a b -> R b c -> R a c.
Hypothesis K_prompts : forall pg date, holdsAcross R (GetPromptsFromClaude pg date).
Hypothesis K_version : forall ig, holdsAcross R (getModelVersion ig).
Hypothesis K_post : holdsAcross R postPrediction.
Hypothesis K_poll : holdsAcross R poll.
Hypothesis K_sleep : forall n, holdsAcross R (Sleep n).
Hypothesis K_get : holdsAcross R httpGet.
Hypothesis K_write : forall e key data, holdsAcross R (writeImage e key data).
Hypothesis K_stmt : forall e, holdsAcross R (database.stmt e).
Hypothesis K_rows : forall rows, holdsAcross R (modify (set_puzzles rows)).

#[local] Abbreviation kept := (holdsAcross R).

#[local] Hint Resolve K_prompts K_version K_post K_poll K_sleep K_get K_write K_stmt K_rows : keeps.

Ltac effects :=
  repeat first
    [ solve [auto with keeps]
    | apply (keeps_ret R R_refl) | apply (keeps_fail R R_refl)
    | apply (keeps_panic R R_refl) | apply (keeps_lift R R_refl)
    | apply (keeps_gets R R_refl)
    | apply keeps_wrap | apply keeps_attempt
    | apply (keeps_bind R R_trans); [|intros ?]
    | match goal with
      | |- holdsAcross R (if ?b then _ else _) => destruct b
      | |- holdsAcross R (match ?x with _ => _ end) => destruct x
      end ].

Lemma kept_createPrediction ig prompt : kept (createPrediction ig prompt).
Proof. unfold createPrediction. effects. Qed.

Lemma kept_pollFrom ig remaining : kept (pollFrom ig remaining).
Proof. induction remaining as [|n IH]; simpl; effects. Qed.

Lemma kept_downloadImage ig url : kept (downloadImage ig url).
Proof. unfold downloadImage. effects. Qed.

#[local] Hint Resolve kept_createPrediction kept_pollFrom kept_downloadImage : keeps.

Lemma kept_GenerateImageFromPrompt ig prompt : kept (GenerateImageFromPrompt ig prompt).
Proof. unfold GenerateImageFromPrompt, pollPrediction. effects. Qed.

Lemma kept_SaveImage s date index data : kept (store.SaveImage s date index data).
Proof. unfold store.SaveImage, Supabase_SaveImage. effects. Qed.

#[local] Hint Resolve kept_GenerateImageFromPrompt kept_SaveImage : keeps.

Lemma kept_generateFrom g date st prompts : forall i, kept (generateFrom g date st i prompts).
Proof. induction prompts as [|prompt later IH]; intros i; simpl; effects. Qed.

#[local] Hint Resolve kept_generateFrom : keeps.

Lemma kept_GenerateRebusPuzzles g date st : kept (Real_GenerateRebusPuzzles g date st).
Proof. unfold Real_GenerateRebusPuzzles. effects. Qed.

Lemma kept_GenerateRebusPuzzle g date index st : kept (Real_GenerateRebusPuzzle g date index st).
Proof. unfold Real_GenerateRebusPuzzle. effects. Qed.

#[local] Hint Resolve kept_GenerateRebusPuzzles kept_GenerateRebusPuzzle : keeps.

Lemma kept_insertAll ps : forall tx, kept (database.insertAll ps tx).
Proof. induction ps as [|p ps IH]; intros tx; simpl; effects. Qed.

#[local] Hint Resolve kept_insertAll : keeps.

Lemma kept_SavePuzzles s date ps : kept (store.SavePuzzles s date ps).
Proof. unfold store.SavePuzzles, database.SavePuzzles. effects. Qed.

Lemma kept_HasPuzzlesForDate s date : kept (store.HasPuzzlesForDate s date).
Proof. unfold store.HasPuzzlesForDate, database.HasPuzzlesForDate. effects. Qed.

#[local] Hint Resolve kept_SavePuzzles kept_HasPuzzlesForDate : keeps.

Implicit Types s : Scheduler RealAIGenerator.

Lemma kept_generateAndSave s today : kept (generateAndSave s today).
Proof. unfold generateAndSave. simpl. effects. Qed.

#[local] Hint Resolve kept_generateAndSave : keeps.

Lemma kept_generatePuzzlesForToday s : kept (generatePuzzlesForToday s).
Proof. unfold generatePuzzlesForToday, GetTodayDate. effects. Qed.

#[local] Hint Resolve kept_generatePuzzlesForToday : keeps.

Lemma kept_TriggerManualGeneration s date : kept (TriggerManualGeneration s date).
Proof. unfold TriggerManualGeneration. simpl. effects. Qed.

Lemma kept_TriggerTodayGeneration s : kept (TriggerTodayGeneration s).
Proof. unfold TriggerTodayGeneration, GetTodayDate. effects. Qed.

Lemma kept_Start s : kept (Start s).
Proof. unfold Start, checkAndRunIfNeeded, GetTodayDate. effects. Qed.

Hypothesis R_clock : forall w now, R w (set_clock now w).

Lemma kept_step c : forall s w, R w (snd (step (s, w) c)).
Proof.
  intros s w. destruct c as [| |date|date index|date|date|now]; simpl.
  - pose proof (kept_Start s w) as Hs.
    destruct (Start s w) as [[[s' o]| |] w']; exact Hs.
  - apply kept_TriggerTodayGeneration.
  - apply kept_TriggerManualGeneration.
  - apply kept_GenerateRebusPuzzle.
  - apply kept_GenerateRebusPuzzles.
  - apply K_prompts.
  - apply R_clock.
Qed.

Lemma kept_lifetime calls : forall s w, R w (snd (lifetime calls (s, w))).
Proof.
  unfold lifetime. induction calls as [|c calls IH]; intros s w; [apply R_refl|].
  cbn [fold_left]. pose proof (kept_step c s w) as Hstep.
  destruct (step (s, w) c) as [s' w']. eapply R_trans; [exact Hstep | apply IH].
Qed.

End Effects.

(** ** The prompt cache, continued *)

Lemma wellFormed_of_unchanged {A} (c : M A) :
  holdsAcross (unchanged promptCache) c -> holdsAcross cacheKeptWellFormed c.
Proof.
  intros Hc w Hwf date prompts Hin. specialize (Hc w). unfold unchanged in Hc.
  rewrite Hc in Hin. by apply (Hwf date).
Qed.

Lemma promptsOfText_five text prompts :
  promptsOfText text = Ok prompts -> length prompts = 5%nat.
Proof.
  unfold promptsOfText. destruct (_ || _)%bool; [done|].
  destruct (GoStrings.slice _ _ _); [|done].
  destruct (Unmarshal_prompts _) as [ps|]; [|done].
  destruct (Nat.eqb_spec (length ps) 5) as [Hlen|]; simpl; [|done].
  by intros [= <-].
Qed.

Lemma GetPromptsFromClaude_outcome pg date w :
  (exists prompts, promptCache w !! date = Some prompts
     /\ GetPromptsFromClaude pg date w = (Ok prompts, w))
  \/ (promptCache w !! date = None
      /\ exists later, snd (next NoResponse (claude w)) = later
      /\ let w1 := set_claude later (S (claudeRequests w)) w in
         (exists prompts, length prompts = 5%nat
            /\ GetPromptsFromClaude pg date w
               = (Ok prompts, set_promptCache (<[date := prompts]> (promptCache w)) w1))
         \/ ((forall prompts, fst (GetPromptsFromClaude pg date w) <> Ok prompts)
             /\ snd (GetPromptsFromClaude pg date w) = w1)).
Proof.
  unfold GetPromptsFromClaude, bind, gets, callClaude.
  destruct (promptCache w !! date) as [cached|] eqn:Hc; [left; eauto|].
  right. split; [done|].
  destruct (next NoResponse (claude w)) as [resp later]. exists later. split; [done|].
  cbv zeta.
  destruct resp as [|status b]; [right; by split|].
  destruct (negb (status =? 200)%Z).
  { right. destruct (status =? 401)%Z; [destruct (String.eqb _ _)|]; by split. }
  destruct b as [| |[|first others]]; try (right; by split).
  unfold lift. destruct (promptsOfText (Text first)) as [prompts| |] eqn:Ht;
    [|right; by split|right; by split].
  left. exists prompts. split; [by apply promptsOfText_five in Ht|]. reflexivity.
Qed.

Lemma GetPromptsFromClaude_wellFormed pg date :
  holdsAcross cacheKeptWellFormed (GetPromptsFromClaude pg date).
Proof.
  intros w Hwf.
  destruct (GetPromptsFromClaude_outcome pg date w)
    as [(prompts & _ & ->) | (Hmiss & later & _ & [(prompts & Hlen & ->) | [_ ->]])];
    simpl; [done| |done].
  intros d ps. simpl. destruct (decide (date = d)) as [<-|Hne].
  - rewrite lookup_insert_eq. by intros [= <-].
  - rewrite lookup_insert_ne by done. apply Hwf.
Qed.

Lemma lifetime_wellFormed s calls w :
  cacheWellFormed w -> cacheWellFormed (snd (lifetime calls (s, w))).
Proof.
  apply (kept_lifetime cacheKeptWellFormed); try (unfold cacheKeptWellFormed; by auto).
  - apply GetPromptsFromClaude_wellFormed.
  - intros ig. apply wellFormed_of_unchanged.
    apply keeps_getModelVersion; unfold unchanged; intros; simpl; congruence.
  - apply wellFormed_of_unchanged. apply keeps_postPrediction; by unfold unchanged.
  - apply wellFormed_of_unchanged. apply keeps_poll; by unfold unchanged.
  - intros n. apply wellFormed_of_unchanged. apply keeps_Sleep; by unfold unchanged.
  - apply wellFormed_of_unchanged. apply keeps_httpGet; by unfold unchanged.
  - intros e key data. apply wellFormed_of_unchanged.
    apply keeps_writeImage; unfold unchanged; intros; simpl; congruence.
  - intros e. apply wellFormed_of_unchanged. apply keeps_stmt; by unfold unchanged.
  - intros rows. apply wellFormed_of_unchanged. by intros w0.
Qed.

(** X1.  Every entry of the prompt cache holds exactly five prompts:
    this is true of the empty cache a process starts with, it stays true
    through every call the process makes, and so every successful
    [GetPromptsFromClaude], hit or miss, returns five prompts. *)
Theorem prompt_cache_entries_have_five (s : Scheduler RealAIGenerator)
    (calls : list call) (w : World) :
  promptCache w = ∅ ->
  let w' := snd (lifetime calls (s, w)) in
  cacheWellFormed w'
  /\ forall pg date prompts w'',
       GetPromptsFromClaude pg date w' = (Ok prompts, w'') ->
       length prompts = 5%nat /\ cacheWellFormed w''.
Proof.
  intros Hempty w'.
  assert (Hstart : cacheWellFormed w).
  { intros date prompts. by rewrite Hempty, lookup_empty. }
  assert (Hwf : cacheWellFormed w') by (by apply lifetime_wellFormed).
  split; [exact Hwf|]. intros pg date prompts w'' Hrun.
  pose proof (GetPromptsFromClaude_wellFormed pg date w' Hwf) as Hafter.
  rewrite Hrun in Hafter. simpl in Hafter. split; [|exact Hafter].
  apply GetPromptsFromClaude_ok in Hrun as [Hin _]. by apply (Hafter date).
Qed.

(** X2.  A call of [GetPromptsFromClaude] that does not return prompts
    has sent exactly one request and leaves the cache as it was, so the
    next call for the date asks the service again. *)
Theorem failed_fetch_is_not_cached (pg : PromptGenerator) (date : string) (w : World) :
  (forall prompts, fst (GetPromptsFromClaude pg date w) <> Ok prompts) ->
  let w' := snd (GetPromptsFromClaude pg date w) in
  promptCache w' = promptCache w
  /\ promptCache w' !! date = None
  /\ claudeRequests w' = S (claudeRequests w)
  /\ claude w' = drop 1 (claude w).
Proof.
  intros Hfail.
  destruct (GetPromptsFromClaude_outcome pg date w)
    as [(prompts & _ & Hrun) | (Hmiss & later & Hlater & [(prompts & _ & Hrun) | [_ Hw]])].
  - exfalso. apply (Hfail prompts). by rewrite Hrun.
  - exfalso. apply (Hfail prompts). by rewrite Hrun.
  - cbv zeta. rewrite Hw. simpl. rewrite <- Hlater, next_drop. auto.
Qed.

(** ** What the generator returns *)

Ltac untouched :=
  first [ apply keeps_GetPromptsFromClaude | apply keeps_getModelVersion
        | apply keeps_postPrediction | apply keeps_poll | apply keeps_Sleep
        | apply keeps_httpGet | apply keeps_writeImage | apply keeps_stmt
        | apply keeps_modify ];
  unfold unchanged; intros; simpl; congruence.

Lemma holdsAcross_weaken (R R' : World -> World -> Prop) {A} (c : M A) :
  (forall w w', R w w' -> R' w w') -> holdsAcross R c -> holdsAcross R' c.
Proof. intros Himp Hc w. apply Himp, Hc. Qed.

Lemma generateFrom_ok g date st prompts : forall i w pp w',
  generateFrom g date st i prompts w = (Ok pp, w') ->
  pp = map Some (recordsFrom g date st i prompts).
Proof.
  induction prompts as [|prompt later IH]; intros i w pp w'; cbn [generateFrom recordsFrom map].
  { unfold ret. by intros [= <- _]. }
  unfold bind, wrap.
  destruct (GenerateImageFromPrompt _ _ w) as [[data| |] w1]; try done.
  destruct (SaveImage st date i data w1) as [[[]| |] w2]; try done.
  destruct (generateFrom g date st (i + 1) later w2) as [[rest| |] w3] eqn:Hrest; try done.
  unfold ret. intros [= <- _]. f_equal. by eapply IH.
Qed.

Lemma derefAll_Some ps : derefAll (map Some ps) = ps.
Proof. unfold derefAll. rewrite map_map. apply map_id. Qed.

Lemma recordsFrom_Index g date st prompts : forall i,
  map Index (recordsFrom g date st i prompts)
  = map (fun k => (i + Z.of_nat k)%Z) (seq 0 (length prompts)).
Proof.
  induction prompts as [|prompt later IH]; intros i; [done|].
  cbn [recordsFrom map length seq]. f_equal; [simpl; lia|].
  rewrite IH, <- seq_shift, map_map. apply map_ext. intros k. lia.
Qed.

Lemma recordsFrom_fields g date st prompts : forall i,
  Forall (fun p => Date p = date
                   /\ ID p = date +:+ "-" +:+ GoStrings.itoa (Index p)
                   /\ ImageURL p = GetImageURL st date (Index p)
                   /\ ImagePath p = GetImagePath st date (Index p))
    (recordsFrom g date st i prompts).
Proof.
  induction prompts as [|prompt later IH]; intros i; cbn [recordsFrom]; constructor; auto.
Qed.

Lemma recordsFrom_text g date st prompts : forall i,
  map Answer (recordsFrom g date st i prompts)
  = map (fun p => GoStrings.ToLower (GoStrings.TrimSpace (PromptAnswer p))) prompts
  /\ map Hint (recordsFrom g date st i prompts) = map PromptHint prompts.
Proof.
  induction prompts as [|prompt later IH]; intros i; [done|].
  cbn [recordsFrom map]. destruct (IH (i + 1)%Z) as [-> ->]. done.
Qed.

Lemma GenerateRebusPuzzles_ok g date st w pp w' :
  Real_GenerateRebusPuzzles g date st w = (Ok pp, w') ->
  exists prompts w1,
    GetPromptsFromClaude (promptGenerator g) date w = (Ok prompts, w1)
    /\ generateFrom g date st 0 prompts w1 = (Ok pp, w')
    /\ pp = map Some (recordsFrom g date st 0 prompts)
    /\ promptCache w' !! date = Some prompts.
Proof.
  unfold Real_GenerateRebusPuzzles, bind, wrap.
  destruct (GetPromptsFromClaude _ date w) as [[prompts| |] w1] eqn:Hp; try done.
  intros Hgen. exists prompts, w1. repeat split; [done| by eapply generateFrom_ok |].
  apply GetPromptsFromClaude_ok in Hp as [Hin _].
  pose proof (keeps_generateFrom (entryKept date prompts)) as Hk.
  unfold holdsAcross, entryKept in Hk.
  specialize (Hk ltac:(auto) ltac:(auto) ltac:(auto) ltac:(auto) ltac:(auto)
                 ltac:(auto) ltac:(auto) ltac:(auto) ltac:(auto) ltac:(auto)
                 g date st prompts 0%Z w1 Hin).
  by rewrite Hgen in Hk.
Qed.

(** X3.  When [GenerateRebusPuzzles] returns without error, it returns
    five pointers, none of them nil, to the records built from the five
    prompts cached for the date: positions 0 to 4 in order, id
    [date-position], the date, the image locations the store gives for
    the position, the answer trimmed and in lower case, the hint as
    received. *)
Theorem GenerateRebusPuzzles_returns_five_records (g : RealAIGenerator) (date : string)
    (st : Store) (w w' : World) (pp : list (option Puzzle)) :
  cacheWellFormed w ->
  Real_GenerateRebusPuzzles g date st w = (Ok pp, w') ->
  exists prompts,
    promptCache w' !! date = Some prompts
    /\ length prompts = 5%nat
    /\ pp = map Some (derefAll pp)
    /\ derefAll pp = recordsFrom g date st 0 prompts
    /\ map Index (derefAll pp) = [0; 1; 2; 3; 4]%Z
    /\ Forall (fun p => Date p = date
                        /\ ID p = date +:+ "-" +:+ GoStrings.itoa (Index p)
                        /\ ImageURL p = GetImageURL st date (Index p)
                        /\ ImagePath p = GetImagePath st date (Index p))
         (derefAll pp)
    /\ map Answer (derefAll pp)
       = map (fun p => GoStrings.ToLower (GoStrings.TrimSpace (PromptAnswer p))) prompts
    /\ map Hint (derefAll pp) = map PromptHint prompts.
Proof.
  intros Hwf Hrun.
  destruct (GenerateRebusPuzzles_ok _ _ _ _ _ _ Hrun) as (prompts & w1 & Hp & _ & -> & Hin).
  assert (Hlen : length prompts = 5%nat).
  { pose proof (GetPromptsFromClaude_wellFormed (promptGenerator g) date w Hwf) as Hwf1.
    rewrite Hp in Hwf1. apply GetPromptsFromClaude_ok in Hp as [Hin1 _].
    by apply (Hwf1 date). }
  exists prompts. rewrite derefAll_Some.
  split; [done|]. split; [done|]. split; [done|]. split; [done|].
  split; [by rewrite recordsFrom_Index, Hlen|].
  split; [apply recordsFrom_fields|]. apply recordsFrom_text.
Qed.

(** ** Manual generation *)

Lemma recordsFrom_dated g date st prompts i :
  Forall (fun p => Date p = date) (recordsFrom g date st i prompts).
Proof.
  eapply List.Forall_impl; [|apply recordsFrom_fields]. by intros p [? _].
Qed.

Lemma recordsFrom_length g date st prompts : forall i,
  length (recordsFrom g date st i prompts) = length prompts.
Proof. induction prompts; intros i; simpl; auto. Qed.

Lemma rowsFor_replaced date d rows ps w' :
  Forall (fun p => Date p = date) ps ->
  puzzles w' = List.filter (fun r => negb (database.forDate date r)) rows ++ ps ->
  rowsFor d w' = if String.eqb d date then ps else List.filter (database.forDate d) rows.
Proof.
  intros Hdated Hrows. unfold rowsFor. rewrite Hrows, List.filter_app, filter_forDate_removed.
  destruct (String.eqb_spec d date) as [->|Hne].
  - rewrite (filter_forDate_all date) by done. done.
  - rewrite (filter_forDate_other date d ps) by done. apply app_nil_r.
Qed.

Lemma TriggerManualGeneration_ok (s : Scheduler RealAIGenerator) date w w' :
  TriggerManualGeneration s date w = (Ok tt, w') ->
  ValidateDate date = None
  /\ exists prompts,
       promptCache w' !! date = Some prompts
       /\ (cacheWellFormed w -> length prompts = 5%nat)
       /\ puzzles w'
          = List.filter (fun r => negb (database.forDate date r)) (puzzles w)
            ++ recordsFrom (generator s) date (store_ s) 0 prompts.
Proof.
  unfold TriggerManualGeneration. destruct (ValidateDate date); [done|].
  unfold bind, wrap. rewrite Has_cases.
  destruct (negb _ && _); [done|]. simpl.
  set (w0 := set_dbFaults (drop 1 (dbFaults w)) w).
  pose proof (GenerateRebusPuzzles_sameTable (generator s) date (store_ s) w0) as Hg.
  unfold sameTable in Hg.
  destruct (Real_GenerateRebusPuzzles _ _ _ w0) as [[pp|e|] w1] eqn:Hgen; try done.
  simpl in Hg. intros Hsave. split; [done|].
  destruct (GenerateRebusPuzzles_ok _ _ _ _ _ _ Hgen) as (prompts & w2 & Hp & _ & -> & Hin).
  exists prompts. rewrite derefAll_Some in Hsave.
  pose proof (keeps_SavePuzzles (unchanged promptCache)) as Hk.
  specialize (Hk ltac:(done) ltac:(unfold unchanged; congruence) ltac:(done) ltac:(done)
                 (store_ s) date (recordsFrom (generator s) date (store_ s) 0 prompts) w1).
  rewrite Hsave in Hk. unfold unchanged in Hk. simpl in Hk.
  split; [by rewrite Hk|]. split.
  - intros Hwf.
    pose proof (GetPromptsFromClaude_wellFormed (promptGenerator (generator s)) date w0 Hwf)
      as Hwf1.
    rewrite Hp in Hwf1. apply GetPromptsFromClaude_ok in Hp as [Hin1 _].
    by apply (Hwf1 date).
  - unfold store.SavePuzzles in Hsave.
    destruct (SavePuzzles_cases date (recordsFrom (generator s) date (store_ s) 0 prompts) w1)
      as [(w3 & Heq & Hrows) | (e & w3 & Heq & _)]; rewrite Heq in Hsave; [|done].
    injection Hsave as <-. by rewrite Hrows, Hg.
Qed.

(** X4.  When [TriggerManualGeneration] returns nil, the date was valid
    and the rows of the date in the table are exactly the five records
    built from the prompts cached for the date, at positions 0 to 4 in
    table order; the existence check now finds the batch, and the rows
    of every other date are the ones that were there. *)
Theorem TriggerManualGeneration_writes_the_batch (s : Scheduler RealAIGenerator)
    (date : string) (w w' : World) :
  cacheWellFormed w ->
  TriggerManualGeneration s date w = (Ok tt, w') ->
  ValidateDate date = None
  /\ (exists prompts,
        promptCache w' !! date = Some prompts
        /\ length prompts = 5%nat
        /\ rowsFor date w' = recordsFrom (generator s) date (store_ s) 0 prompts)
  /\ map Index (rowsFor date w') = [0; 1; 2; 3; 4]%Z
  /\ batchExists date w' = true
  /\ (forall d, d <> date -> rowsFor d w' = rowsFor d w).
Proof.
  intros Hwf Hrun.
  destruct (TriggerManualGeneration_ok s date w w' Hrun) as (Hvalid & prompts & Hin & Hlen & Hrows).
  specialize (Hlen Hwf).
  assert (Hfor : forall d, rowsFor d w'
            = if String.eqb d date then recordsFrom (generator s) date (store_ s) 0 prompts
              else rowsFor d w).
  { intros d. eapply rowsFor_replaced; [apply recordsFrom_dated | exact Hrows]. }
  assert (Hdate : rowsFor date w' = recordsFrom (generator s) date (store_ s) 0 prompts).
  { by rewrite Hfor, String.eqb_refl. }
  split; [done|]. split; [by exists prompts|].
  split; [by rewrite Hdate, recordsFrom_Index, Hlen|]. split.
  - unfold batchExists, database.countForDate. fold (rowsFor date w').
    by rewrite Hdate, recordsFrom_length, Hlen.
  - intros d Hne. rewrite Hfor. by destruct (String.eqb_spec d date).
Qed.

(** X5.  [TriggerManualGeneration] refuses an invalid date before it
    does anything, and a date whose batch the check finds after that one
    query, with the error naming the date; and however a call ends, the
    rows of every other date are left as they were. *)
Theorem TriggerManualGeneration_guards (s : Scheduler RealAIGenerator)
    (date : string) (w : World) :
  (forall err, ValidateDate date = Some err ->
     TriggerManualGeneration s date w = (Fail (Wrap "invalid date" err), w))
  /\ (ValidateDate date = None ->
      batchExists date w = true -> noFaults 1 (dbFaults w) = true ->
      TriggerManualGeneration s date w
      = (Fail (ErrAlreadyExist date), set_dbFaults (drop 1 (dbFaults w)) w))
  /\ (forall d, d <> date ->
        rowsFor d (snd (TriggerManualGeneration s date w)) = rowsFor d w).
Proof.
  split; [|split].
  - intros err Hbad. unfold TriggerManualGeneration. by rewrite Hbad.
  - intros Hvalid Hhas Hdb. unfold TriggerManualGeneration, bind. rewrite Hvalid.
    by rewrite Has_present.
  - intros d Hne.
    destruct (TriggerManualGeneration_cases s date w) as [[w' Hrun] | Hsame].
    + rewrite Hrun. simpl.
      destruct (TriggerManualGeneration_ok s date w w' Hrun) as (_ & prompts & _ & _ & Hrows).
      erewrite rowsFor_replaced; [|apply recordsFrom_dated | exact Hrows].
      by destruct (String.eqb_spec d date).
    + unfold rowsFor. by rewrite Hsame.
Qed.

(** ** The model version *)

Lemma getModelVersion_cached ig w :
  modelVersion w <> EmptyString -> getModelVersion ig w = (Ok (modelVersion w), w).
Proof.
  intros Hset. unfold getModelVersion, bind, gets. by rewrite nonempty_eqb.
Qed.

Lemma getModelVersion_ok ig w v w' :
  getModelVersion ig w = (Ok v, w') -> v <> EmptyString /\ modelVersion w' = v.
Proof.
  unfold getModelVersion, bind, gets.
  destruct (String.eqb_spec (modelVersion w) EmptyString) as [Hnone|Hset]; simpl.
  - unfold wrap, fetchLatestModelVersion, bind, getModelInfo.
    destruct (next NoResponse (modelInfo w)) as [[|status b] rest]; [done|].
    destruct (negb (status =? 200)%Z); [done|].
    destruct b as [| |id]; try done.
    destruct (String.eqb_spec id EmptyString); [done|].
    unfold ret, modify. by intros [= <- <-].
  - unfold ret. by intros [= <- <-].
Qed.

Lemma getModelVersion_failed ig w e w' :
  getModelVersion ig w = (Fail e, w') ->
  modelVersion w' = EmptyString /\ modelInfo w' = drop 1 (modelInfo w).
Proof.
  unfold getModelVersion, bind, gets.
  destruct (String.eqb_spec (modelVersion w) EmptyString) as [Hnone|Hset]; simpl; [|done].
  unfold wrap, fetchLatestModelVersion, bind, getModelInfo.
  rewrite <- (next_drop NoResponse (modelInfo w)).
  destruct (next NoResponse (modelInfo w)) as [[|status b] rest]; simpl.
  { by intros [= _ <-]. }
  destruct (negb (status =? 200)%Z); [by intros [= _ <-]|].
  destruct b as [| |id]; try by intros [= _ <-].
  destruct (String.eqb_spec id EmptyString); [by intros [= _ <-]|done].
Qed.

Lemma getModelVersion_no_panic ig w w' : getModelVersion ig w <> (Panic, w').
Proof.
  unfold getModelVersion, bind, gets.
  destruct (negb _); [done|].
  unfold wrap, fetchLatestModelVersion, bind, getModelInfo.
  destruct (next NoResponse (modelInfo w)) as [[|status b] rest]; [done|].
  destruct (negb (status =? 200)%Z); [done|].
  destruct b as [| |id]; try done. by destruct (String.eqb id EmptyString).
Qed.

Lemma versionKept_of_unchanged {A} (c : M A) :
  holdsAcross (unchanged (fun w => (modelVersion w, modelInfo w))) c ->
  holdsAcross versionKept c.
Proof.
  apply holdsAcross_weaken. unfold unchanged, versionKept. intros w w' [= -> ->]. done.
Qed.

Lemma versionKept_lifetime s calls w :
  versionKept w (snd (lifetime calls (s, w))).
Proof.
  apply (kept_lifetime versionKept).
  - by unfold versionKept.
  - unfold versionKept. intros a b c Hab Hbc Hset.
    destruct (Hab Hset) as [Hv Hi]. rewrite <- Hv in Hset.
    destruct (Hbc Hset) as [Hv' Hi']. split; congruence.
  - intros pg date. apply versionKept_of_unchanged. untouched.
  - intros ig w0 Hset. by rewrite getModelVersion_cached.
  - apply versionKept_of_unchanged. untouched.
  - apply versionKept_of_unchanged. untouched.
  - intros n. apply versionKept_of_unchanged. untouched.
  - apply versionKept_of_unchanged. untouched.
  - intros e key data. apply versionKept_of_unchanged. untouched.
  - intros e. apply versionKept_of_unchanged. untouched.
  - intros rows. apply versionKept_of_unchanged. untouched.
  - by unfold versionKept.
Qed.

(** X6.  The model version is resolved once: a call of
    [getModelVersion] that returns a version returns a non-empty one and
    keeps it; through every later call of the process the stored version
    stays the same and no further request for the model metadata is
    made, and [getModelVersion] answers from memory.  A call that fails
    stores nothing, so the next one asks again. *)
Theorem model_version_resolved_once (ig : ImageGenerator) (w : World) :
  (forall v w', getModelVersion ig w = (Ok v, w') ->
     v <> EmptyString
     /\ forall s calls,
          let w2 := snd (lifetime calls (s, w')) in
          modelVersion w2 = v /\ modelInfo w2 = modelInfo w'
          /\ getModelVersion ig w2 = (Ok v, w2))
  /\ (forall e w', getModelVersion ig w = (Fail e, w') ->
        modelVersion w = EmptyString /\ modelVersion w' = EmptyString
        /\ modelInfo w' = drop 1 (modelInfo w))
  /\ (forall w', getModelVersion ig w <> (Panic, w')).
Proof.
  split; [|split].
  - intros v w' Hrun. apply getModelVersion_ok in Hrun as [Hv Hstored].
    split; [done|]. intros s calls w2.
    assert (Hset : modelVersion w' <> EmptyString) by congruence.
    destruct (versionKept_lifetime s calls w' Hset) as [Hsame Hinfo]. fold w2 in Hsame, Hinfo.
    split; [congruence|]. split; [done|].
    rewrite getModelVersion_cached by congruence. congruence.
  - intros e w' Hrun. split; [|by eapply getModelVersion_failed].
    destruct (String.eqb_spec (modelVersion w) EmptyString) as [Hnone|Hset]; [done|].
    by rewrite getModelVersion_cached in Hrun.
  - apply getModelVersion_no_panic.
Qed.

(** ** The three stages of an image *)

Lemma extractImageURL_nonempty raw url : extractImageURL raw = Ok url -> url <> EmptyString.
Proof.
  unfold extractImageURL. destruct (_ =? _)%nat; [done|].
  destruct (Unmarshal_string raw) as [u|].
  - destruct (String.eqb_spec u EmptyString) as [->|Hne]; simpl.
    + destruct (Unmarshal_strings raw) as [[|first ?]|];
        [| destruct (String.eqb_spec first EmptyString); simpl; [|by intros [= <-]] |];
        (destruct (Unmarshal_any raw) as [[|[] ?]|]; try done;
         match goal with
         | |- context [String.eqb ?s EmptyString] =>
             destruct (String.eqb_spec s EmptyString); simpl; [done|by intros [= <-]]
         end).
    + by intros [= <-].
  - destruct (Unmarshal_strings raw) as [[|first ?]|];
      [| destruct (String.eqb_spec first EmptyString); simpl; [|by intros [= <-]] |];
      (destruct (Unmarshal_any raw) as [[|[] ?]|]; try done;
       match goal with
       | |- context [String.eqb ?s EmptyString] =>
           destruct (String.eqb_spec s EmptyString); simpl; [done|by intros [= <-]]
       end).
Qed.

(** What a run of the polling loop costs: [k] polls and [j] sleeps of
    five seconds, and nothing else in the world moves.  The loop ends
    at a poll ([k = j + 1]) or by running out of attempts ([k = j]). *)
Lemma pollFrom_cost ig n : forall w,
  exists k j : nat,
    (k <= n)%nat /\ (j <= k)%nat /\ (k <= S j)%nat
    /\ snd (pollFrom ig n w)
       = set_slept (slept w + 5 * Z.of_nat j) (set_polls (drop k (polls w)) w)
    /\ (k = j <-> fst (pollFrom ig n w) = Fail (ErrPredictionTimedOut maxAttempts))
    /\ (k = j -> k = n)
    /\ (forall url, fst (pollFrom ig n w) = Ok url -> url <> EmptyString).
Proof.
  induction n as [|n IH]; intros w.
  { exists 0%nat, 0%nat. split; [lia|]. split; [lia|]. split; [lia|].
    split; [|by repeat split]. simpl. rewrite drop_0, Z.add_0_r. by destruct w. }
  cbn [pollFrom]. unfold bind, poll.
  assert (Hstop : forall r : result string,
    r <> Fail (ErrPredictionTimedOut maxAttempts) ->
    (forall url, r = Ok url -> url <> EmptyString) ->
    exists k j : nat,
      (k <= S n)%nat /\ (j <= k)%nat /\ (k <= S j)%nat
      /\ set_polls (snd (next NoResponse (polls w))) w
         = set_slept (slept w + 5 * Z.of_nat j) (set_polls (drop k (polls w)) w)
      /\ (k = j <-> r = Fail (ErrPredictionTimedOut maxAttempts))
      /\ (k = j -> k = S n)
      /\ (forall url, r = Ok url -> url <> EmptyString)).
  { intros r Hnot Hr. exists 1%nat, 0%nat. split; [lia|]. split; [lia|]. split; [lia|].
    split; [|split; [split; [lia|done]|split; [lia|done]]].
    rewrite next_drop. simpl. rewrite Z.add_0_r. by destruct w. }
  destruct (next NoResponse (polls w)) as [[|status [| |p]] rest] eqn:Hnext; simpl in *;
    try (by apply Hstop).
  destruct (String.eqb (Status p) "succeeded").
  { unfold wrap, lift. destruct (extractImageURL (OutputRaw p)) as [url| |] eqn:Hx; simpl;
      apply Hstop; try done. intros ? [= <-]. by eapply extractImageURL_nonempty. }
  destruct (String.eqb (Status p) "failed"); [by apply Hstop|].
  destruct (String.eqb (Status p) "canceled"); [by apply Hstop|].
  destruct (_ || _); [|by apply Hstop].
  unfold Sleep, modify. simpl.
  destruct (IH (set_slept (slept w + 5) (set_polls rest w)))
    as (k & j & Hk & Hj & Hkj & Hw & Hto & Hn & Hurl).
  exists (S k), (S j). split; [lia|]. split; [lia|]. split; [lia|].
  split; [|split; [|split]].
  - rewrite Hw. simpl.
    assert (Hrest : rest = drop 1 (polls w)) by (by rewrite <- (next_drop NoResponse), Hnext).
    rewrite Hrest, drop_drop. unfold set_slept, set_polls. simpl. f_equal. lia.
  - rewrite <- Hto. lia.
  - intros [= ->]. by rewrite Hn.
  - exact Hurl.
Qed.

(** X8.  Polling is bounded and touches nothing but the script of the
    polls and the time slept: a call of [pollPrediction] makes [k <= 60]
    polls and sleeps [5 * j] seconds.  It ends with the time-out error
    exactly when it has made 60 polls and slept 300 seconds; every other
    ending comes at a poll, after one sleep fewer than polls.  A locator
    it returns is never empty. *)
Theorem pollPrediction_is_bounded (ig : ImageGenerator) (id : string) (w : World) :
  exists k j : nat,
    snd (pollPrediction ig id w)
    = set_slept (slept w + 5 * Z.of_nat j) (set_polls (drop k (polls w)) w)
    /\ (k <= 60)%nat
    /\ (fst (pollPrediction ig id w) = Fail (ErrPredictionTimedOut 60) ->
        k = 60%nat /\ j = 60%nat)
    /\ (fst (pollPrediction ig id w) <> Fail (ErrPredictionTimedOut 60) -> k = S j)
    /\ (forall url, fst (pollPrediction ig id w) = Ok url -> url <> EmptyString).
Proof.
  unfold pollPrediction.
  destruct (pollFrom_cost ig maxAttempts w) as (k & j & Hk & Hj & Hkj & Hw & Hto & Hn & Hurl).
  exists k, j. split; [done|]. split; [done|]. split; [|split; [|done]].
  - intros Hfail. apply Hto in Hfail. split; [by apply Hn | rewrite <- Hfail; by apply Hn].
  - intros Hother. destruct (decide (k = j)) as [Heq|Hne]; [|lia].
    by apply Hto in Heq.
Qed.

Ltac unmoved lemma :=
  apply lemma; unfold unchanged; intros; simpl; congruence.

Lemma createPrediction_effect ig prompt w :
  let r := createPrediction ig prompt w in
  polls (snd r) = polls w /\ downloads (snd r) = downloads w /\ slept (snd r) = slept w
  /\ fst r <> Panic
  /\ (forall p, fst r = Ok p ->
        predictions (snd r) = drop 1 (predictions w)
        /\ modelVersion (snd r) <> EmptyString).
Proof.
  cbv zeta.
  assert (Hsame : unchanged (fun w => (polls w, downloads w, slept w)) w
                    (snd (createPrediction ig prompt w))).
  { revert w. fold (holdsAcross (unchanged (fun w => (polls w, downloads w, slept w)))
                      (createPrediction ig prompt)).
    unmoved keeps_createPrediction. }
  unfold unchanged in Hsame. injection Hsame as -> -> ->.
  split; [done|]. split; [done|]. split; [done|].
  unfold createPrediction, bind, wrap.
  pose proof (keeps_getModelVersion (unchanged predictions)) as Hk.
  specialize (Hk ltac:(done) ltac:(unfold unchanged; congruence) ltac:(done) ltac:(done) ig w).
  unfold unchanged in Hk.
  destruct (getModelVersion ig w) as [[v| |] w1] eqn:Hv; simpl in *.
  - apply getModelVersion_ok in Hv as [Hv Hstored].
    unfold postPrediction. rewrite <- Hk, <- (next_drop NoResponse (predictions w1)).
    destruct (next NoResponse (predictions w1)) as [[|status b] rest]; simpl; [by split|].
    destruct (negb _ && negb _); [by split|].
    destruct b as [| |p]; simpl; try by split.
    split; [done|]. intros ? _. split; [done|congruence].
  - by split.
  - exfalso. by eapply getModelVersion_no_panic.
Qed.

Lemma downloadImage_effect ig url w :
  let r := downloadImage ig url w in
  snd r = set_downloads (drop 1 (downloads w)) w
  /\ fst r <> Panic
  /\ (forall data, fst r = Ok data ->
        downloads w = Downloaded 200 (Some data) :: downloads (snd r)).
Proof.
  cbv zeta. unfold downloadImage, bind, httpGet.
  rewrite <- (next_drop NoDownload (downloads w)).
  destruct (downloads w) as [|[|status data] rest]; simpl; [by repeat split..|].
  destruct (Z.eqb_spec status 200) as [->|Hne]; simpl; [|by repeat split].
  destruct data as [data|]; simpl; [|by repeat split].
  split; [done|]. split; [done|]. by intros ? [= <-].
Qed.

Lemma getModelVersion_scripts ig w :
  unchanged (fun w => (predictions w, polls w, downloads w, slept w)) w
    (snd (getModelVersion ig w)).
Proof.
  revert w.
  fold (holdsAcross (unchanged (fun w => (predictions w, polls w, downloads w, slept w)))
          (getModelVersion ig)).
  unmoved keeps_getModelVersion.
Qed.

Lemma createPrediction_run ig prompt w v w0 status p preds :
  getModelVersion ig w = (Ok v, w0) ->
  predictions w = Response status (Payload p) :: preds ->
  status = 200%Z \/ status = 201%Z ->
  createPrediction ig prompt w = (Ok p, set_predictions preds w0).
Proof.
  intros Hv Hpred Hstatus.
  pose proof (getModelVersion_scripts ig w) as Hsame. rewrite Hv in Hsame.
  unfold unchanged in Hsame. simpl in Hsame. injection Hsame as Hp _ _ _.
  unfold createPrediction, bind, wrap. rewrite Hv. simpl.
  unfold postPrediction. rewrite Hp, Hpred. simpl.
  by destruct Hstatus as [-> | ->].
Qed.

Lemma pollFrom_succeeds ig n w waits code q later url :
  polls w = waits ++ Response code (Payload q) :: later ->
  (length waits < n)%nat -> forallb inProgress waits = true ->
  Status q = "succeeded" -> extractImageURL (OutputRaw q) = Ok url ->
  pollFrom ig n w
  = (Ok url, set_slept (slept w + 5 * Z.of_nat (length waits)) (set_polls later w)).
Proof.
  intros Hpolls Hlen Hwait Hs Hurl.
  replace n with (length waits + S (n - S (length waits)))%nat by lia.
  rewrite pollFrom_inProgress.
  - rewrite Hpolls, drop_app_length. cbn [pollFrom]. unfold bind at 1. unfold poll.
    cbn [polls set_slept set_polls next]. rewrite Hs. cbn.
    unfold wrap, lift. rewrite Hurl. reflexivity.
  - rewrite Hpolls, length_app. simpl. lia.
  - by rewrite Hpolls, take_app_length.
Qed.

Lemma GenerateImageFromPrompt_succeeds ig prompt w v w0 status p preds waits code q later
    url data files :
  getModelVersion ig w = (Ok v, w0) ->
  predictions w = Response status (Payload p) :: preds ->
  status = 200%Z \/ status = 201%Z ->
  polls w = waits ++ Response code (Payload q) :: later ->
  (length waits < 60)%nat -> forallb inProgress waits = true ->
  Status q = "succeeded" -> extractImageURL (OutputRaw q) = Ok url ->
  downloads w = Downloaded 200 (Some data) :: files ->
  GenerateImageFromPrompt ig prompt w
  = (Ok data,
     set_downloads files
       (set_slept (slept w + 5 * Z.of_nat (length waits))
          (set_polls later (set_predictions preds w0)))).
Proof.
  intros Hv Hpred Hstatus Hpolls Hlen Hwait Hs Hurl Hfiles.
  pose proof (getModelVersion_scripts ig w) as Hsame. rewrite Hv in Hsame.
  unfold unchanged in Hsame. simpl in Hsame. injection Hsame as Hp Hq Hd Hsl.
  unfold GenerateImageFromPrompt, bind, wrap.
  rewrite (createPrediction_run ig prompt w v w0 status p preds Hv Hpred Hstatus).
  cbn [fst snd]. unfold pollPrediction, maxAttempts.
  rewrite (pollFrom_succeeds ig 60 (set_predictions preds w0) waits code q later url);
    [|by rewrite <- Hpolls, <- Hq|done..].
  cbn [fst snd]. unfold downloadImage, bind, httpGet.
  cbn [downloads set_slept set_polls set_predictions slept]. rewrite Hd, Hfiles, Hsl.
  reflexivity.
Qed.

Lemma pollPrediction_no_panic ig id w w' : pollPrediction ig id w <> (Panic, w').
Proof.
  unfold pollPrediction. revert w.
  induction maxAttempts as [|n IH]; intros w; [done|].
  cbn [pollFrom]. unfold bind, poll.
  destruct (next NoResponse (polls w)) as [[|status [| |q]] rest]; try done.
  destruct (String.eqb _ _).
  { unfold wrap, lift. destruct (extractImageURL _) eqn:Hx; try done.
    unfold extractImageURL in Hx. destruct (_ =? _)%nat; [done|].
    repeat match type of Hx with
           | context [match ?x with _ => _ end] => destruct x; try done
           end. }
  destruct (String.eqb _ _); [done|]. destruct (String.eqb _ _); [done|].
  destruct (_ || _); [|done]. unfold Sleep, modify. apply IH.
Qed.

(** X7.  [GenerateImageFromPrompt] runs its three stages in order and
    stops at the first that fails, with the error naming the stage.
    Every run ends in one of four ways: a failed submission, followed by
    no poll and no download; a failed polling, followed by no download;
    a failed download; or bytes, which are the body of the one download,
    which answered 200, with the model version resolved -- at most one
    prediction is submitted and one file downloaded, and the call never
    panics.  The stages are chained: the polling runs in the world the
    submission leaves, for the id it returned, and the download in the
    world the polling leaves, for the locator it returned.  And the
    bytes do come: when the model version is known or can be fetched,
    the submission is answered 200 or 201 with a prediction, the polls
    find the job under way fewer than sixty times and then succeeded
    with an output that holds a locator, and the download answers 200
    with a body, the call returns that body, having sent one
    submission, made those polls with five seconds of sleep after each
    that found the job under way, and one download. *)
Theorem GenerateImageFromPrompt_stages (ig : ImageGenerator) (prompt : string) (w : World) :
  let run := GenerateImageFromPrompt ig prompt w in
  ((exists e, fst run = Fail (Wrap "failed to create prediction" e)
      /\ polls (snd run) = polls w /\ slept (snd run) = slept w
      /\ downloads (snd run) = downloads w)
   \/ (exists e, fst run = Fail (Wrap "failed to get prediction result" e)
         /\ predictions (snd run) = drop 1 (predictions w)
         /\ downloads (snd run) = downloads w)
   \/ (exists e, fst run = Fail (Wrap "failed to download image" e)
         /\ predictions (snd run) = drop 1 (predictions w)
         /\ downloads (snd run) = drop 1 (downloads w))
   \/ (exists data, fst run = Ok data
         /\ predictions (snd run) = drop 1 (predictions w)
         /\ downloads w = Downloaded 200 (Some data) :: downloads (snd run)
         /\ modelVersion (snd run) <> EmptyString))
  /\ (forall e w1, createPrediction ig prompt w = (Fail e, w1) ->
        run = (Fail (Wrap "failed to create prediction" e), w1))
  /\ (forall p w1, createPrediction ig prompt w = (Ok p, w1) ->
        (forall e w2, pollPrediction ig (PredictionID p) w1 = (Fail e, w2) ->
           run = (Fail (Wrap "failed to get prediction result" e), w2))
        /\ (forall url w2, pollPrediction ig (PredictionID p) w1 = (Ok url, w2) ->
              run = wrap "failed to download image" (downloadImage ig url) w2))
  /\ (forall v w0 status p preds waits code q later url data files,
        getModelVersion ig w = (Ok v, w0) ->
        predictions w = Response status (Payload p) :: preds ->
        status = 200%Z \/ status = 201%Z ->
        polls w = waits ++ Response code (Payload q) :: later ->
        (length waits < 60)%nat -> forallb inProgress waits = true ->
        Status q = "succeeded" -> extractImageURL (OutputRaw q) = Ok url ->
        downloads w = Downloaded 200 (Some data) :: files ->
        run = (Ok data,
               set_downloads files
                 (set_slept (slept w + 5 * Z.of_nat (length waits))
                    (set_polls later (set_predictions preds w0))))).
Proof.
  cbv zeta. split; [|split; [|split]].
  - unfold GenerateImageFromPrompt, bind, wrap.
    destruct (createPrediction_effect ig prompt w) as (Hpolls & Hdown & Hslept & Hnp & Hok).
    destruct (createPrediction ig prompt w) as [[p|e|] w1]; simpl in *; [| left; eauto | done].
    destruct (Hok p eq_refl) as [Hpred Hver].
    destruct (pollFrom_cost ig maxAttempts w1) as (k & j & _ & _ & _ & Hw2 & _ & _ & _).
    pose proof (pollPrediction_no_panic ig (PredictionID p) w1) as Hnp2.
    unfold pollPrediction in *.
    destruct (pollFrom ig maxAttempts w1) as [[url|e|] w2]; simpl in *;
      [| | by exfalso; eapply Hnp2].
    + destruct (downloadImage_effect ig url w2) as (Hw3 & Hnp3 & Hdata).
      destruct (downloadImage ig url w2) as [[data|e|] w3]; simpl in *; [| |done].
      * right; right; right. exists data. subst w3 w2. simpl in *.
        split; [done|]. split; [done|]. split; [|done].
        rewrite <- Hdown. by apply Hdata.
      * right; right; left. exists e. subst w3 w2. simpl. split; [done|]. split; [done|].
        by rewrite Hdown.
    + right; left. exists e. subst w2. simpl. auto.
  - intros e w1 Hc. unfold GenerateImageFromPrompt, bind, wrap. by rewrite Hc.
  - intros p w1 Hc. split.
    + intros e w2 Hp. unfold GenerateImageFromPrompt, bind, wrap. rewrite Hc. cbn [fst snd].
      by rewrite Hp.
    + intros url w2 Hp. unfold GenerateImageFromPrompt, bind. unfold wrap at 1 2.
      rewrite Hc. cbn [fst snd]. by rewrite Hp.
  - intros v w0 status p preds waits code q later url data files.
    apply GenerateImageFromPrompt_succeeds.
Qed.

(** ** Images and records *)

Lemma SaveImage_ok st date index data w w' :
  SaveImage st date index data w = (Ok tt, w') ->
  images w' !! GetImagePath st date index = Some data.
Proof.
  unfold SaveImage, GetImagePath, Supabase_SaveImage, Supabase_GetImagePath, wrap, writeImage.
  destruct (useSupabase st);
    destruct (next false (imageFaults w)) as [[] rest]; try done;
    intros [= <-]; simpl; apply lookup_insert_eq.
Qed.

Lemma imageKept_refl key w : imageKept key w w.
Proof. by unfold imageKept. Qed.

Lemma imageKept_trans key a b c : imageKept key a b -> imageKept key b c -> imageKept key a c.
Proof. unfold imageKept. auto. Qed.

Lemma imageKept_of_unchanged key {A} (c : M A) :
  holdsAcross (unchanged images) c -> holdsAcross (imageKept key) c.
Proof. apply holdsAcross_weaken. unfold unchanged, imageKept. by intros w w' ->. Qed.

Lemma imageKept_writeImage key e k data : holdsAcross (imageKept key) (writeImage e k data).
Proof.
  intros w. unfold writeImage, imageKept.
  destruct (next false (imageFaults w)) as [[] rest]; simpl; [done|].
  intros Hin. destruct (decide (k = key)) as [->|Hne].
  - rewrite lookup_insert_eq. by eexists.
  - by rewrite lookup_insert_ne.
Qed.

Lemma imageKept_generateFrom key g date st prompts i :
  holdsAcross (imageKept key) (generateFrom g date st i prompts).
Proof.
  apply (kept_generateFrom (imageKept key));
    [apply imageKept_refl | apply imageKept_trans | ..];
    intros; try apply imageKept_writeImage; apply imageKept_of_unchanged; untouched.
Qed.

Lemma imageKept_lifetime key s calls w :
  imageKept key w (snd (lifetime calls (s, w))).
Proof.
  apply (kept_lifetime (imageKept key));
    [apply imageKept_refl | apply imageKept_trans | ..];
    intros; try apply imageKept_writeImage; try (by unfold imageKept);
    apply imageKept_of_unchanged; untouched.
Qed.

Lemma generateFrom_images g date st prompts : forall i w pp w',
  generateFrom g date st i prompts w = (Ok pp, w') ->
  Forall (fun p => is_Some (images w' !! ImagePath p)) (recordsFrom g date st i prompts).
Proof.
  induction prompts as [|prompt later IH]; intros i w pp w'; cbn [generateFrom recordsFrom].
  { constructor. }
  unfold bind, wrap.
  destruct (GenerateImageFromPrompt _ _ w) as [[data| |] w1]; try done.
  destruct (SaveImage st date i data w1) as [[[]| |] w2] eqn:Hsave; try done.
  pose proof (imageKept_generateFrom (GetImagePath st date i) g date st later (i + 1) w2) as Hk.
  destruct (generateFrom g date st (i + 1) later w2) as [[rest| |] w3] eqn:Hrest; try done.
  unfold ret. intros [= _ <-]. constructor; [|by eapply IH].
  simpl. apply Hk. rewrite (SaveImage_ok _ _ _ _ _ _ Hsave). by eexists.
Qed.

(** X10.  A record is never returned or saved without its image: when
    [GenerateRebusPuzzles] returns without error, the image store holds
    a file under the [ImagePath] of each of the records, and after a
    successful [TriggerManualGeneration] it holds one for every row of
    the date.  No call of the process ever removes a file from the image
    store. *)
Theorem records_have_their_images (s : Scheduler RealAIGenerator) (date : string)
    (w : World) :
  (forall pp w', Real_GenerateRebusPuzzles (generator s) date (store_ s) w = (Ok pp, w') ->
     Forall (fun p => is_Some (images w' !! ImagePath p)) (derefAll pp))
  /\ (forall w', TriggerManualGeneration s date w = (Ok tt, w') ->
        Forall (fun p => is_Some (images w' !! ImagePath p)) (rowsFor date w'))
  /\ (forall calls key, is_Some (images w !! key) ->
        is_Some (images (snd (lifetime calls (s, w))) !! key)).
Proof.
  split; [|split].
  - intros pp w' Hrun.
    destruct (GenerateRebusPuzzles_ok _ _ _ _ _ _ Hrun) as (prompts & w1 & _ & Hgen & -> & _).
    rewrite derefAll_Some. by eapply generateFrom_images.
  - intros w' Hrun.
    destruct (TriggerManualGeneration_ok s date w w' Hrun) as (_ & prompts & _ & _ & Hrows).
    erewrite rowsFor_replaced; [|apply recordsFrom_dated | exact Hrows].
    rewrite String.eqb_refl.
    revert Hrun. unfold TriggerManualGeneration. destruct (ValidateDate date); [done|].
    unfold bind, wrap. rewrite Has_cases. destruct (negb _ && _); [done|]. simpl.
    destruct (Real_GenerateRebusPuzzles _ _ _ _) as [[pp| |] w1] eqn:Hgen; try done.
    intros Hsave.
    destruct (GenerateRebusPuzzles_ok _ _ _ _ _ _ Hgen) as (prompts' & w2 & _ & Hfrom & -> & Hin').
    pose proof (generateFrom_images _ _ _ _ _ _ _ _ Hfrom) as Himgs.
    assert (Hsame : images w' = images w1).
    { pose proof (keeps_SavePuzzles (unchanged images)) as Hk.
      specialize (Hk ltac:(done) ltac:(unfold unchanged; congruence) ltac:(done) ltac:(done)
                     (store_ s) date (derefAll (map Some
                        (recordsFrom (generator s) date (store_ s) 0 prompts'))) w1).
      by rewrite Hsave in Hk. }
    assert (Hrows' : puzzles w'
              = List.filter (fun r => negb (database.forDate date r)) (puzzles w)
                ++ recordsFrom (generator s) date (store_ s) 0 prompts').
    { pose proof (GenerateRebusPuzzles_sameTable (generator s) date (store_ s)
                    (set_dbFaults (drop 1 (dbFaults w)) w)) as Hg.
      rewrite Hgen in Hg. unfold sameTable in Hg. simpl in Hg.
      rewrite derefAll_Some in Hsave. unfold store.SavePuzzles in Hsave.
      destruct (SavePuzzles_cases date (recordsFrom (generator s) date (store_ s) 0 prompts') w1)
        as [(w3 & Heq & Hr) | (e & w3 & Heq & _)]; rewrite Heq in Hsave; [|done].
      injection Hsave as <-. by rewrite Hr, Hg. }
    rewrite Hrows in Hrows'. apply app_inv_head in Hrows'. rewrite Hrows', Hsame. exact Himgs.
  - intros calls key. apply imageKept_lifetime.
Qed.

Lemma recordsFrom_lookup g date st prompts : forall i k,
  recordsFrom g date st i prompts !! k
  = (fun prompt => buildPuzzle g date (i + Z.of_nat k) st prompt) <$> prompts !! k.
Proof.
  induction prompts as [|prompt later IH]; intros i k; [done|].
  destruct k as [|k]; cbn [recordsFrom].
  - simpl. by rewrite Z.add_0_r.
  - change ((?x :: ?l) !! S k) with (l !! k). rewrite IH.
    destruct (later !! k); simpl; [|done]. do 2 f_equal. lia.
Qed.

(** X9.  [GenerateRebusPuzzle] with the prompts of the date at hand: an
    index at or past their number is refused with the range error before
    any image is asked for; a negative index passes that check and the
    call panics at [prompts[index]]; and a record is returned only for an
    index within range, is the record [GenerateRebusPuzzles] builds at
    that position, and has its image in the image store. *)
Theorem GenerateRebusPuzzle_by_index (g : RealAIGenerator) (date : string) (index : Z)
    (st : Store) (w w1 : World) (prompts : list RebusPrompt) :
  GetPromptsFromClaude (promptGenerator g) date w = (Ok prompts, w1) ->
  ((Z.of_nat (length prompts) <= index)%Z ->
     Real_GenerateRebusPuzzle g date index st w = (Fail (ErrIndexOutOfRange index), w1))
  /\ ((index < 0)%Z -> Real_GenerateRebusPuzzle g date index st w = (Panic, w1))
  /\ (forall p w', Real_GenerateRebusPuzzle g date index st w = (Ok p, w') ->
        (0 <= index < Z.of_nat (length prompts))%Z
        /\ recordsFrom g date st 0 prompts !! Z.to_nat index = Some p
        /\ Index p = index
        /\ is_Some (images w' !! ImagePath p)).
Proof.
  intros Hp. unfold Real_GenerateRebusPuzzle, bind, wrap. rewrite Hp.
  split; [|split].
  - intros Hhigh. by destruct (Z.leb_spec (Z.of_nat (length prompts)) index); [|lia].
  - intros Hneg. destruct (Z.leb_spec (Z.of_nat (length prompts)) index); [lia|].
    by destruct (Z.ltb_spec index 0); [|lia].
  - intros p w'.
    destruct (Z.leb_spec (Z.of_nat (length prompts)) index) as [|Hhigh]; [done|].
    destruct (Z.ltb_spec index 0) as [|Hlow]; [done|].
    destruct (prompts !! Z.to_nat index) as [prompt|] eqn:Hat; [|done].
    destruct (GenerateImageFromPrompt _ _ w1) as [[data| |] w2]; try done.
    destruct (SaveImage st date index data w2) as [[[]| |] w3] eqn:Hsave; try done.
    unfold ret. intros [= <- <-]. split; [lia|].
    rewrite recordsFrom_lookup, Hat. simpl. rewrite Z2Nat.id by lia.
    split; [done|]. split; [done|].
    rewrite (SaveImage_ok _ _ _ _ _ _ Hsave). by eexists.
Qed.

(** ** Reading the table *)

Lemma insertByIndex_perm p l : Permutation (database.insertByIndex p l) (p :: l).
Proof.
  induction l as [|q l IH]; simpl; [done|].
  destruct (Index p <=? Index q)%Z; [done|].
  rewrite IH. apply perm_swap.
Qed.

Lemma orderByIndex_perm l : Permutation (database.orderByIndex l) l.
Proof.
  induction l as [|p l IH]; simpl; [done|].
  rewrite insertByIndex_perm. by constructor.
Qed.

Lemma insertByIndex_sorted p l :
  StronglySorted byIndex l -> StronglySorted byIndex (database.insertByIndex p l).
Proof.
  induction 1 as [|q l Hs IH Hq]; simpl; [repeat constructor|].
  destruct (Z.leb_spec (Index p) (Index q)) as [Hle|Hgt].
  - constructor; [by constructor|]. constructor; [done|].
    eapply List.Forall_impl; [|exact Hq]. unfold byIndex. intros; lia.
  - constructor; [done|].
    rewrite insertByIndex_perm. constructor; [unfold byIndex; lia | done].
Qed.

Lemma orderByIndex_sorted l : StronglySorted byIndex (database.orderByIndex l).
Proof.
  induction l as [|p l IH]; simpl; [constructor | by apply insertByIndex_sorted].
Qed.

Lemma orderByIndex_id l : StronglySorted byIndex l -> database.orderByIndex l = l.
Proof.
  induction 1 as [|p l Hs IH Hp]; simpl; [done|]. rewrite IH.
  destruct l as [|q l]; [done|]. simpl.
  inversion Hp as [|? ? Hpq _]; subst. unfold byIndex in Hpq.
  by destruct (Z.leb_spec (Index p) (Index q)); [|lia].
Qed.

Lemma scanRows_cases rows : forall scanned w,
  exists w', puzzles w' = puzzles w /\
    (database.scanRows rows scanned w = (Ok (scanned ++ rows), w')
     \/ database.scanRows rows scanned w = (Fail ErrScanPuzzle, w')).
Proof.
  induction rows as [|p rows IH]; intros scanned w; simpl.
  { exists w. split; [done|]. left. by rewrite app_nil_r. }
  unfold bind.
  destruct (stmt_cases ErrScanPuzzle w) as [-> | ->].
  - destruct (IH (scanned ++ [p]) (set_dbFaults (drop 1 (dbFaults w)) w)) as (w' & Hp & Hr).
    exists w'. split; [done|]. by rewrite <- app_assoc in Hr.
  - eexists. split; [|by right]. done.
Qed.

Lemma scanRows_ok rows : forall scanned w,
  noFaults (length rows) (dbFaults w) = true ->
  database.scanRows rows scanned w
  = (Ok (scanned ++ rows), set_dbFaults (drop (length rows) (dbFaults w)) w).
Proof.
  induction rows as [|p rows IH]; intros scanned w Hdb; simpl.
  { rewrite app_nil_r, drop_0. by destruct w. }
  apply noFaults_S in Hdb as [H1 Hrest]. unfold bind. rewrite stmt_ok by done.
  rewrite IH by done. simpl. rewrite drop_drop, <- app_assoc. done.
Qed.

Lemma GetPuzzlesForDate_cases date w :
  exists w', puzzles w' = puzzles w /\
    (database.GetPuzzlesForDate date w = (Ok (database.orderByIndex (rowsFor date w)), w')
     \/ (exists e, database.GetPuzzlesForDate date w = (Fail e, w')
           /\ (e = ErrQueryPuzzles \/ e = ErrScanPuzzle \/ e = ErrIteratePuzzles))).
Proof.
  unfold database.GetPuzzlesForDate, bind, gets.
  destruct (stmt_cases ErrQueryPuzzles w) as [-> | ->]; [|eexists; split; [|right; eauto]; done].
  simpl. fold (rowsFor date w).
  set (w1 := set_dbFaults (drop 1 (dbFaults w)) w).
  destruct (scanRows_cases (database.orderByIndex (rowsFor date w)) [] w1)
    as (w2 & Hp & [-> | ->]); [|exists w2; split; [done|right; eauto]].
  destruct (stmt_cases ErrIteratePuzzles w2) as [-> | ->].
  - eexists. split; [|by left]. done.
  - eexists. split; [|right; eauto]. done.
Qed.

Lemma GetPuzzlesForDate_ok date w :
  noFaults (2 + length (rowsFor date w)) (dbFaults w) = true ->
  database.GetPuzzlesForDate date w
  = (Ok (database.orderByIndex (rowsFor date w)),
     set_dbFaults (drop (2 + length (rowsFor date w)) (dbFaults w)) w).
Proof.
  intros Hdb. unfold database.GetPuzzlesForDate, bind, gets.
  change (2 + length (rowsFor date w))%nat with (1 + (1 + length (rowsFor date w)))%nat in Hdb.
  apply noFaults_split in Hdb as [H1 Hdb]. rewrite stmt_ok by done. simpl.
  fold (rowsFor date w).
  rewrite Nat.add_comm in Hdb. apply noFaults_split in Hdb as [Hn Hlast].
  assert (Hlen : length (database.orderByIndex (rowsFor date w)) = length (rowsFor date w)).
  { apply Permutation_length, orderByIndex_perm. }
  rewrite scanRows_ok by (simpl; by rewrite Hlen). simpl.
  rewrite stmt_ok by (simpl; by rewrite Hlen, drop_drop in * ).
  simpl. rewrite Hlen, !drop_drop. unfold ret, set_dbFaults. simpl.
  do 3 f_equal. lia.
Qed.

(** X11.  [GetPuzzlesForDate] only reads: the table is never changed.
    When it returns rows, they are the rows of the date, each once,
    in ascending order of position, so the list is empty exactly when
    the date has no batch; a date without rows is answered with no rows
    and no error.  It returns an error only when one of its statements
    fails, and with no failing statement ahead it succeeds. *)
Theorem GetPuzzlesForDate_reads_the_rows (date : string) (w : World) :
  puzzles (snd (database.GetPuzzlesForDate date w)) = puzzles w
  /\ (forall ps w', database.GetPuzzlesForDate date w = (Ok ps, w') ->
        Permutation ps (rowsFor date w)
        /\ StronglySorted byIndex ps
        /\ Forall (fun p => Date p = date) ps
        /\ (ps = [] <-> batchExists date w = false))
  /\ (forall e w', database.GetPuzzlesForDate date w = (Fail e, w') ->
        (e = ErrQueryPuzzles \/ e = ErrScanPuzzle \/ e = ErrIteratePuzzles)
        /\ noFaults (2 + length (rowsFor date w)) (dbFaults w) = false)
  /\ (noFaults (2 + length (rowsFor date w)) (dbFaults w) = true ->
      fst (database.GetPuzzlesForDate date w) = Ok (database.orderByIndex (rowsFor date w))).
Proof.
  destruct (GetPuzzlesForDate_cases date w) as (w1 & Hp & Hr).
  split; [|split; [|split]].
  - by destruct Hr as [-> | (e & -> & _)].
  - intros ps w' Hrun. destruct Hr as [Hr | (e & Hr & _)]; rewrite Hr in Hrun; [|done].
    injection Hrun as <- <-.
    pose proof (orderByIndex_perm (rowsFor date w)) as Hperm.
    split; [done|]. split; [apply orderByIndex_sorted|]. split.
    + eapply Permutation_Forall; [symmetry; exact Hperm|].
      unfold rowsFor. apply List.Forall_forall. intros p Hin.
      apply List.filter_In in Hin as [_ Hd]. by apply String.eqb_eq in Hd.
    + unfold batchExists, database.countForDate. fold (rowsFor date w).
      rewrite <- (Permutation_length Hperm).
      destruct (database.orderByIndex (rowsFor date w)); simpl; split; done.
  - intros e w' Hrun. destruct Hr as [Hr | (e' & Hr & He)]; rewrite Hr in Hrun; [done|].
    injection Hrun as <- <-. split; [done|].
    destruct (noFaults (2 + length (rowsFor date w)) (dbFaults w)) eqn:Hdb; [|done].
    rewrite GetPuzzlesForDate_ok in Hr by done. done.
  - intros Hdb. by rewrite GetPuzzlesForDate_ok.
Qed.

(** ** Writing and reading back *)

Lemma conflicts_free p rows :
  database.conflicts p rows = false ->
  forall r, In r rows -> ID r <> ID p /\ slot r <> slot p.
Proof.
  unfold database.conflicts. intros Hc r Hin.
  apply orb_false_iff in Hc as [Hid Hslot].
  rewrite <- not_true_iff_false, existsb_exists in Hid, Hslot. split.
  - intros Heq. apply Hid. exists r. split; [done|]. by apply String.eqb_eq.
  - unfold slot. intros [= Hd Hi]. apply Hslot. exists r. split; [done|].
    apply andb_true_iff. split; [by apply String.eqb_eq | by apply Z.eqb_eq].
Qed.

Lemma insertAll_inv ps : forall tx w r w',
  database.insertAll ps tx w = (Ok r, w') ->
  r = tx ++ ps
  /\ (forall p q, In p ps -> In q tx -> ID q <> ID p /\ slot q <> slot p)
  /\ List.NoDup (map ID ps) /\ List.NoDup (map slot ps).
Proof.
  induction ps as [|p ps IH]; intros tx w r w'; simpl.
  { unfold ret. intros [= <- _]. rewrite app_nil_r. repeat split; try done; constructor. }
  unfold bind. destruct (stmt_cases (ErrInsert (ID p)) w) as [-> | ->]; [|done].
  destruct (database.conflicts p tx) eqn:Hc; [done|].
  intros Hrun. apply IH in Hrun as (-> & Hfresh & Hids & Hslots).
  pose proof (conflicts_free p tx Hc) as Hp.
  split; [by rewrite <- app_assoc|]. split; [|split].
  - intros p' q [<-|Hin] Hq; [by apply Hp|].
    apply (Hfresh p' q Hin). apply in_or_app. by left.
  - constructor; [|done]. intros Hin. apply in_map_iff in Hin as (p' & Heq & Hin).
    destruct (Hfresh p' p Hin) as [Hne _]; [apply in_or_app; right; by left|]. congruence.
  - constructor; [|done]. intros Hin. apply in_map_iff in Hin as (p' & Heq & Hin).
    destruct (Hfresh p' p Hin) as [_ Hne]; [apply in_or_app; right; by left|]. congruence.
Qed.

Lemma SavePuzzles_inv date ps w w' :
  database.SavePuzzles date ps w = (Ok tt, w') ->
  puzzles w' = List.filter (fun r => negb (database.forDate date r)) (puzzles w) ++ ps
  /\ (forall p q, In p ps -> In q (puzzles w) -> Date q <> date -> ID q <> ID p)
  /\ List.NoDup (map ID ps) /\ List.NoDup (map slot ps).
Proof.
  intros Hrun.
  destruct (SavePuzzles_cases date ps w) as [(w1 & Heq & Hrows) | (e & w1 & Heq & _)];
    rewrite Heq in Hrun; [|done].
  injection Hrun as ->. split; [done|].
  revert Heq. unfold database.SavePuzzles, bind, gets.
  destruct (stmt_cases ErrBegin w) as [-> | ->]; [|done]. simpl.
  destruct (stmt_cases ErrDelete (set_dbFaults (drop 1 (dbFaults w)) w)) as [-> | ->]; [|done].
  simpl.
  match goal with
  | |- context [database.stmt ErrPrepare ?w0] =>
      destruct (stmt_cases ErrPrepare w0) as [-> | ->]; [|done]
  end.
  simpl.
  match goal with
  | |- context [database.insertAll ps ?tx ?w0] =>
      destruct (database.insertAll ps tx w0) as [[r| |] w2] eqn:Hins; try done
  end.
  apply insertAll_inv in Hins as (_ & Hfresh & Hids & Hslots).
  intros _. split; [|by split].
  intros p q Hp Hq Hd. apply (Hfresh p q Hp).
  apply List.filter_In. split; [done|].
  unfold database.forDate. by destruct (String.eqb_spec (Date q) date).
Qed.

Lemma noFaults_le n m l : (n <= m)%nat -> noFaults m l = true -> noFaults n l = true.
Proof.
  intros Hle Hm. replace m with (n + (m - n))%nat in Hm by lia.
  by apply noFaults_split in Hm as [Hn _].
Qed.

Lemma rowsFor_saved date ps w w' :
  database.SavePuzzles date ps w = (Ok tt, w') ->
  rowsFor date w' = List.filter (database.forDate date) ps.
Proof.
  intros Hrun. apply SavePuzzles_inv in Hrun as (Hrows & _).
  unfold rowsFor. rewrite Hrows, List.filter_app, filter_forDate_removed.
  by rewrite String.eqb_refl.
Qed.

(** X12.  What [SavePuzzles] wrote for a date is what
    [GetPuzzlesForDate] reads for it: after a successful save of records
    of the date, a read with no failing statement returns exactly these
    records, in ascending order of position -- the saved list itself if
    it was in that order -- whatever rows the date had before. *)
Theorem saved_batch_is_read_back (date : string) (ps : list Puzzle) (w w' : World) :
  database.SavePuzzles date ps w = (Ok tt, w') ->
  Forall (fun p => Date p = date) ps ->
  noFaults (2 + length ps) (dbFaults w') = true ->
  fst (database.GetPuzzlesForDate date w') = Ok (database.orderByIndex ps)
  /\ (StronglySorted byIndex ps -> fst (database.GetPuzzlesForDate date w') = Ok ps)
  /\ List.NoDup (map Index ps).
Proof.
  intros Hsave Hdated Hdb.
  assert (Hrows : rowsFor date w' = ps).
  { rewrite (rowsFor_saved _ _ _ _ Hsave). by apply filter_forDate_all. }
  assert (Hget : fst (database.GetPuzzlesForDate date w') = Ok (database.orderByIndex ps)).
  { rewrite GetPuzzlesForDate_ok; rewrite Hrows; done. }
  split; [done|]. split; [intros Hs; by rewrite Hget, orderByIndex_id|].
  apply SavePuzzles_inv in Hsave as (_ & _ & _ & Hslots).
  clear -Hslots Hdated. induction ps as [|p ps IH]; simpl; [constructor|].
  inversion Hslots as [|? ? Hnot Hrest]; subst. inversion Hdated as [|? ? Hd Hds]; subst.
  constructor; [|by apply IH].
  intros Hin. apply Hnot. apply in_map_iff in Hin as (q & Hi & Hq).
  apply in_map_iff. exists q. split; [|done]. unfold slot.
  rewrite List.Forall_forall in Hds. by rewrite (Hds q Hq), Hi.
Qed.

(** ** Single rows *)

Lemma find_none_forall id rows :
  List.find (hasID id) rows = None <-> forall r, In r rows -> ID r <> id.
Proof.
  split.
  - intros Hnone r Hin Heq. eapply List.find_none in Hnone; [|exact Hin].
    unfold hasID in Hnone. by rewrite Heq, String.eqb_refl in Hnone.
  - intros Hall. induction rows as [|r rows IH]; [done|]. simpl. unfold hasID at 1.
    destruct (String.eqb_spec (ID r) id) as [Heq|_].
    + exfalso. apply (Hall r); [by left | done].
    + apply IH. intros q Hq. apply Hall. by right.
Qed.

Lemma find_existsb id rows :
  existsb (fun r => String.eqb (ID r) id) rows
  = match List.find (hasID id) rows with Some _ => true | None => false end.
Proof.
  induction rows as [|r rows IH]; [done|]. simpl. unfold hasID at 1.
  by destruct (String.eqb (ID r) id).
Qed.

Lemma find_unique rows : forall p,
  List.NoDup (map ID rows) -> In p rows -> List.find (hasID (ID p)) rows = Some p.
Proof.
  induction rows as [|r rows IH]; intros p Hnd Hin; [done|]. simpl.
  inversion Hnd as [|? ? Hnot Hrest]; subst. unfold hasID at 1.
  destruct Hin as [->|Hin]; [by rewrite String.eqb_refl|].
  destruct (String.eqb_spec (ID r) (ID p)) as [Heq|_]; [|by apply IH].
  exfalso. apply Hnot. rewrite Heq. by apply in_map.
Qed.

Lemma find_app id l1 l2 :
  List.find (hasID id) (l1 ++ l2)
  = match List.find (hasID id) l1 with
    | Some r => Some r
    | None => List.find (hasID id) l2
    end.
Proof. induction l1 as [|r l1 IH]; [done|]. simpl. by destruct (hasID id r). Qed.

Lemma updated_twice p r : database.updated p (database.updated p r) = database.updated p r.
Proof. done. Qed.

Lemma updated_self p : database.updated p p = p.
Proof. by destruct p. Qed.

Lemma find_updated p rows r :
  List.find (hasID (ID p)) rows = Some r ->
  List.find (hasID (ID p))
    (map (fun r => if String.eqb (ID r) (ID p) then database.updated p r else r) rows)
  = Some (database.updated p r).
Proof.
  induction rows as [|q rows IH]; [done|]. simpl. unfold hasID at 1.
  destruct (String.eqb (ID q) (ID p)) eqn:Hq.
  - intros [= ->]. simpl. unfold hasID. simpl. by rewrite Hq.
  - intros Hfind. simpl. unfold hasID at 1. rewrite Hq. by apply IH.
Qed.

Lemma upsert_twice p rows rows' :
  database.upsert p rows = Some rows' -> database.upsert p rows' = Some rows'.
Proof.
  unfold database.upsert. rewrite !find_existsb.
  destruct (List.find (hasID (ID p)) rows) as [r|] eqn:Hfind.
  - intros [= <-]. rewrite (find_updated _ _ _ Hfind). f_equal.
    rewrite map_map. apply map_ext. intros q.
    destruct (String.eqb (ID q) (ID p)) eqn:Hq; simpl; by rewrite Hq.
  - destruct (existsb _ rows); [done|]. intros [= <-].
    rewrite find_app, Hfind. simpl. unfold hasID. rewrite String.eqb_refl.
    rewrite map_app. simpl. rewrite String.eqb_refl, updated_self. f_equal. f_equal.
    rewrite <- (map_id rows) at 2. apply map_ext_in. intros q Hq.
    rewrite find_none_forall in Hfind.
    by destruct (String.eqb_spec (ID q) (ID p)) as [Heq|]; [destruct (Hfind q Hq Heq)|].
Qed.

Lemma SavePuzzle_run p w :
  noFaults 1 (dbFaults w) = true ->
  database.SavePuzzle p w
  = match database.upsert p (puzzles w) with
    | None => (Fail ErrSavePuzzle, set_dbFaults (drop 1 (dbFaults w)) w)
    | Some rows => (Ok tt, set_puzzles rows (set_dbFaults (drop 1 (dbFaults w)) w))
    end.
Proof.
  intros Hdb. unfold database.SavePuzzle, bind, gets. rewrite stmt_ok by done. simpl.
  by destruct (database.upsert p (puzzles w)).
Qed.

Lemma GetPuzzleByID_run id w :
  noFaults 1 (dbFaults w) = true ->
  database.GetPuzzleByID id w
  = (match List.find (hasID id) (puzzles w) with
     | None => Fail (ErrPuzzleNotFound id)
     | Some p => Ok p
     end, set_dbFaults (drop 1 (dbFaults w)) w).
Proof.
  intros Hdb. unfold database.GetPuzzleByID, bind, gets. rewrite stmt_ok by done. simpl.
  fold (hasID id). by destruct (List.find (hasID id) (puzzles w)).
Qed.

Lemma lookup_map_rows {A B} (f : A -> B) (l : list A) : forall i,
  map f l !! i = f <$> l !! i.
Proof. induction l as [|x l IH]; intros [|i]; simpl; auto. Qed.

(** X13.  [SavePuzzle] inserts or updates by id.  With the statement
    answered: if a row has the id, the call succeeds and changes only
    the image URL, image path, answer and hint of that row -- every row
    with another id is kept as it is, at its place, and the row with the
    id keeps its id, date and position, also when the record passed in
    carries another date or position; if no row has the id and the
    position of its date is free, the record is appended; if the
    position is taken by a row with another id, the call fails and the
    table is unchanged.  Saving the same record a second time changes
    nothing, and [GetPuzzleByID] then returns what was stored. *)
Theorem SavePuzzle_inserts_or_updates (p : Puzzle) (w : World) :
  noFaults 1 (dbFaults w) = true ->
  let w' := snd (database.SavePuzzle p w) in
  (forall r, List.find (hasID (ID p)) (puzzles w) = Some r ->
     fst (database.SavePuzzle p w) = Ok tt
     /\ map ID (puzzles w') = map ID (puzzles w)
     /\ map slot (puzzles w') = map slot (puzzles w)
     /\ List.find (hasID (ID p)) (puzzles w') = Some (database.updated p r)
     /\ length (puzzles w') = length (puzzles w)
     /\ (forall i q, puzzles w !! i = Some q ->
           (ID q <> ID p -> puzzles w' !! i = Some q)
           /\ (ID q = ID p ->
               puzzles w' !! i
               = Some {| ID := ID q; ImageURL := ImageURL p; ImagePath := ImagePath p;
                         Answer := Answer p; Hint := Hint p;
                         Date := Date q; Index := Index q |})))
  /\ (List.find (hasID (ID p)) (puzzles w) = None ->
      if existsb (fun r => String.eqb (Date r) (Date p) && (Index r =? Index p)%Z) (puzzles w)
      then fst (database.SavePuzzle p w) = Fail ErrSavePuzzle /\ puzzles w' = puzzles w
      else fst (database.SavePuzzle p w) = Ok tt /\ puzzles w' = puzzles w ++ [p]
           /\ List.find (hasID (ID p)) (puzzles w') = Some p)
  /\ (fst (database.SavePuzzle p w) = Ok tt ->
      noFaults 1 (dbFaults w') = true ->
      puzzles (snd (database.SavePuzzle p w')) = puzzles w'
      /\ (noFaults 2 (dbFaults w') = true ->
          exists stored, fst (database.GetPuzzleByID (ID p)
                                (snd (database.SavePuzzle p w'))) = Ok stored
            /\ ID stored = ID p /\ ImageURL stored = ImageURL p
            /\ ImagePath stored = ImagePath p /\ Answer stored = Answer p
            /\ Hint stored = Hint p)).
Proof.
  intros Hdb w'. subst w'. rewrite SavePuzzle_run by done.
  split; [|split].
  - unfold database.upsert. rewrite find_existsb.
    intros r Hfind. rewrite Hfind. simpl. split; [done|].
    split; [|split; [|split; [by apply find_updated|split]]].
    + rewrite map_map; apply map_ext; intros q; by destruct (String.eqb (ID q) (ID p)).
    + rewrite map_map; apply map_ext; intros q; by destruct (String.eqb (ID q) (ID p)).
    + by rewrite length_map.
    + intros i q Hq. rewrite lookup_map_rows, Hq. simpl.
      destruct (String.eqb_spec (ID q) (ID p)) as [Heq|Hne]; split; done.
  - unfold database.upsert. rewrite find_existsb.
    intros Hnone. rewrite Hnone. destruct (existsb _ (puzzles w)); simpl; [done|].
    split; [done|]. split; [done|].
    rewrite find_app, Hnone. simpl. unfold hasID. by rewrite String.eqb_refl.
  - destruct (database.upsert p (puzzles w)) as [rows|] eqn:Hup; [|done]. simpl.
    intros _ Hdb1. pose proof (upsert_twice _ _ _ Hup) as Htwice.
    rewrite SavePuzzle_run by done. simpl. rewrite Htwice. simpl. split; [done|].
    intros Hdb2. apply (noFaults_split 1 1) in Hdb2 as [_ Hdb2].
    rewrite GetPuzzleByID_run by done. simpl.
    revert Hup. unfold database.upsert. rewrite find_existsb.
    destruct (List.find (hasID (ID p)) (puzzles w)) as [r|] eqn:Hfind.
    + intros [= <-]. rewrite (find_updated _ _ _ Hfind). eexists. split; [done|].
      apply List.find_some in Hfind as [_ Hid]. apply String.eqb_eq in Hid. done.
    + destruct (existsb _ (puzzles w)); [done|]. intros [= <-].
      rewrite find_app, Hfind. simpl. unfold hasID. rewrite String.eqb_refl.
      eexists. split; [done|]. done.
Qed.

(** X14.  [GetPuzzleByID] with its query answered returns the row that
    has the id, and the error "puzzle not found" exactly when no row has
    it; it never changes the table.  After a successful [SavePuzzles],
    each of the saved records is returned for its id. *)
Theorem GetPuzzleByID_finds_the_row (id : string) (w : World) :
  puzzles (snd (database.GetPuzzleByID id w)) = puzzles w
  /\ (noFaults 1 (dbFaults w) = true ->
      (forall p, fst (database.GetPuzzleByID id w) = Ok p -> In p (puzzles w) /\ ID p = id)
      /\ (fst (database.GetPuzzleByID id w) = Fail (ErrPuzzleNotFound id)
          <-> forall r, In r (puzzles w) -> ID r <> id))
  /\ (forall date ps w0 p,
        database.SavePuzzles date ps w0 = (Ok tt, w) -> In p ps -> id = ID p ->
        noFaults 1 (dbFaults w) = true ->
        fst (database.GetPuzzleByID id w) = Ok p).
Proof.
  split; [|split].
  - unfold database.GetPuzzleByID, bind, gets.
    destruct (stmt_cases ErrGetPuzzle w) as [-> | ->]; [|done]. simpl.
    by destruct (List.find _ (puzzles w)).
  - intros Hdb. rewrite GetPuzzleByID_run by done. simpl. split.
    + intros p. destruct (List.find (hasID id) (puzzles w)) as [q|] eqn:Hfind; [|done].
      intros [= ->]. apply List.find_some in Hfind as [Hin Hid].
      split; [done|]. by apply String.eqb_eq in Hid.
    + rewrite <- find_none_forall.
      destruct (List.find (hasID id) (puzzles w)); split; done.
  - intros date ps w0 p Hsave Hin -> Hdb. rewrite GetPuzzleByID_run by done. simpl.
    apply SavePuzzles_inv in Hsave as (Hrows & Hfresh & Hids & _).
    rewrite Hrows, find_app.
    assert (Hold : List.find (hasID (ID p))
                     (List.filter (fun r => negb (database.forDate date r)) (puzzles w0)) = None).
    { apply find_none_forall. intros q Hq. apply List.filter_In in Hq as [Hq Hd].
      apply (Hfresh p q Hin Hq). unfold database.forDate in Hd.
      by destruct (String.eqb_spec (Date q) date). }
    rewrite Hold. by rewrite find_unique.
Qed.

(** ** Dates *)

Lemma upto_forallb (f : Z -> bool) (n : Z) :
  forallb f (map Z.of_nat (seq 0 (Z.to_nat n))) = true ->
  forall z, (0 <= z < n)%Z -> f z = true.
Proof.
  intros Hall z Hz. rewrite forallb_forall in Hall. apply Hall.
  apply in_map_iff. exists (Z.to_nat z). split; [lia|]. apply in_seq. lia.
Qed.

Lemma pad_four y : (0 <= y <= 9999)%Z -> fourDigits y = true.
Proof.
  intros Hy. apply (upto_forallb fourDigits 10000); [vm_compute; reflexivity | lia].
Qed.

Lemma pad_two m : (0 <= m <= 99)%Z -> twoDigits m = true.
Proof.
  intros Hm. apply (upto_forallb twoDigits 100); [vm_compute; reflexivity | lia].
Qed.

(** X15.  The date [GetTodayDate] writes is a date [ValidateDate]
    accepts: for every calendar date of the years 0 to 9999 the text
    has ten bytes, with [-] at positions 4 and 7, and parses. *)
Theorem today_is_a_valid_date (t : Time) :
  validDate t ->
  ValidateDate (formatDate t) = None /\ String.length (formatDate t) = 10%nat.
Proof.
  intros (Hy & Hm & Hd).
  assert (Hday : (Day t <= 31)%Z).
  { destruct Hd as [_ Hd]. unfold daysIn in Hd.
    repeat match type of Hd with context [if ?b then _ else _] => destruct b end; lia. }
  pose proof (pad_four (Year t) Hy) as H4.
  pose proof (pad_two (Month t) ltac:(lia)) as H2m.
  pose proof (pad_two (Day t) ltac:(lia)) as H2d.
  unfold fourDigits in H4. unfold twoDigits in H2m, H2d. unfold formatDate.
  destruct (GoStrings.pad 4 (Year t)) as [|a [|b [|c [|d [|]]]]]; try done.
  destruct (GoStrings.pad 2 (Month t)) as [|e [|f [|]]]; try done.
  destruct (GoStrings.pad 2 (Day t)) as [|g [|h [|]]]; try done.
  destruct (digitsAcc (String a _) 0) as [y|] eqn:Ey; [|done].
  destruct (digitsAcc (String e _) 0) as [m|] eqn:Em; [|done].
  destruct (digitsAcc (String g _) 0) as [dd|] eqn:Ed; [|done].
  apply Z.eqb_eq in H4, H2m, H2d. subst y m dd.
  split; [|done]. unfold ValidateDate, parsesAsDate.
  cbv [append String.length substring Nat.eqb String.eqb Ascii.eqb Bool.eqb andb negb].
  rewrite Ey, Em, Ed.
  destruct (Z.leb_spec 1 (Month t)); [|lia].
  destruct (Z.leb_spec (Month t) 12); [|lia].
  destruct (Z.leb_spec 1 (Day t)); [|lia].
  by destruct (Z.leb_spec (Day t) (daysIn (Year t) (Month t))); [|lia].
Qed.

(** ** Puzzle ids *)

Ltac digit_step :=
  match goal with
  | |- digitsAcc (String ?c ?r) ?a = Some ?v =>
      cbn [digitsAcc];
      (replace (GoStrings.isDigit c) with true by (vm_compute; reflexivity));
      let n := eval vm_compute in (Z.of_N (N_of_ascii c)) in
      change (Z.of_N (N_of_ascii c)) with n
  end.

Lemma digitsAcc_pos d : forall acc,
  digitsAcc (NilEmpty.string_of_uint d) (Z.pos acc) = Some (Z.pos (Pos.of_uint_acc d acc)).
Proof.
  induction d; intros acc; cbn [NilEmpty.string_of_uint Pos.of_uint_acc]; [done|..];
    digit_step; rewrite <- IHd; f_equal; lia.
Qed.

Lemma digitsAcc_zero d :
  digitsAcc (NilEmpty.string_of_uint d) 0 = Some (Z.of_N (Pos.of_uint d)).
Proof.
  induction d; cbn [NilEmpty.string_of_uint Pos.of_uint]; [done|..];
    digit_step; [exact IHd|..]; cbn [Z.of_N]; rewrite <- digitsAcc_pos; f_equal.
Qed.

Lemma takeWhile_uint d :
  GoStrings.takeWhile GoStrings.isDigit (NilEmpty.string_of_uint d)
  = NilEmpty.string_of_uint d.
Proof.
  induction d; cbn [NilEmpty.string_of_uint GoStrings.takeWhile]; [done|..];
    match goal with
    | |- context [GoStrings.isDigit ?c] =>
        replace (GoStrings.isDigit c) with true by (vm_compute; reflexivity)
    end; by rewrite IHd.
Qed.

(** The decimal text of a number that is not negative: digits only, at
    least one, and they denote the number. *)
Lemma itoa_digits z :
  (0 <= z)%Z ->
  GoStrings.takeWhile GoStrings.isDigit (GoStrings.itoa z) = GoStrings.itoa z
  /\ digitsAcc (GoStrings.itoa z) 0 = Some z
  /\ exists c r, GoStrings.itoa z = String c r /\ GoStrings.isDigit c = true.
Proof.
  intros Hz. unfold GoStrings.itoa. destruct z as [|p|p]; [| |lia].
  { vm_compute. split; [done|]. split; [done|]. by eexists _, _. }
  cbn [Z.to_int NilZero.string_of_int].
  pose proof (DecimalPos.Unsigned.of_to p) as Hp.
  assert (Hnz : NilZero.string_of_uint (Pos.to_uint p)
                = NilEmpty.string_of_uint (Pos.to_uint p)).
  { by destruct (Pos.to_uint p). }
  rewrite Hnz. split; [apply takeWhile_uint|]. split; [by rewrite digitsAcc_zero, Hp|].
  destruct (Pos.to_uint p); [done|..]; cbn [NilEmpty.string_of_uint];
    eexists _, _; (split; [reflexivity|]); vm_compute; reflexivity.
Qed.

Lemma digit_is_plain c :
  GoStrings.isDigit c = true ->
  (c =? "-")%char = false /\ (c =? "+")%char = false /\ (c =? "010")%char = false
  /\ GoStrings.isSpace c = false /\ (c =? ".")%char = false /\ (c =? "/")%char = false.
Proof.
  destruct c as [[] [] [] [] [] [] [] []]; vm_compute; intros H; try discriminate H;
    repeat split.
Qed.

Lemma string_of_list_ascii_app l1 l2 :
  string_of_list_ascii (l1 ++ l2) = string_of_list_ascii l1 +:+ string_of_list_ascii l2.
Proof. induction l1 as [|c l1 IH]; [done|]. cbn. unfold append in *. by rewrite IH. Qed.

Lemma rev_String x cur :
  GoStrings.rev (String x cur) = GoStrings.rev cur +:+ String x EmptyString.
Proof.
  unfold GoStrings.rev. cbn [list_ascii_of_string List.rev].
  by rewrite string_of_list_ascii_app.
Qed.

Lemma append_assoc (a b c : string) : (a +:+ b) +:+ c = a +:+ (b +:+ c).
Proof. induction a as [|x a IH]; [done|]. cbv [append] in *. fold append in *. by rewrite IH. Qed.

Lemma takeWhile_String p x r :
  GoStrings.takeWhile p (String x r) = String x r ->
  p x = true /\ GoStrings.takeWhile p r = r.
Proof. cbn. destruct (p x); [|done]. by intros [= ->]. Qed.

Lemma append_nil (t : string) : t +:+ EmptyString = t.
Proof. induction t as [|y t IH]; [done|]. cbv [append] in *. fold append in *. by rewrite IH. Qed.

Lemma splitAcc_digits s : forall cur,
  GoStrings.takeWhile GoStrings.isDigit s = s ->
  GoStrings.splitAcc "-" s cur = [GoStrings.rev cur +:+ s].
Proof.
  induction s as [|x s IH]; intros cur Hd.
  - by rewrite append_nil.
  - apply takeWhile_String in Hd as [Hx Hs]. cbn [GoStrings.splitAcc].
    destruct (digit_is_plain x Hx) as (-> & _).
    rewrite IH by done. by rewrite rev_String, append_assoc.
Qed.

Lemma splitAcc_digits_dash s : forall cur rest,
  GoStrings.takeWhile GoStrings.isDigit s = s ->
  GoStrings.splitAcc "-" (s +:+ String "-" rest) cur
  = (GoStrings.rev cur +:+ s) :: GoStrings.splitAcc "-" rest EmptyString.
Proof.
  induction s as [|x s IH]; intros cur rest Hd.
  - by rewrite append_nil.
  - apply takeWhile_String in Hd as [Hx Hs].
    change (String x s +:+ String "-" rest) with (String x (s +:+ String "-" rest)).
    cbn [GoStrings.splitAcc]. destruct (digit_is_plain x Hx) as (-> & _).
    rewrite IH by done. by rewrite rev_String, append_assoc.
Qed.

Lemma digitsAcc_digits s : forall acc v,
  digitsAcc s acc = Some v -> GoStrings.takeWhile GoStrings.isDigit s = s.
Proof.
  induction s as [|x s IH]; intros acc v; [done|]. cbn.
  destruct (GoStrings.isDigit x); [|done]. intros Hv. by rewrite (IH _ _ Hv).
Qed.

(** A text [ValidateDate] accepts: four, two and two digits with [-]
    in between. *)
Lemma ValidateDate_shape date :
  ValidateDate date = None ->
  exists y m d,
    date = y +:+ String "-" (m +:+ String "-" d)
    /\ GoStrings.takeWhile GoStrings.isDigit y = y
    /\ GoStrings.takeWhile GoStrings.isDigit m = m
    /\ GoStrings.takeWhile GoStrings.isDigit d = d.
Proof.
  unfold ValidateDate.
  destruct (Nat.eqb_spec (String.length date) 10) as [Hlen|]; [|done].
  destruct date as [|a [|b [|c [|d [|s1 [|e [|f [|s2 [|g [|h [|]]]]]]]]]]]; try done.
  cbv [substring andb negb String.eqb].
  destruct (Ascii.eqb_spec s1 "-") as [->|]; [|done].
  destruct (Ascii.eqb_spec s2 "-") as [->|]; [|done].
  unfold parsesAsDate. cbv [substring].
  destruct (digitsAcc (String a _) 0) eqn:Hy; [|done].
  destruct (digitsAcc (String e _) 0) eqn:Hm; [|done].
  destruct (digitsAcc (String g _) 0) eqn:Hd; [|done].
  intros _. eexists (String a (String b (String c (String d EmptyString)))),
    (String e (String f EmptyString)), (String g (String h EmptyString)).
  split; [done|].
  split; [by eapply digitsAcc_digits|]. split; by eapply digitsAcc_digits.
Qed.

Lemma DecodeRune_ascii c r :
  (N_of_ascii c <? utf8.RuneSelf)%N = true ->
  utf8.DecodeRune (String c r) = (N_of_ascii c, 1%nat).
Proof. unfold utf8.DecodeRune. by intros ->. Qed.

Lemma digit_is_rune c :
  GoStrings.isDigit c = true ->
  (N_of_ascii c <? utf8.RuneSelf)%N = true /\ (N_of_ascii c =? 10)%N = false
  /\ unicode.IsSpace (N_of_ascii c) = false.
Proof.
  destruct c as [[] [] [] [] [] [] [] []]; vm_compute; intros H; try discriminate H;
    repeat split.
Qed.

Lemma skipSpace_digit c r :
  GoStrings.isDigit c = true -> skipSpace 0 (String c r) = Some (String c r).
Proof.
  intros Hc. destruct (digit_is_rune c Hc) as (Hascii & Hnl & Hsp).
  cbn [skipSpace]. by rewrite (DecodeRune_ascii c r Hascii), Hnl, Hsp.
Qed.

Lemma Sscanf_d_itoa i :
  (0 <= i < 2 ^ 63)%Z -> Sscanf_d (GoStrings.itoa i) = Some i.
Proof.
  intros Hi. destruct (itoa_digits i ltac:(lia)) as (Htake & Hval & c & r & Heq & Hc).
  unfold Sscanf_d. rewrite Heq in *. rewrite (skipSpace_digit c r Hc).
  destruct (digit_is_plain c Hc) as (Hdash & Hplus & _).
  rewrite Hdash, Hplus. cbn [orb]. rewrite Htake, Hval.
  destruct (Z.leb_spec (- 2 ^ 63) i); [|lia]. by destruct (Z.ltb_spec i (2 ^ 63)); [|lia].
Qed.

Lemma Split_id date i :
  ValidateDate date = None -> (0 <= i)%Z ->
  exists y m d,
    date = GoStrings.join "-" [y; m; d]
    /\ GoStrings.Split (date +:+ "-" +:+ GoStrings.itoa i) "-" = [y; m; d; GoStrings.itoa i].
Proof.
  intros Hvalid Hi.
  destruct (ValidateDate_shape date Hvalid) as (y & m & d & -> & Hy & Hm & Hd).
  destruct (itoa_digits i Hi) as (Hdigits & _).
  exists y, m, d. split; [done|].
  change ("-" +:+ GoStrings.itoa i) with (String "-" (GoStrings.itoa i)).
  rewrite append_assoc.
  change (String "-" (m +:+ String "-" d) +:+ String "-" (GoStrings.itoa i))
    with (String "-" ((m +:+ String "-" d) +:+ String "-" (GoStrings.itoa i))).
  rewrite append_assoc.
  change (String "-" d +:+ String "-" (GoStrings.itoa i))
    with (String "-" (d +:+ String "-" (GoStrings.itoa i))).
  unfold GoStrings.Split.
  rewrite !splitAcc_digits_dash by done. by rewrite splitAcc_digits.
Qed.

Lemma ParsePuzzleID_round_trip date i :
  ValidateDate date = None -> (0 <= i < 2 ^ 63)%Z ->
  ParsePuzzleID (date +:+ "-" +:+ GoStrings.itoa i) = inr (date, i).
Proof.
  intros Hvalid Hi.
  destruct (Split_id date i Hvalid ltac:(lia)) as (y & m & d & Hdate & Hsplit).
  unfold ParsePuzzleID. rewrite Hsplit. cbn [length Nat.ltb Nat.leb firstn nth].
  rewrite <- Hdate, Hvalid. by rewrite Sscanf_d_itoa.
Qed.

(** X16.  [ParsePuzzleID] reads back the ids the generator writes: for
    a date [ValidateDate] accepts and a position that is not negative
    (and fits 64 bits), the id [date-position] parses to that date and
    that position.  The id of a negative position does not parse. *)
Theorem ParsePuzzleID_reads_generated_ids (date : string) (i : Z) :
  ValidateDate date = None ->
  ((0 <= i < 2 ^ 63)%Z ->
     ParsePuzzleID (date +:+ "-" +:+ GoStrings.itoa i) = inr (date, i))
  /\ ((i < 0)%Z ->
        ParsePuzzleID (date +:+ "-" +:+ GoStrings.itoa i) = inl ErrInvalidIndex).
Proof.
  intros Hvalid. split; [by apply ParsePuzzleID_round_trip|].
  intros Hi.
  destruct (ValidateDate_shape date Hvalid) as (y & m & d & Hdate & Hy & Hm & Hd).
  destruct i as [|p|p]; [lia|lia|].
  destruct (itoa_digits (Z.pos p) ltac:(lia)) as (Hdigits & _).
  assert (Hneg : GoStrings.itoa (Z.neg p) = String "-" (GoStrings.itoa (Z.pos p))) by done.
  unfold ParsePuzzleID.
  assert (Hsplit : GoStrings.Split (date +:+ "-" +:+ GoStrings.itoa (Z.neg p)) "-"
                   = [y; m; d; EmptyString; GoStrings.itoa (Z.pos p)]).
  { rewrite Hneg, Hdate.
    change ("-" +:+ String "-" (GoStrings.itoa (Z.pos p)))
      with (String "-" (EmptyString +:+ String "-" (GoStrings.itoa (Z.pos p)))).
    rewrite append_assoc.
    change (String "-" (m +:+ String "-" d) +:+ ?z)
      with (String "-" ((m +:+ String "-" d) +:+ z)).
    rewrite append_assoc.
    change (String "-" d +:+ ?z) with (String "-" (d +:+ z)).
    unfold GoStrings.Split.
    rewrite !splitAcc_digits_dash by done. by rewrite splitAcc_digits. }
  rewrite Hsplit. cbn [length Nat.ltb Nat.leb firstn nth].
  replace (GoStrings.join "-" [y; m; d]) with date by (by rewrite Hdate).
  by rewrite Hvalid.
Qed.

(** ** The HTTP handlers *)

Section PuzzleHandlers.
Context {G : Type} `{AIGenerator G}.
Implicit Types (h : handlers.PuzzleHandler G) (w : World).

Lemma store_GetPuzzlesForDate_attempt st date w :
  exists w', puzzles w' = puzzles w /\
    (attempt (store.GetPuzzlesForDate st date) w
       = (Ok (inr (database.orderByIndex (rowsFor date w))), w')
     \/ (exists e, attempt (store.GetPuzzlesForDate st date) w = (Ok (inl e), w')
           /\ noFaults (2 + length (rowsFor date w)) (dbFaults w) = false)).
Proof.
  unfold attempt, store.GetPuzzlesForDate.
  destruct (GetPuzzlesForDate_cases date w) as (w' & Hp & [Hr | (e & Hr & _)]).
  - exists w'. split; [done|]. left. by rewrite Hr.
  - exists w'. split; [done|]. right. exists e. rewrite Hr. split; [done|].
    destruct (noFaults _ _) eqn:Hdb; [|done]. by rewrite GetPuzzlesForDate_ok in Hr.
Qed.

(** X17.  [GetPuzzlesHandler] answers 400 exactly for a date
    [ValidateDate] refuses, and then asks the database nothing.  For a
    valid date whose query is answered it answers 200 with the rows of
    the date in ascending order of position -- for a date without
    puzzles, 200 with no puzzles; the 404 "No puzzles found" is written
    only when a statement of the query fails.  It never changes the
    table and never ends in an error or a panic. *)
Theorem GetPuzzlesHandler_statuses h (date : string) w :
  (forall err, ValidateDate date = Some err ->
     handlers.GetPuzzlesHandler h date w
     = (Ok (handlers.HttpError 400 (handlers.OfError EmptyString err)), w))
  /\ (ValidateDate date = None ->
      (noFaults (2 + length (rowsFor date w)) (dbFaults w) = true ->
         fst (handlers.GetPuzzlesHandler h date w)
         = Ok (handlers.PuzzlesResponse date (database.orderByIndex (rowsFor date w))))
      /\ (batchExists date w = false -> noFaults 2 (dbFaults w) = true ->
            fst (handlers.GetPuzzlesHandler h date w)
            = Ok (handlers.PuzzlesResponse date []))
      /\ (forall m, fst (handlers.GetPuzzlesHandler h date w)
                    = Ok (handlers.HttpError 404 m) ->
            noFaults (2 + length (rowsFor date w)) (dbFaults w) = false)
      /\ (forall m, fst (handlers.GetPuzzlesHandler h date w)
                    <> Ok (handlers.HttpError 400 m)))
  /\ puzzles (snd (handlers.GetPuzzlesHandler h date w)) = puzzles w
  /\ exists resp, fst (handlers.GetPuzzlesHandler h date w) = Ok resp.
Proof.
  unfold handlers.GetPuzzlesHandler.
  destruct (ValidateDate date) as [err|] eqn:Hvalid.
  { split; [by intros ? [= <-]|]. split; [done|]. split; [done|]. by eexists. }
  split; [done|]. unfold bind.
  destruct (store_GetPuzzlesForDate_attempt (handlers.store_ h) date w)
    as (w' & Hp & [Hr | (e & Hr & Hdb)]); rewrite Hr; cbn [fst snd ret].
  - split; [|split; [done|by eexists]]. intros _. split; [done|].
    split; [|by split]. intros Hnone _. unfold batchExists, database.countForDate in Hnone.
    fold (rowsFor date w) in Hnone. by destruct (rowsFor date w).
  - split; [|split; [done|by eexists]]. intros _. split; [intros Hdb'; congruence|].
    split; [|by split]. intros Hnone Hdb2. unfold batchExists, database.countForDate in Hnone.
    fold (rowsFor date w) in Hnone. destruct (rowsFor date w); [|done].
    simpl in Hdb. congruence.
Qed.

Lemma find_in_order id rows p :
  List.NoDup (map ID rows) -> In p rows -> ID p = id ->
  List.find (hasID id) (database.orderByIndex (List.filter (database.forDate (Date p)) rows))
  = Some p.
Proof.
  intros Hnd Hin <-. apply find_unique.
  - eapply Permutation_NoDup.
    + apply Permutation_map. symmetry. apply orderByIndex_perm.
    + clear Hin. induction rows as [|r rows IH]; simpl; [constructor|].
      inversion Hnd as [|? ? Hnot Hrest]; subst.
      destruct (database.forDate (Date p) r); simpl; [|by apply IH].
      constructor; [|by apply IH]. intros Hr. apply Hnot.
      apply in_map_iff in Hr as (q & Hq & Hqin). apply List.filter_In in Hqin as [Hqin _].
      rewrite <- Hq. by apply in_map.
  - eapply Permutation_in; [symmetry; apply orderByIndex_perm|].
    apply List.filter_In. split; [done|]. unfold database.forDate. apply String.eqb_refl.
Qed.

Lemma VerifyAnswerHandler_found h (p : Puzzle) (answer : string) w :
  In p (puzzles w) ->
  List.NoDup (map ID (puzzles w)) ->
  ID p = Date p +:+ "-" +:+ GoStrings.itoa (Index p) ->
  ValidateDate (Date p) = None ->
  (0 <= Index p < 2 ^ 63)%Z ->
  noFaults (2 + length (rowsFor (Date p) w)) (dbFaults w) = true ->
  fst (handlers.VerifyAnswerHandler h
         (Payload (handlers.mkVerifyRequest (ID p) answer)) w)
  = Ok (handlers.VerifyResponse
          (String.eqb (GoStrings.ToLower (GoStrings.TrimSpace answer))
                      (GoStrings.ToLower (GoStrings.TrimSpace (Answer p))))).
Proof.
  intros Hin Hnd Hid Hvalid Hrange Hdb.
  assert (Hparse : ParsePuzzleID (ID p) = inr (Date p, Index p)).
  { rewrite Hid. by apply ParsePuzzleID_round_trip. }
  unfold handlers.VerifyAnswerHandler. cbn [handlers.PuzzleID handlers.RequestAnswer].
  rewrite Hparse. unfold bind, attempt, store.GetPuzzlesForDate.
  rewrite GetPuzzlesForDate_ok by done. cbn [fst snd].
  unfold handlers.findPuzzle, rowsFor. fold (hasID (ID p)).
  by rewrite (find_in_order (ID p) (puzzles w) p).
Qed.

(** X18.  [VerifyAnswerHandler] for a puzzle of the table whose id is
    the date and position it was generated with: when ids are unique in
    the table and the query is answered, the answer is 200 and [correct]
    says whether the submitted answer and the stored one are equal after
    trimming white space and lowering the case of both; so the stored
    answer itself is always accepted.  A body that does not decode is
    answered with 400 and nothing else happens, and no request changes
    the table. *)
Theorem VerifyAnswerHandler_checks_the_answer h (p : Puzzle) (answer : string) w :
  In p (puzzles w) ->
  List.NoDup (map ID (puzzles w)) ->
  ID p = Date p +:+ "-" +:+ GoStrings.itoa (Index p) ->
  ValidateDate (Date p) = None ->
  (0 <= Index p < 2 ^ 63)%Z ->
  noFaults (2 + length (rowsFor (Date p) w)) (dbFaults w) = true ->
  fst (handlers.VerifyAnswerHandler h
         (Payload (handlers.mkVerifyRequest (ID p) answer)) w)
  = Ok (handlers.VerifyResponse
          (String.eqb (GoStrings.ToLower (GoStrings.TrimSpace answer))
                      (GoStrings.ToLower (GoStrings.TrimSpace (Answer p)))))
  /\ fst (handlers.VerifyAnswerHandler h
            (Payload (handlers.mkVerifyRequest (ID p) (Answer p))) w)
     = Ok (handlers.VerifyResponse true)
  /\ handlers.VerifyAnswerHandler h Malformed w
     = (Ok (handlers.HttpError 400 (handlers.Plain "Invalid request body")), w)
  /\ (forall requestBody,
        puzzles (snd (handlers.VerifyAnswerHandler h requestBody w)) = puzzles w).
Proof.
  intros Hin Hnd Hid Hvalid Hrange Hdb.
  split; [by apply VerifyAnswerHandler_found|].
  split; [by rewrite VerifyAnswerHandler_found, String.eqb_refl|]. split; [done|].
  intros [| |req]; [done|done|]. unfold handlers.VerifyAnswerHandler.
  destruct (ParsePuzzleID (handlers.PuzzleID req)) as [err|[date idx]]; [done|].
  unfold bind.
  destruct (store_GetPuzzlesForDate_attempt (handlers.store_ h) date w)
    as (w' & Hp & [Hr | (e & Hr & _)]); rewrite Hr; cbn [fst snd ret]; [|done].
  by destruct (handlers.findPuzzle _ _).
Qed.

Lemma TriggerTodayGeneration_absent (s : Scheduler G) w :
  batchExists (formatDate (clock w)) w = false ->
  TriggerTodayGeneration s w
  = (Fail ErrFailedToGenerateToday, set_dbFaults (drop 4 (dbFaults w)) w).
Proof.
  intros Hb. unfold TriggerTodayGeneration, bind, GetTodayDate, gets.
  rewrite (Has_absent _ _ w Hb).
  rewrite (generatePuzzlesForToday_absent s (set_dbFaults _ w)) by exact Hb.
  rewrite (Has_absent _ _ (set_dbFaults _ (set_dbFaults _ w))) by exact Hb.
  simpl. unfold fail. rewrite !drop_drop. reflexivity.
Qed.

(** X19.  What [TriggerJobHandler] can answer.  With no batch for today
    in the table it answers 500 "failed to generate puzzles for today"
    after four existence checks, and nothing is generated; with a batch
    and the first check answered it answers 200 with [generated: false].
    So [generated: true] is written only when a batch for today was in
    the table before the request and the first existence check failed. *)
Theorem TriggerJobHandler_answers h w :
  let today := formatDate (clock w) in
  (batchExists today w = false ->
     handlers.TriggerJobHandler h w
     = (Ok (handlers.HttpError 500
              (handlers.OfError "Failed to trigger job: " ErrFailedToGenerateToday)),
        set_dbFaults (drop 4 (dbFaults w)) w))
  /\ (batchExists today w = true -> noFaults 1 (dbFaults w) = true ->
      handlers.TriggerJobHandler h w
      = (Ok (handlers.TriggerResponse false "Puzzles already exist for today"),
         set_dbFaults (drop 1 (dbFaults w)) w))
  /\ (forall text,
        fst (handlers.TriggerJobHandler h w) = Ok (handlers.TriggerResponse true text) ->
        batchExists today w = true /\ noFaults 1 (dbFaults w) = false).
Proof.
  cbv zeta.
  assert (Habsent : batchExists (formatDate (clock w)) w = false ->
    handlers.TriggerJobHandler h w
    = (Ok (handlers.HttpError 500
             (handlers.OfError "Failed to trigger job: " ErrFailedToGenerateToday)),
       set_dbFaults (drop 4 (dbFaults w)) w)).
  { intros Hb. unfold handlers.TriggerJobHandler, bind, attempt.
    by rewrite TriggerTodayGeneration_absent. }
  assert (Hpresent : batchExists (formatDate (clock w)) w = true ->
    noFaults 1 (dbFaults w) = true ->
    handlers.TriggerJobHandler h w
    = (Ok (handlers.TriggerResponse false "Puzzles already exist for today"),
       set_dbFaults (drop 1 (dbFaults w)) w)).
  { intros Hb Hdb. unfold handlers.TriggerJobHandler, bind, attempt.
    unfold TriggerTodayGeneration, bind, GetTodayDate, gets.
    by rewrite Has_present. }
  split; [done|]. split; [done|]. intros text Hrun.
  destruct (batchExists (formatDate (clock w)) w) eqn:Hb.
  - split; [done|]. destruct (noFaults 1 (dbFaults w)) eqn:Hdb; [|done].
    by rewrite Hpresent in Hrun.
  - by rewrite Habsent in Hrun.
Qed.

End PuzzleHandlers.

(** ** Serving images *)

Lemma substring_all (s : string) : substring 0 (String.length s) s = s.
Proof. induction s as [|c s IH]; [done|]. cbn. by rewrite IH. Qed.

Lemma substring_prefix (a b : string) : substring 0 (String.length a) (a +:+ b) = a.
Proof.
  induction a as [|c a IH]; [by destruct b|].
  change (String c a +:+ b) with (String c (a +:+ b)). cbn. by rewrite IH.
Qed.

Lemma length_append (a b : string) :
  String.length (a +:+ b) = (String.length a + String.length b)%nat.
Proof.
  induction a as [|c a IH]; [done|].
  change (String c a +:+ b) with (String c (a +:+ b)). cbn. by rewrite IH.
Qed.

Lemma list_ascii_of_string_append (a b : string) :
  list_ascii_of_string (a +:+ b) = list_ascii_of_string a ++ list_ascii_of_string b.
Proof.
  induction a as [|c a IH]; [done|].
  change (String c a +:+ b) with (String c (a +:+ b)). cbn. by rewrite IH.
Qed.

Lemma rev_append (a b : string) :
  GoStrings.rev (a +:+ b) = GoStrings.rev b +:+ GoStrings.rev a.
Proof.
  unfold GoStrings.rev.
  by rewrite list_ascii_of_string_append, rev_app_distr, string_of_list_ascii_app.
Qed.

Lemma takeWhile_append p (a b : string) :
  GoStrings.takeWhile p a = a -> GoStrings.takeWhile p b = b ->
  GoStrings.takeWhile p (a +:+ b) = a +:+ b.
Proof.
  induction a as [|c a IH]; intros Ha Hb; [done|].
  apply takeWhile_String in Ha as [Hc Ha].
  change (String c a +:+ b) with (String c (a +:+ b)). cbn. by rewrite Hc, IH.
Qed.

Lemma takeWhile_weaken (p q : ascii -> bool) s :
  (forall c, p c = true -> q c = true) ->
  GoStrings.takeWhile p s = s -> GoStrings.takeWhile q s = s.
Proof.
  intros Hpq. induction s as [|c s IH]; [done|]. intros Hs.
  apply takeWhile_String in Hs as [Hc Hs]. cbn. by rewrite (Hpq c Hc), IH.
Qed.

Lemma idByte_plain c :
  idByte c = true -> (c =? ".")%char = false /\ (c =? "/")%char = false.
Proof.
  destruct c as [[] [] [] [] [] [] [] []]; vm_compute; intros Hc; try discriminate Hc;
    by split.
Qed.

(** A file name made of an id and the extension [.png] has no [..] and
    no [/]. *)
Lemma id_png_clean s :
  GoStrings.takeWhile idByte s = s ->
  GoStrings.Contains (s +:+ ".png") ".." = false
  /\ GoStrings.Contains (s +:+ ".png") "/" = false.
Proof.
  induction s as [|c s IH]; intros Hs; [by vm_compute|].
  apply takeWhile_String in Hs as [Hc Hs]. destruct (IH Hs) as [Hdots Hslash].
  destruct (idByte_plain c Hc) as [Hdot Hsl].
  change (String c s +:+ ".png") with (String c (s +:+ ".png")).
  cbn [GoStrings.Contains GoStrings.HasPrefix]. by rewrite Hdot, Hsl, Hdots, Hslash.
Qed.

Lemma HasPrefix_nil s : GoStrings.HasPrefix s EmptyString = true.
Proof. by destruct s. Qed.

Lemma Ext_png s : Ext (s +:+ ".png") = ".png".
Proof.
  unfold Ext. by rewrite list_ascii_of_string_append, rev_app_distr.
Qed.

Lemma TrimSuffix_png s : GoStrings.TrimSuffix (s +:+ ".png") ".png" = s.
Proof.
  unfold GoStrings.TrimSuffix, GoStrings.HasSuffix. rewrite rev_append.
  change (GoStrings.rev ".png") with "gnp.".
  change ("gnp." +:+ GoStrings.rev s)
    with (String "g" (String "n" (String "p" (String "." (GoStrings.rev s))))).
  cbn [GoStrings.HasPrefix Ascii.eqb Bool.eqb andb]. rewrite HasPrefix_nil.
  rewrite length_append. cbn [String.length].
  replace (String.length s + 4 - 4)%nat with (String.length s) by lia.
  apply substring_prefix.
Qed.

Lemma TrimPrefix_api s : GoStrings.TrimPrefix ("/api/images/" +:+ s) "/api/images/" = s.
Proof.
  unfold GoStrings.TrimPrefix.
  change ("/api/images/" +:+ s)
    with (String "/" (String "a" (String "p" (String "i" (String "/" (String "i"
           (String "m" (String "a" (String "g" (String "e" (String "s" (String "/" s)))))))))))).
  cbn [GoStrings.HasPrefix Ascii.eqb Bool.eqb andb String.length Nat.sub substring].
  rewrite HasPrefix_nil, Nat.sub_0_r. apply substring_all.
Qed.

Lemma splitAcc_png s : forall cur,
  GoStrings.takeWhile GoStrings.isDigit s = s ->
  GoStrings.splitAcc "-" (s +:+ ".png") cur = [GoStrings.rev cur +:+ s +:+ ".png"].
Proof.
  induction s as [|x s IH]; intros cur Hd.
  - change (EmptyString +:+ ".png") with ".png". cbn [GoStrings.splitAcc Ascii.eqb Bool.eqb].
    by rewrite !rev_String, !append_assoc.
  - apply takeWhile_String in Hd as [Hx Hs].
    change (String x s +:+ ".png") with (String x (s +:+ ".png")).
    cbn [GoStrings.splitAcc]. destruct (digit_is_plain x Hx) as (-> & _).
    rewrite IH by done. by rewrite rev_String, append_assoc.
Qed.

(** The file name of the image of a generated puzzle. *)
Lemma filename_parts date i :
  ValidateDate date = None -> (0 <= i)%Z ->
  let filename := date +:+ "-" +:+ GoStrings.itoa i +:+ ".png" in
  exists y m d,
    date = GoStrings.join "-" [y; m; d]
    /\ GoStrings.Split filename "-" = [y; m; d; GoStrings.itoa i +:+ ".png"]
    /\ GoStrings.Contains filename ".." = false
    /\ GoStrings.Contains filename "/" = false
    /\ Ext filename = ".png".
Proof.
  intros Hvalid Hi filename. subst filename.
  destruct (ValidateDate_shape date Hvalid) as (y & m & d & Hdate & Hy & Hm & Hd).
  destruct (itoa_digits i Hi) as (Hdigits & _).
  exists y, m, d. split; [done|].
  assert (Hid : forall s, GoStrings.takeWhile GoStrings.isDigit s = s ->
                          GoStrings.takeWhile idByte s = s).
  { intros s. apply takeWhile_weaken. intros c Hc. unfold idByte. by rewrite Hc. }
  assert (Hshape : date +:+ "-" +:+ GoStrings.itoa i +:+ ".png"
                   = (date +:+ "-" +:+ GoStrings.itoa i) +:+ ".png").
  { by rewrite !append_assoc. }
  assert (Hclean : GoStrings.takeWhile idByte (date +:+ "-" +:+ GoStrings.itoa i)
                   = date +:+ "-" +:+ GoStrings.itoa i).
  { assert (Hdash : forall z, GoStrings.takeWhile idByte z = z ->
                       GoStrings.takeWhile idByte (String "-" z) = String "-" z).
    { intros z Hz. cbn [GoStrings.takeWhile]. change (idByte "-") with true. cbv iota.
      by rewrite Hz. }
    rewrite Hdate. apply takeWhile_append.
    - apply takeWhile_append; [by apply Hid|]. apply Hdash.
      apply takeWhile_append; [by apply Hid|]. apply Hdash. by apply Hid.
    - change ("-" +:+ GoStrings.itoa i) with (String "-" (GoStrings.itoa i)).
      apply Hdash. by apply Hid. }
  split; [|rewrite Hshape; split; [by apply id_png_clean|split;
                                   [by apply id_png_clean | apply Ext_png]]].
  rewrite Hdate.
  change ("-" +:+ GoStrings.itoa i +:+ ".png")
    with (String "-" (GoStrings.itoa i +:+ ".png")).
  rewrite append_assoc.
  change (String "-" (m +:+ String "-" d) +:+ ?z)
    with (String "-" ((m +:+ String "-" d) +:+ z)).
  rewrite append_assoc.
  change (String "-" d +:+ ?z) with (String "-" (d +:+ z)).
  unfold GoStrings.Split.
  rewrite !splitAcc_digits_dash by done. by rewrite splitAcc_png.
Qed.

(** X20.  [ServeImage] resolves the image URL of a generated puzzle to
    the image that was written for it.  With local files, a handler on
    the store's directory answers a GET of the store's URL for a valid
    date and a position that is not negative by serving, as
    [image/png], the file at the store's path for them; with Supabase,
    a handler on the store's public URL redirects the request for
    [/api/images/date-position.png] to the store's URL of the object.
    A file is only ever served under a name with no [/] and no [..]. *)
Theorem ServeImage_resolves_generated_urls (h : handlers.ImageHandler) (st : Store)
    (method date : string) (i : Z) :
  ValidateDate date = None ->
  (0 <= i)%Z ->
  (handlers.useSupabase h = false -> useSupabase st = false ->
   handlers.imagesPath h = imagesPath st -> method <> "OPTIONS" ->
     handlers.ServeImage h method (GetImageURL st date i)
     = handlers.ServeFile "image/png" (GetImagePath st date i))
  /\ (handlers.useSupabase h = true -> useSupabase st = true ->
      handlers.supabaseBaseURL h = publicURL (supabaseStorage st) ->
        handlers.ServeImage h method
          ("/api/images/" +:+ date +:+ "-" +:+ GoStrings.itoa i +:+ ".png")
        = handlers.Redirect 301 (GetImageURL st date i))
  /\ (forall path contentType file,
        handlers.ServeImage h method path = handlers.ServeFile contentType file ->
        handlers.useSupabase h = false
        /\ exists name, file = Join [handlers.imagesPath h; name]
             /\ GoStrings.Contains name ".." = false
             /\ GoStrings.Contains name "/" = false).
Proof.
  intros Hvalid Hi.
  destruct (filename_parts date i Hvalid Hi) as (y & m & d & Hdate & Hsplit & Hdots & Hslash & Hext).
  split; [|split].
  - intros Hfs Hst Hpath Hmethod. unfold handlers.ServeImage, GetImageURL, GetImagePath.
    rewrite Hst, Hfs, TrimPrefix_api, Hdots, Hslash, Hext, Hpath.
    by destruct (String.eqb_spec method "OPTIONS").
  - intros Hsb Hst Hbase. unfold handlers.ServeImage, GetImageURL, Supabase_GetImageURL, objectKey.
    rewrite Hst, Hsb, TrimPrefix_api, Hdots, Hsplit.
    cbn [length Nat.leb firstn nth]. rewrite <- Hdate, Ext_png, TrimSuffix_png, Hbase.
    done.
  - intros path contentType file. unfold handlers.ServeImage.
    destruct (GoStrings.Contains (GoStrings.TrimPrefix path "/api/images/") "..") eqn:Hd; [done|].
    destruct (handlers.useSupabase h); [by destruct (4 <=? _)%nat|].
    destruct (GoStrings.Contains (GoStrings.TrimPrefix path "/api/images/") "/") eqn:Hs; [done|].
    destruct (String.eqb method "OPTIONS"); [done|]. intros [= _ <-].
    split; [done|]. by eexists.
Qed.

(** ** The image store of Supabase *)

Lemma readImage_ok key w :
  noFaults 1 (imageFaults w) = true ->
  readImage key w = (Ok (Some (images w !! key)), set_imageFaults (drop 1 (imageFaults w)) w).
Proof.
  intros Hf. unfold readImage. rewrite <- (next_drop false (imageFaults w)).
  pose proof (next_noFault _ Hf) as Hnext.
  destruct (next false (imageFaults w)) as [f rest]. simpl in *. by subst f.
Qed.

(** X21.  The three methods of [SupabaseStorage] agree on where an
    image is: what [SaveImage] uploaded for a date and a position is
    what [GetImage] downloads for them and what [ImageExists] finds,
    under the key [GetImagePath] names, when the requests are answered.
    For a key with no object [ImageExists] answers false without error
    and [GetImage] fails; neither changes the store. *)
Theorem Supabase_image_round_trip (s : SupabaseStorage) (date : string) (i : Z)
    (data : list Byte.byte) (w w' : World) :
  Supabase_SaveImage s date i data w = (Ok tt, w') ->
  images w' !! Supabase_GetImagePath s date i = Some data
  /\ (noFaults 2 (imageFaults w') = true ->
      fst (Supabase_GetImage s date i w') = Ok data)
  /\ (noFaults 1 (imageFaults w') = true ->
      fst (Supabase_ImageExists s date i w') = Ok true)
  /\ (forall d j w0, images w0 !! objectKey d j = None ->
        noFaults 1 (imageFaults w0) = true ->
        fst (Supabase_ImageExists s d j w0) = Ok false
        /\ fst (Supabase_GetImage s d j w0) = Fail ErrGetObject)
  /\ (forall d j w0, images (snd (Supabase_GetImage s d j w0)) = images w0
                     /\ images (snd (Supabase_ImageExists s d j w0)) = images w0).
Proof.
  intros Hsave.
  assert (Hstored : images w' !! objectKey date i = Some data).
  { revert Hsave. unfold Supabase_SaveImage, wrap, writeImage.
    destruct (next false (imageFaults w)) as [[] rest]; [done|].
    intros [= <-]. simpl. apply lookup_insert_eq. }
  split; [done|]. split; [|split; [|split]].
  - intros Hf. apply (noFaults_split 1 1) in Hf as [H1 H2].
    unfold Supabase_GetImage, bind. rewrite readImage_ok by done. rewrite Hstored.
    cbn [imageFaults set_imageFaults]. pose proof (next_noFault _ H2) as Hnext.
    destruct (next false (drop 1 (imageFaults w'))) as [f rest]. simpl in *. by subst f.
  - intros Hf. unfold Supabase_ImageExists, bind. rewrite readImage_ok by done.
    by rewrite Hstored.
  - intros d j w0 Hnone Hf. unfold Supabase_ImageExists, Supabase_GetImage, bind.
    rewrite readImage_ok by done. by rewrite Hnone.
  - intros d j w0. unfold Supabase_ImageExists, Supabase_GetImage, bind, readImage.
    destruct (next false (imageFaults w0)) as [[] rest]; simpl; [done|].
    destruct (images w0 !! objectKey d j); simpl; [|done].
    by destruct (next false rest) as [[] rest'].
Qed.

(** ** Normal form of answers

    On a text of ASCII bytes [ToLower] lowers byte by byte and
    [TrimSpace] drops the ASCII white space at both ends; trimming and
    lowering such a text a second time changes nothing. *)

#[local] Abbreviation lowerBytes := (GoStrings.mapBytes GoStrings.lowerByte).
#[local] Abbreviation dropSpace := (GoStrings.dropWhile GoStrings.isSpace).
#[local] Abbreviation trimBytes s := (GoStrings.rev (dropSpace (GoStrings.rev (dropSpace s)))).

Lemma lowerByte_facts c :
  GoStrings.isSpace (GoStrings.lowerByte c) = GoStrings.isSpace c
  /\ GoStrings.lowerByte (GoStrings.lowerByte c) = GoStrings.lowerByte c
  /\ (N_of_ascii (GoStrings.lowerByte c) <? utf8.RuneSelf)%N
     = (N_of_ascii c <? utf8.RuneSelf)%N.
Proof. destruct c as [[] [] [] [] [] [] [] []]; by vm_compute. Qed.

Lemma lowerBytes_twice s : lowerBytes (lowerBytes s) = lowerBytes s.
Proof.
  induction s as [|c s IH]; [done|]. cbn.
  destruct (lowerByte_facts c) as (_ & -> & _). by rewrite IH.
Qed.

Lemma dropWhile_lowerBytes s : dropSpace (lowerBytes s) = lowerBytes (dropSpace s).
Proof.
  induction s as [|c s IH]; [done|]. cbn.
  destruct (lowerByte_facts c) as (-> & _). by destruct (GoStrings.isSpace c).
Qed.

Lemma rev_rev s : GoStrings.rev (GoStrings.rev s) = s.
Proof.
  induction s as [|c s IH]; [done|].
  rewrite rev_String, rev_append, IH. done.
Qed.

Lemma mapBytes_append f a b :
  GoStrings.mapBytes f (a +:+ b) = GoStrings.mapBytes f a +:+ GoStrings.mapBytes f b.
Proof.
  induction a as [|c a IH]; [done|].
  change (String c a +:+ b) with (String c (a +:+ b)). cbn [GoStrings.mapBytes].
  rewrite IH. done.
Qed.

Lemma rev_lowerBytes s : GoStrings.rev (lowerBytes s) = lowerBytes (GoStrings.rev s).
Proof.
  induction s as [|c s IH]; [done|].
  cbn [GoStrings.mapBytes]. rewrite !rev_String, IH, mapBytes_append. done.
Qed.

Lemma trimBytes_lowerBytes s : trimBytes (lowerBytes s) = lowerBytes (trimBytes s).
Proof.
  by rewrite dropWhile_lowerBytes, rev_lowerBytes, dropWhile_lowerBytes, rev_lowerBytes.
Qed.

Lemma dropWhile_twice p s :
  GoStrings.dropWhile p (GoStrings.dropWhile p s) = GoStrings.dropWhile p s.
Proof.
  induction s as [|c s IH]; [done|]. cbn. destruct (p c) eqn:Hc; [done|]. cbn. by rewrite Hc.
Qed.

(** What [dropWhile] leaves starts with a byte that is kept, and is the
    text after a prefix of dropped bytes. *)
Lemma dropWhile_split p s :
  exists pre, s = pre +:+ GoStrings.dropWhile p s
    /\ GoStrings.dropWhile p pre = EmptyString.
Proof.
  induction s as [|c s (pre & Hs & Hpre)]; [by exists EmptyString|]. cbn.
  destruct (p c) eqn:Hc.
  - exists (String c pre). split.
    + change (String c pre +:+ ?z) with (String c (pre +:+ z)). by rewrite <- Hs.
    + cbn. by rewrite Hc.
  - by exists EmptyString.
Qed.

Lemma dropWhile_head p s c r :
  GoStrings.dropWhile p s = String c r -> p c = false.
Proof.
  induction s as [|x s IH]; [done|]. cbn. destruct (p x) eqn:Hx; [done|].
  by intros [= <- _].
Qed.

Lemma dropWhile_keep p c r : p c = false -> GoStrings.dropWhile p (String c r) = String c r.
Proof. intros Hc. cbn. by rewrite Hc. Qed.

Lemma trimBytes_twice s : trimBytes (trimBytes s) = trimBytes s.
Proof.
  set (v := dropSpace s).
  set (u := dropSpace (GoStrings.rev v)).
  assert (Hfront : dropSpace (GoStrings.rev u) = GoStrings.rev u).
  { destruct (dropWhile_split GoStrings.isSpace (GoStrings.rev v)) as (pre & Hv & Hpre).
    fold u in Hv.
    assert (Hvv : v = GoStrings.rev u +:+ GoStrings.rev pre).
    { by rewrite <- rev_append, <- Hv, rev_rev. }
    destruct (GoStrings.rev u) as [|c r] eqn:Hru; [done|].
    apply dropWhile_keep.
    change (String c r +:+ GoStrings.rev pre) with (String c (r +:+ GoStrings.rev pre)) in Hvv.
    unfold v in Hvv. by eapply dropWhile_head. }
  rewrite Hfront, rev_rev. unfold u. by rewrite dropWhile_twice.
Qed.

Lemma isASCII_append a b :
  GoStrings.isASCII (a +:+ b) = GoStrings.isASCII a && GoStrings.isASCII b.
Proof.
  induction a as [|c a IH]; [done|].
  change (String c a +:+ b) with (String c (a +:+ b)). cbn [GoStrings.isASCII].
  by rewrite IH, andb_assoc.
Qed.

Lemma isASCII_rev s : GoStrings.isASCII (GoStrings.rev s) = GoStrings.isASCII s.
Proof.
  induction s as [|c s IH]; [done|].
  rewrite rev_String, isASCII_append, IH. cbn [GoStrings.isASCII].
  by rewrite andb_true_r, andb_comm.
Qed.

Lemma isASCII_dropWhile p s :
  GoStrings.isASCII s = true -> GoStrings.isASCII (GoStrings.dropWhile p s) = true.
Proof.
  induction s as [|c s IH]; [done|]. intros Hs. cbn [GoStrings.dropWhile].
  destruct (p c); [|done]. apply IH. cbn in Hs. by apply andb_true_iff in Hs as [_ Hs].
Qed.

Lemma isASCII_lowerBytes s : GoStrings.isASCII (lowerBytes s) = GoStrings.isASCII s.
Proof.
  induction s as [|c s IH]; [done|]. cbn [GoStrings.mapBytes GoStrings.isASCII].
  destruct (lowerByte_facts c) as (_ & _ & ->). by rewrite IH.
Qed.

Lemma isASCII_trimBytes s :
  GoStrings.isASCII s = true -> GoStrings.isASCII (trimBytes s) = true.
Proof.
  intros Hs. rewrite isASCII_rev. apply isASCII_dropWhile.
  rewrite isASCII_rev. by apply isASCII_dropWhile.
Qed.

(** The fast paths. *)
Lemma ToLower_ascii s : GoStrings.isASCII s = true -> GoStrings.ToLower s = lowerBytes s.
Proof. unfold GoStrings.ToLower. by intros ->. Qed.

Lemma trimASCII_ascii s :
  GoStrings.isASCII s = true -> GoStrings.trimASCII s = (false, dropSpace s).
Proof.
  induction s as [|c s IH]; [done|]. cbn [GoStrings.isASCII]. intros Hs.
  apply andb_true_iff in Hs as [Hc Hs]. cbn [GoStrings.trimASCII GoStrings.dropWhile].
  apply N.ltb_lt in Hc. destruct (N.leb_spec utf8.RuneSelf (N_of_ascii c)); [lia|].
  destruct (GoStrings.isSpace c); [by apply IH | done].
Qed.

Lemma TrimSpace_ascii s : GoStrings.isASCII s = true -> GoStrings.TrimSpace s = trimBytes s.
Proof.
  intros Hs. unfold GoStrings.TrimSpace. rewrite (trimASCII_ascii s Hs).
  rewrite trimASCII_ascii; [done|]. rewrite isASCII_rev. by apply isASCII_dropWhile.
Qed.

(** Trimming and lowering an ASCII text that has been trimmed and
    lowered changes nothing. *)
Lemma normal_form s :
  GoStrings.isASCII s = true ->
  GoStrings.ToLower (GoStrings.TrimSpace (GoStrings.ToLower (GoStrings.TrimSpace s)))
  = GoStrings.ToLower (GoStrings.TrimSpace s).
Proof.
  intros Hs. pose proof (isASCII_trimBytes s Hs) as Ht.
  rewrite (TrimSpace_ascii s Hs), (ToLower_ascii _ Ht).
  rewrite TrimSpace_ascii by (by rewrite isASCII_lowerBytes).
  rewrite ToLower_ascii.
  - by rewrite trimBytes_lowerBytes, lowerBytes_twice, trimBytes_twice.
  - apply isASCII_trimBytes. by rewrite isASCII_lowerBytes.
Qed.

(** Outside ASCII the work is done rune by rune: a no-break space, the
    word with a capital E acute, and an em space give the word with a
    small e acute. *)
Example normal_form_of_runes :
  GoStrings.isASCII shoutedEclair = false
  /\ GoStrings.ToLower (GoStrings.TrimSpace shoutedEclair) = Answer eclair
  /\ Answer eclair = utf8.bytes [195; 169; 99; 108; 97; 105; 114]%N.
Proof. vm_compute. repeat split. Qed.

(** ** From generation to the answers of the handlers *)

Lemma recordsFrom_sorted g date st prompts : forall i,
  StronglySorted byIndex (recordsFrom g date st i prompts)
  /\ Forall (fun p => (i <= Index p)%Z) (recordsFrom g date st i prompts).
Proof.
  induction prompts as [|prompt later IH]; intros i; cbn [recordsFrom].
  { split; constructor. }
  destruct (IH (i + 1)%Z) as [Hs Hge]. split.
  - constructor; [done|]. eapply List.Forall_impl; [|exact Hge].
    unfold byIndex. simpl. intros; lia.
  - constructor; [simpl; lia|]. eapply List.Forall_impl; [|exact Hge]. simpl. intros; lia.
Qed.

Lemma TriggerManualGeneration_saved (s : Scheduler RealAIGenerator) date w w' :
  TriggerManualGeneration s date w = (Ok tt, w') ->
  ValidateDate date = None
  /\ exists prompts w1,
       puzzles w1 = puzzles w
       /\ (cacheWellFormed w -> length prompts = 5%nat)
       /\ database.SavePuzzles date
            (recordsFrom (generator s) date (store_ s) 0 prompts) w1 = (Ok tt, w').
Proof.
  unfold TriggerManualGeneration. destruct (ValidateDate date); [done|].
  unfold bind, wrap. rewrite Has_cases.
  destruct (negb _ && _); [done|]. simpl.
  set (w0 := set_dbFaults (drop 1 (dbFaults w)) w).
  pose proof (GenerateRebusPuzzles_sameTable (generator s) date (store_ s) w0) as Hg.
  unfold sameTable in Hg.
  destruct (Real_GenerateRebusPuzzles _ _ _ w0) as [[pp|e|] w1] eqn:Hgen; try done.
  simpl in Hg. intros Hsave. split; [done|].
  destruct (GenerateRebusPuzzles_ok _ _ _ _ _ _ Hgen) as (prompts & w2 & Hp & _ & -> & Hin).
  exists prompts, w1. rewrite derefAll_Some in Hsave. split; [done|]. split; [|done].
  intros Hwf.
  pose proof (GetPromptsFromClaude_wellFormed (promptGenerator (generator s)) date w0 Hwf)
    as Hwf1.
  rewrite Hp in Hwf1. apply GetPromptsFromClaude_ok in Hp as [Hin1 _].
  by apply (Hwf1 date).
Qed.

Lemma NoDup_saved date ps w w' :
  List.NoDup (map ID (puzzles w)) ->
  database.SavePuzzles date ps w = (Ok tt, w') ->
  List.NoDup (map ID (puzzles w')).
Proof.
  intros Hnd Hsave. apply SavePuzzles_inv in Hsave as (-> & Hfresh & Hids & _).
  rewrite map_app. apply List.NoDup_app; [|done|].
  - clear -Hnd. induction (puzzles w) as [|r rows IH]; simpl; [constructor|].
    inversion Hnd as [|? ? Hnot Hrest]; subst.
    destruct (negb (database.forDate date r)); simpl; [|by apply IH].
    constructor; [|by apply IH]. intros Hr. apply Hnot.
    apply in_map_iff in Hr as (q & Hq & Hqin). apply List.filter_In in Hqin as [Hqin _].
    rewrite <- Hq. by apply in_map.
  - intros id Hold Hnew.
    apply in_map_iff in Hold as (q & <- & Hq). apply in_map_iff in Hnew as (p & Heq & Hp).
    apply List.filter_In in Hq as [Hq Hd].
    apply (Hfresh p q Hp Hq); [|done]. unfold database.forDate in Hd.
    by destruct (String.eqb_spec (Date q) date).
Qed.

(** X22.  From generation to the answers of the API.  After a
    successful [TriggerManualGeneration] for a date, on a table with
    unique ids, and with the queries answered: [GetPuzzlesHandler]
    answers 200 with the five generated records in order of position,
    and [VerifyAnswerHandler], asked about any of them, answers that a
    submitted answer is correct exactly when its trimmed lower-case form
    is that of the stored answer; the stored answer itself is accepted.
    When the answer of a prompt is ASCII text, the stored answer is in
    that form already: a submitted answer is compared with the trimmed
    lower-case form of the answer of the prompt, and the answer of the
    prompt is accepted as it was written. *)
Theorem generated_puzzles_are_served (h : handlers.PuzzleHandler RealAIGenerator)
    (s : Scheduler RealAIGenerator) (date : string) (w w' : World) :
  cacheWellFormed w ->
  List.NoDup (map ID (puzzles w)) ->
  TriggerManualGeneration s date w = (Ok tt, w') ->
  noFaults 7 (dbFaults w') = true ->
  exists prompts,
    length prompts = 5%nat
    /\ rowsFor date w' = recordsFrom (generator s) date (store_ s) 0 prompts
    /\ fst (handlers.GetPuzzlesHandler h date w')
       = Ok (handlers.PuzzlesResponse date (rowsFor date w'))
    /\ (forall p answer, In p (rowsFor date w') ->
          fst (handlers.VerifyAnswerHandler h
                 (Payload (handlers.mkVerifyRequest (ID p) answer)) w')
          = Ok (handlers.VerifyResponse
                  (String.eqb (GoStrings.ToLower (GoStrings.TrimSpace answer))
                              (GoStrings.ToLower (GoStrings.TrimSpace (Answer p)))))
          /\ fst (handlers.VerifyAnswerHandler h
                    (Payload (handlers.mkVerifyRequest (ID p) (Answer p))) w')
             = Ok (handlers.VerifyResponse true))
    /\ (forall k prompt, prompts !! k = Some prompt ->
          GoStrings.isASCII (PromptAnswer prompt) = true ->
          let id := date +:+ "-" +:+ GoStrings.itoa (Z.of_nat k) in
          (forall answer,
             fst (handlers.VerifyAnswerHandler h
                    (Payload (handlers.mkVerifyRequest id answer)) w')
             = Ok (handlers.VerifyResponse
                     (String.eqb (GoStrings.ToLower (GoStrings.TrimSpace answer))
                                 (GoStrings.ToLower (GoStrings.TrimSpace (PromptAnswer prompt))))))
          /\ fst (handlers.VerifyAnswerHandler h
                    (Payload (handlers.mkVerifyRequest id (PromptAnswer prompt))) w')
             = Ok (handlers.VerifyResponse true)).
Proof.
  intros Hwf Hnd Hrun Hdb.
  destruct (TriggerManualGeneration_saved s date w w' Hrun)
    as (Hvalid & prompts & w1 & Hsame & Hlen & Hsave).
  specialize (Hlen Hwf). exists prompts. split; [done|].
  set (recs := recordsFrom (generator s) date (store_ s) 0 prompts) in *.
  assert (Hdated : Forall (fun p => Date p = date) recs) by apply recordsFrom_dated.
  assert (Hrows : rowsFor date w' = recs).
  { rewrite (rowsFor_saved _ _ _ _ Hsave). by apply filter_forDate_all. }
  assert (Hcount : length (rowsFor date w') = 5%nat).
  { rewrite Hrows. unfold recs. by rewrite recordsFrom_length. }
  assert (Hnd' : List.NoDup (map ID (puzzles w'))).
  { eapply NoDup_saved; [|exact Hsave]. by rewrite Hsame. }
  assert (Hverify : forall p answer, In p recs ->
    fst (handlers.VerifyAnswerHandler h
           (Payload (handlers.mkVerifyRequest (ID p) answer)) w')
    = Ok (handlers.VerifyResponse
            (String.eqb (GoStrings.ToLower (GoStrings.TrimSpace answer))
                        (GoStrings.ToLower (GoStrings.TrimSpace (Answer p)))))).
  { intros p answer Hin.
    apply list_elem_of_In, list_elem_of_lookup in Hin as [k Hk].
    unfold recs in Hk. rewrite recordsFrom_lookup in Hk.
    destruct (prompts !! k) as [prompt|] eqn:Hprompt; [|done].
    injection Hk as <-.
    set (p := buildPuzzle (generator s) date (0 + Z.of_nat k) (store_ s) prompt).
    assert (Hk5 : (k < 5)%nat) by (rewrite <- Hlen; by eapply lookup_lt_Some).
    assert (Hin : In p (puzzles w')).
    { assert (Hp : In p (rowsFor date w')).
      { rewrite Hrows. apply list_elem_of_In, list_elem_of_lookup. exists k.
        unfold recs. by rewrite recordsFrom_lookup, Hprompt. }
      unfold rowsFor in Hp. by apply List.filter_In in Hp as [Hp _]. }
    rewrite (VerifyAnswerHandler_found h p answer w' Hin Hnd'); try done.
    - unfold p. cbn [Index buildPuzzle]. lia.
    - unfold p at 1. cbn [Date buildPuzzle]. by rewrite Hcount. }
  split; [done|]. split; [|split].
  - unfold handlers.GetPuzzlesHandler. rewrite Hvalid.
    unfold bind, attempt, store.GetPuzzlesForDate.
    rewrite GetPuzzlesForDate_ok by (by rewrite Hcount). cbn [fst snd ret].
    rewrite Hrows, orderByIndex_id; [done|]. apply recordsFrom_sorted.
  - intros p answer Hin. rewrite Hrows in Hin.
    split; [by apply Hverify|]. by rewrite (Hverify p (Answer p) Hin), String.eqb_refl.
  - intros k prompt Hk Hascii id.
    assert (Hin : In (buildPuzzle (generator s) date (0 + Z.of_nat k) (store_ s) prompt) recs).
    { apply list_elem_of_In, list_elem_of_lookup. exists k.
      unfold recs. by rewrite recordsFrom_lookup, Hk. }
    assert (Hall : forall answer,
      fst (handlers.VerifyAnswerHandler h
             (Payload (handlers.mkVerifyRequest id answer)) w')
      = Ok (handlers.VerifyResponse
              (String.eqb (GoStrings.ToLower (GoStrings.TrimSpace answer))
                          (GoStrings.ToLower (GoStrings.TrimSpace (PromptAnswer prompt)))))).
    { intros answer. pose proof (Hverify _ answer Hin) as Hv.
      cbn [ID Answer buildPuzzle] in Hv. rewrite Z.add_0_l in Hv.
      by rewrite normal_form in Hv. }
    split; [exact Hall|]. by rewrite Hall, String.eqb_refl.
Qed.

(** ** The loop of the scheduler and the catch-up of [Start] *)

Section Loop.
Context {G : Type} `{AIGenerator G}.

(** X23.  The catch-up of [Start] and the first turn of the loop of
    [run] divide the day between them.  For a scheduler set to a time of
    day, at any time of day: the loop waits less than 24 hours and wakes
    at the scheduled time of day; when the scheduled time has passed,
    the check of [Start] makes its run (if today has no batch) and the
    loop wakes tomorrow; when it has not passed, nor when it is exactly
    now, the check makes no run and the loop wakes today. *)
Theorem catch_up_and_loop_divide_the_day (s : Scheduler G) (w : World) :
  (0 <= hour s < 24)%Z -> (0 <= minute s < 60)%Z -> validClock (clock w) ->
  let now := clock w in
  let scheduled := nanosOfDay (hour s) (minute s) 0 0 in
  (0 <= nextRunIn s now < day)%Z
  /\ (pastScheduledTime s now = true ->
      (timeOfDay now + nextRunIn s now = scheduled + day)%Z
      /\ (batchExists (formatDate now) w = false ->
          exists o, fst (checkAndRunIfNeeded s w) = Ok (Ran o)))
  /\ (pastScheduledTime s now = false ->
      (timeOfDay now + nextRunIn s now = scheduled)%Z
      /\ (batchExists (formatDate now) w = false ->
          fst (checkAndRunIfNeeded s w) = Ok NotYetDue)).
Proof.
  intros Hh Hm (Hch & Hcm & Hcs & Hcn). cbv zeta.
  unfold nextRunIn, pastScheduledTime, timeOfDay, day, nanosOfDay.
  set (scheduled := (((hour s * 60 + minute s) * 60 + 0) * 1000000000 + 0)%Z).
  set (current := (((Hour (clock w) * 60 + Minute (clock w)) * 60 + Second (clock w))
                   * 1000000000 + Nanosecond (clock w))%Z).
  assert (Hs : (0 <= scheduled < 24 * 60 * 60 * 1000000000)%Z) by (unfold scheduled; lia).
  assert (Hc : (0 <= current < 24 * 60 * 60 * 1000000000)%Z) by (unfold current; lia).
  assert (Hcheck : batchExists (formatDate (clock w)) w = false ->
    fst (checkAndRunIfNeeded s w)
    = if (scheduled <? current)%Z then Ok (Ran NotGenerating) else Ok NotYetDue).
  { intros Hb. unfold checkAndRunIfNeeded, bind, GetTodayDate, gets.
    rewrite (Has_absent _ _ w Hb). unfold pastScheduledTime, nanosOfDay.
    fold scheduled. fold current. destruct (scheduled <? current)%Z; [|done].
    by rewrite generatePuzzlesForToday_absent. }
  destruct (Z.ltb_spec scheduled current) as [Hlt|Hge].
  - split; [lia|]. split; [|done]. intros _. split; [lia|].
    intros Hb. rewrite (Hcheck Hb). by eexists.
  - split; [lia|]. split; [done|]. intros _. split; [lia|].
    intros Hb. by rewrite (Hcheck Hb).
Qed.

End Loop.

(** ** The store and the image handler that [main] builds *)

(** X24.  [main] chooses the place of the images twice, for the store
    and for the image handler, by different tests.  When the two
    choices agree, a request for the image of a generated puzzle gets
    the image the store wrote: the file at the store's path, or a
    redirect to the store's URL.  They agree unless a bucket is set and
    the public URL is set without both keys, or both keys without the
    public URL; in the first of these cases the store writes local files
    and every request for one is redirected to Supabase. *)
Theorem main_wires_store_and_handler (cfg : server.Config) (method date : string) (i : Z) :
  ValidateDate date = None -> (0 <= i)%Z -> method <> "OPTIONS" ->
  let st := server.storeInstance cfg in
  let h := server.imageHandler cfg in
  let request := "/api/images/" +:+ date +:+ "-" +:+ GoStrings.itoa i +:+ ".png" in
  (useSupabase st = handlers.useSupabase h ->
     handlers.ServeImage h method request
     = if useSupabase st then handlers.Redirect 301 (GetImageURL st date i)
       else handlers.ServeFile "image/png" (GetImagePath st date i))
  /\ (useSupabase st = handlers.useSupabase h
      <-> (server.nonEmpty (server.SupabaseS3Bucket cfg) = false
           \/ server.nonEmpty (server.SupabaseS3AccessKey cfg)
              && server.nonEmpty (server.SupabaseS3SecretKey cfg)
              = server.nonEmpty (server.SupabaseS3PublicURL cfg)))
  /\ (useSupabase st = false -> handlers.useSupabase h = true ->
      GetImageURL st date i = request
      /\ handlers.ServeImage h method request
         = handlers.Redirect 301
             (server.SupabaseS3PublicURL cfg +:+ "/" +:+ objectKey date i)).
Proof.
  intros Hvalid Hi Hmethod. cbv zeta.
  destruct (filename_parts date i Hvalid Hi)
    as (y & m & d & Hdate & Hsplit & Hdots & Hslash & Hext).
  assert (Hredirect : forall h', handlers.useSupabase h' = true ->
    handlers.ServeImage h' method
      ("/api/images/" +:+ date +:+ "-" +:+ GoStrings.itoa i +:+ ".png")
    = handlers.Redirect 301 (handlers.supabaseBaseURL h' +:+ "/" +:+ objectKey date i)).
  { intros h' Hsb. unfold handlers.ServeImage, objectKey.
    rewrite Hsb, TrimPrefix_api, Hdots, Hsplit.
    cbn [length Nat.leb firstn nth]. by rewrite <- Hdate, Ext_png, TrimSuffix_png. }
  unfold server.storeInstance, server.imageHandler.
  destruct (server.nonEmpty (server.SupabaseS3Bucket cfg));
    destruct (server.nonEmpty (server.SupabaseS3AccessKey cfg));
    destruct (server.nonEmpty (server.SupabaseS3SecretKey cfg));
    destruct (server.nonEmpty (server.SupabaseS3PublicURL cfg));
    cbn [andb store.NewStore store.NewStoreWithSupabase store.NewSupabaseStorage
         handlers.NewImageHandler handlers.NewImageHandlerWithSupabase
         useSupabase handlers.useSupabase];
    (split; [intros Hsame; try discriminate Hsame
            | split; [split; [intros Hsame; try discriminate Hsame; auto
                             | intros [Hb|Hk]; try discriminate Hb; try discriminate Hk; done]
                     | intros Hst Hh; try discriminate Hst; try discriminate Hh]]);
    try (rewrite Hredirect by done; done);
    try (split; [done|]; rewrite Hredirect by done; done);
    unfold handlers.ServeImage, GetImagePath;
    cbn [handlers.useSupabase handlers.imagesPath useSupabase imagesPath];
    rewrite TrimPrefix_api, Hdots, Hslash, Hext;
    by destruct (String.eqb_spec method "OPTIONS").
Qed.

(** ** The further properties at concrete inputs *)

Lemma cacheWellFormed_empty w : promptCache w = ∅ -> cacheWellFormed w.
Proof. intros Hempty date prompts. by rewrite Hempty, lookup_empty. Qed.

Lemma prompt_cache_entries_have_five_witness :
  promptCache endToEnd = ∅
  /\ cacheWellFormed (snd (lifetime [CallTriggerManual today; CallGetPrompts "2024-01-16"]
                             (theScheduler, endToEnd))).
Proof.
  split; [reflexivity|].
  exact (proj1 (prompt_cache_entries_have_five theScheduler
                  [CallTriggerManual today; CallGetPrompts "2024-01-16"] endToEnd eq_refl)).
Defined.

Lemma failed_fetch_is_not_cached_witness :
  fst (GetPromptsFromClaude (promptGenerator theGenerator) today quiet) = Fail ErrClaudeCall
  /\ promptCache (snd (GetPromptsFromClaude (promptGenerator theGenerator) today quiet))
       !! today = None
  /\ claudeRequests (snd (GetPromptsFromClaude (promptGenerator theGenerator) today quiet))
     = 1%nat.
Proof.
  split; [reflexivity|].
  assert (Hfail : forall prompts,
            fst (GetPromptsFromClaude (promptGenerator theGenerator) today quiet)
            <> Ok prompts) by (intros prompts; vm_compute; discriminate).
  destruct (failed_fetch_is_not_cached (promptGenerator theGenerator) today quiet Hfail)
    as (_ & Hnone & Hreq & _).
  split; [exact Hnone | exact Hreq].
Defined.

Lemma GenerateRebusPuzzles_returns_five_records_witness :
  let pp := map Some (recordsFrom theGenerator today theStore 0 fivePrompts) in
  cacheWellFormed endToEnd
  /\ fst (Real_GenerateRebusPuzzles theGenerator today theStore endToEnd) = Ok pp
  /\ map Index (derefAll pp) = [0; 1; 2; 3; 4]%Z
  /\ Forall (fun p => Date p = today
                      /\ ID p = today +:+ "-" +:+ GoStrings.itoa (Index p)
                      /\ ImageURL p = GetImageURL theStore today (Index p)
                      /\ ImagePath p = GetImagePath theStore today (Index p))
       (derefAll pp).
Proof.
  intros pp.
  assert (Hwf : cacheWellFormed endToEnd) by (apply cacheWellFormed_empty; reflexivity).
  assert (Hrun : Real_GenerateRebusPuzzles theGenerator today theStore endToEnd
                 = (Ok pp, snd (Real_GenerateRebusPuzzles theGenerator today theStore endToEnd)))
    by (vm_compute; reflexivity).
  split; [exact Hwf|]. split; [by rewrite Hrun|].
  destruct (GenerateRebusPuzzles_returns_five_records theGenerator today theStore endToEnd
              _ pp Hwf Hrun) as (prompts & _ & _ & _ & _ & Hindex & Hfields & _).
  split; [exact Hindex | exact Hfields].
Defined.

Lemma TriggerManualGeneration_writes_the_batch_witness :
  let w' := snd (TriggerManualGeneration theScheduler today endToEnd) in
  cacheWellFormed endToEnd
  /\ fst (TriggerManualGeneration theScheduler today endToEnd) = Ok tt
  /\ map Index (rowsFor today w') = [0; 1; 2; 3; 4]%Z
  /\ batchExists today w' = true
  /\ rowsFor "2024-01-14" w' = rowsFor "2024-01-14" endToEnd.
Proof.
  intros w'.
  assert (Hwf : cacheWellFormed endToEnd) by (apply cacheWellFormed_empty; reflexivity).
  assert (Hrun : TriggerManualGeneration theScheduler today endToEnd = (Ok tt, w'))
    by (vm_compute; reflexivity).
  split; [exact Hwf|]. split; [by rewrite Hrun|].
  destruct (TriggerManualGeneration_writes_the_batch theScheduler today endToEnd w' Hwf Hrun)
    as (_ & _ & Hindex & Hexists & Hothers).
  split; [exact Hindex|]. split; [exact Hexists|]. apply Hothers. discriminate.
Defined.

Lemma TriggerManualGeneration_guards_witness :
  TriggerManualGeneration theScheduler "15-01-2024" endToEnd
  = (Fail (Wrap "invalid date" ErrInvalidDateFormat), endToEnd)
  /\ fst (TriggerManualGeneration theScheduler today withBatch) = Fail (ErrAlreadyExist today)
  /\ rowsFor "2024-01-14" (snd (TriggerManualGeneration theScheduler today withBatchDbDown))
     = batch "2024-01-14".
Proof.
  destruct (TriggerManualGeneration_guards theScheduler "15-01-2024" endToEnd) as (Hbad & _).
  split; [exact (Hbad ErrInvalidDateFormat eq_refl)|].
  destruct (TriggerManualGeneration_guards theScheduler today withBatch) as (_ & Hhas & _).
  split; [by rewrite (Hhas eq_refl eq_refl eq_refl)|].
  destruct (TriggerManualGeneration_guards theScheduler today withBatchDbDown) as (_ & _ & Hothers).
  rewrite (Hothers "2024-01-14") by discriminate. vm_compute. reflexivity.
Defined.

Lemma GenerateRebusPuzzle_by_index_witness :
  let first := GetPromptsFromClaude (promptGenerator theGenerator) today endToEnd in
  first = (Ok fivePrompts, snd first)
  /\ Real_GenerateRebusPuzzle theGenerator today 5 theStore endToEnd
     = (Fail (ErrIndexOutOfRange 5), snd first)
  /\ Real_GenerateRebusPuzzle theGenerator today (-1) theStore endToEnd = (Panic, snd first).
Proof.
  intros first.
  assert (Hfirst : first = (Ok fivePrompts, snd first)) by (vm_compute; reflexivity).
  split; [exact Hfirst|].
  destruct (GenerateRebusPuzzle_by_index theGenerator today 5 theStore endToEnd (snd first)
              fivePrompts Hfirst) as (Hhigh & _).
  split; [apply Hhigh; vm_compute; discriminate|].
  destruct (GenerateRebusPuzzle_by_index theGenerator today (-1) theStore endToEnd (snd first)
              fivePrompts Hfirst) as (_ & Hlow & _).
  apply Hlow. reflexivity.
Defined.

Lemma model_version_resolved_once_witness :
  let first := getModelVersion (imageGenerator theGenerator) endToEnd in
  first = (Ok "version-1", snd first)
  /\ modelVersion (snd (lifetime [CallTriggerManual today] (theScheduler, snd first)))
     = "version-1"
  /\ modelInfo (snd (lifetime [CallTriggerManual today] (theScheduler, snd first))) = [].
Proof.
  intros first.
  assert (Hfirst : first = (Ok "version-1", snd first)) by (vm_compute; reflexivity).
  split; [exact Hfirst|].
  destruct (model_version_resolved_once (imageGenerator theGenerator) endToEnd) as (Hok & _).
  destruct (Hok "version-1" (snd first) Hfirst) as (_ & Hlife).
  destruct (Hlife theScheduler [CallTriggerManual today]) as (Hv & Hinfo & _).
  split; [exact Hv | exact Hinfo].
Defined.

Lemma records_have_their_images_witness :
  let w' := snd (TriggerManualGeneration theScheduler today endToEnd) in
  fst (TriggerManualGeneration theScheduler today endToEnd) = Ok tt
  /\ Forall (fun p => is_Some (images w' !! ImagePath p)) (rowsFor today w')
  /\ length (rowsFor today w') = 5%nat.
Proof.
  intros w'.
  assert (Hrun : TriggerManualGeneration theScheduler today endToEnd = (Ok tt, w'))
    by (vm_compute; reflexivity).
  split; [by rewrite Hrun|].
  destruct (records_have_their_images theScheduler today endToEnd) as (_ & Hsaved & _).
  split; [exact (Hsaved w' Hrun) | vm_compute; reflexivity].
Defined.

Lemma saved_batch_is_read_back_witness :
  let w' := snd (database.SavePuzzles today newBatch withBatch) in
  database.SavePuzzles today newBatch withBatch = (Ok tt, w')
  /\ fst (database.GetPuzzlesForDate today w') = Ok newBatch.
Proof.
  intros w'.
  assert (Hsave : database.SavePuzzles today newBatch withBatch = (Ok tt, w'))
    by (vm_compute; reflexivity).
  split; [exact Hsave|].
  assert (Hdated : Forall (fun p => Date p = today) newBatch)
    by (repeat constructor).
  destruct (saved_batch_is_read_back today newBatch withBatch w' Hsave Hdated eq_refl)
    as (_ & Hsorted & _).
  apply Hsorted. repeat constructor; unfold byIndex; simpl; lia.
Defined.

Lemma GenerateImageFromPrompt_stages_witness :
  let w0 := snd (getModelVersion (imageGenerator theGenerator) endToEnd) in
  getModelVersion (imageGenerator theGenerator) endToEnd = (Ok "version-1", w0)
  /\ extractImageURL (quoted "https://x/a.png") = Ok "https://x/a.png"
  /\ GenerateImageFromPrompt (imageGenerator theGenerator) "a clock with wings" endToEnd
     = (Ok [Byte.x89; Byte.x50; Byte.x4e; Byte.x47],
        set_downloads (repeat png 4)
          (set_slept 5
             (set_polls (repeat (job "succeeded" (quoted "https://x/a.png")) 4)
                (set_predictions (repeat created 4) w0)))).
Proof.
  intros w0.
  assert (Hv : getModelVersion (imageGenerator theGenerator) endToEnd = (Ok "version-1", w0))
    by (vm_compute; reflexivity).
  assert (Hurl : extractImageURL (quoted "https://x/a.png") = Ok "https://x/a.png")
    by (vm_compute; reflexivity).
  split; [exact Hv|]. split; [exact Hurl|].
  destruct (GenerateImageFromPrompt_stages (imageGenerator theGenerator)
              "a clock with wings" endToEnd) as (_ & _ & _ & Hbytes).
  exact (Hbytes "version-1" w0 201%Z (mkPrediction "job-1" "starting" EmptyString None)
           (repeat created 4) [job "processing" EmptyString] 200%Z
           (mkPrediction "job-1" "succeeded" (quoted "https://x/a.png") None)
           (repeat (job "succeeded" (quoted "https://x/a.png")) 4) "https://x/a.png"
           [Byte.x89; Byte.x50; Byte.x4e; Byte.x47] (repeat png 4)
           Hv eq_refl (or_intror eq_refl) eq_refl ltac:(simpl; lia) eq_refl eq_refl Hurl eq_refl).
Defined.

Lemma SavePuzzle_inserts_or_updates_witness :
  let w' := snd (database.SavePuzzle retouched withBatch) in
  noFaults 1 (dbFaults withBatch) = true
  /\ fst (database.SavePuzzle retouched withBatch) = Ok tt
  /\ map slot (puzzles w') = map slot (puzzles withBatch)
  /\ List.find (hasID "2024-01-15-2") (puzzles w')
     = Some (database.updated retouched (record today 2 "break the ice" "a cold start"))
  /\ Date (database.updated retouched (record today 2 "break the ice" "a cold start")) = today
  /\ puzzles w' !! 6%nat = Some (record today 1 "piece of cake" "dessert, and easy")
  /\ puzzles w' !! 7%nat
     = Some {| ID := "2024-01-15-2"; ImageURL := "/api/images/new.png";
               ImagePath := "storage/images/new.png"; Answer := "thin ice";
               Hint := "careful"; Date := today; Index := 2 |}.
Proof.
  intros w'.
  destruct (SavePuzzle_inserts_or_updates retouched withBatch eq_refl) as (Hupdate & _).
  destruct (Hupdate (record today 2 "break the ice" "a cold start") eq_refl)
    as (Hok & _ & Hslots & Hfound & _ & Hrows).
  split; [reflexivity|]. split; [exact Hok|]. split; [exact Hslots|].
  split; [exact Hfound|]. split; [reflexivity|]. split.
  - apply (Hrows 6%nat (record today 1 "piece of cake" "dessert, and easy") eq_refl).
    vm_compute. discriminate.
  - exact (proj2 (Hrows 7%nat (record today 2 "break the ice" "a cold start") eq_refl) eq_refl).
Defined.

Lemma today_is_a_valid_date_witness :
  validDate sevenOClock /\ ValidateDate (formatDate sevenOClock) = None.
Proof.
  assert (Hvalid : validDate sevenOClock) by (vm_compute; intuition discriminate).
  split; [exact Hvalid | exact (proj1 (today_is_a_valid_date sevenOClock Hvalid))].
Defined.

Lemma ParsePuzzleID_reads_generated_ids_witness :
  ValidateDate today = None
  /\ ParsePuzzleID (today +:+ "-" +:+ GoStrings.itoa 3) = inr (today, 3%Z)
  /\ ParsePuzzleID (today +:+ "-" +:+ GoStrings.itoa (-3)) = inl ErrInvalidIndex.
Proof.
  split; [reflexivity|].
  destruct (ParsePuzzleID_reads_generated_ids today 3 eq_refl) as (Hok & _).
  destruct (ParsePuzzleID_reads_generated_ids today (-3) eq_refl) as (_ & Hbad).
  split; [apply Hok; lia | apply Hbad; lia].
Defined.

Lemma GetPuzzlesHandler_statuses_witness :
  fst (handlers.GetPuzzlesHandler thePuzzleHandler "2024-02-30" withBatch)
  = Ok (handlers.HttpError 400
          (handlers.OfError EmptyString (Wrap "invalid date" ErrParseDate)))
  /\ fst (handlers.GetPuzzlesHandler thePuzzleHandler "2024-03-01" withBatch)
     = Ok (handlers.PuzzlesResponse "2024-03-01" [])
  /\ fst (handlers.GetPuzzlesHandler thePuzzleHandler today withBatch)
     = Ok (handlers.PuzzlesResponse today (batch today)).
Proof.
  destruct (GetPuzzlesHandler_statuses thePuzzleHandler "2024-02-30" withBatch) as (Hbad & _).
  split; [by rewrite (Hbad _ eq_refl)|].
  destruct (GetPuzzlesHandler_statuses thePuzzleHandler "2024-03-01" withBatch)
    as (_ & Hvalid & _).
  destruct (Hvalid eq_refl) as (_ & Hnone & _).
  split; [exact (Hnone eq_refl eq_refl)|].
  destruct (GetPuzzlesHandler_statuses thePuzzleHandler today withBatch) as (_ & Hvalid' & _).
  destruct (Hvalid' eq_refl) as (Hrows & _).
  rewrite (Hrows eq_refl). vm_compute. reflexivity.
Defined.

Lemma VerifyAnswerHandler_checks_the_answer_witness :
  let p := record today 2 "break the ice" "a cold start" in
  In p (puzzles withBatch)
  /\ fst (handlers.VerifyAnswerHandler thePuzzleHandler
            (Payload (handlers.mkVerifyRequest "2024-01-15-2" "  Break The ICE ")) withBatch)
     = Ok (handlers.VerifyResponse true)
  /\ fst (handlers.VerifyAnswerHandler thePuzzleHandler
            (Payload (handlers.mkVerifyRequest "2024-01-15-2" "break ice")) withBatch)
     = Ok (handlers.VerifyResponse false)
  /\ fst (handlers.VerifyAnswerHandler thePuzzleHandler
            (Payload (handlers.mkVerifyRequest "2024-01-15-0" shoutedEclair)) withEclair)
     = Ok (handlers.VerifyResponse true).
Proof.
  intros p.
  assert (Hin : In p (puzzles withBatch)) by (vm_compute; tauto).
  assert (Hnd : List.NoDup (map ID (puzzles withBatch))).
  { apply NoDup_ListNoDup. apply (bool_decide_unpack (NoDup _)). vm_compute. exact I. }
  split; [exact Hin|].
  destruct (VerifyAnswerHandler_checks_the_answer thePuzzleHandler p "  Break The ICE "
              withBatch Hin Hnd eq_refl eq_refl ltac:(vm_compute; split; discriminate || reflexivity) eq_refl) as (Hgood & _).
  destruct (VerifyAnswerHandler_checks_the_answer thePuzzleHandler p "break ice"
              withBatch Hin Hnd eq_refl eq_refl ltac:(vm_compute; split; discriminate || reflexivity) eq_refl) as (Hbad & _).
  split; [exact Hgood|]. split; [exact Hbad|].
  destruct (VerifyAnswerHandler_checks_the_answer thePuzzleHandler eclair shoutedEclair
              withEclair (or_introl eq_refl) ltac:(repeat constructor; simpl; tauto)
              eq_refl eq_refl ltac:(vm_compute; split; discriminate || reflexivity) eq_refl)
    as (Hrunes & _).
  exact (eq_trans Hrunes eq_refl).
Defined.

Lemma TriggerJobHandler_answers_witness :
  fst (handlers.TriggerJobHandler thePuzzleHandler endToEnd)
  = Ok (handlers.HttpError 500
          (handlers.OfError "Failed to trigger job: " ErrFailedToGenerateToday))
  /\ puzzles (snd (handlers.TriggerJobHandler thePuzzleHandler endToEnd)) = []
  /\ fst (handlers.TriggerJobHandler thePuzzleHandler withBatch)
     = Ok (handlers.TriggerResponse false "Puzzles already exist for today").
Proof.
  destruct (TriggerJobHandler_answers thePuzzleHandler endToEnd) as (Habsent & _).
  destruct (TriggerJobHandler_answers thePuzzleHandler withBatch) as (_ & Hpresent & _).
  rewrite (Habsent eq_refl), (Hpresent eq_refl eq_refl). repeat split.
Defined.

Lemma ServeImage_resolves_generated_urls_witness :
  ValidateDate today = None
  /\ handlers.ServeImage theImageHandler "GET" "/api/images/2024-01-15-0.png"
     = handlers.ServeFile "image/png" "storage/images/2024-01-15-0.png"
  /\ handlers.ServeImage (server.imageHandler cloud) "GET" "/api/images/2024-01-15-0.png"
     = handlers.Redirect 301 "https://cdn.example/rebus/2024-01-15/0.png".
Proof.
  split; [reflexivity|].
  destruct (ServeImage_resolves_generated_urls theImageHandler theStore "GET" today 0
              eq_refl ltac:(lia)) as (Hlocal & _).
  destruct (ServeImage_resolves_generated_urls (server.imageHandler cloud)
              (server.storeInstance cloud) "GET" today 0 eq_refl ltac:(lia))
    as (_ & Hcloud & _).
  split.
  - exact (Hlocal eq_refl eq_refl eq_refl ltac:(discriminate)).
  - exact (Hcloud eq_refl eq_refl eq_refl).
Defined.

Lemma Supabase_image_round_trip_witness :
  let s := supabaseStorage (server.storeInstance cloud) in
  let w' := snd (Supabase_SaveImage s today 0 [Byte.x89; Byte.x50] quiet) in
  Supabase_SaveImage s today 0 [Byte.x89; Byte.x50] quiet = (Ok tt, w')
  /\ fst (Supabase_GetImage s today 0 w') = Ok [Byte.x89; Byte.x50]
  /\ fst (Supabase_ImageExists s today 0 w') = Ok true
  /\ fst (Supabase_ImageExists s today 1 w') = Ok false.
Proof.
  intros s w'.
  assert (Hsave : Supabase_SaveImage s today 0 [Byte.x89; Byte.x50] quiet = (Ok tt, w'))
    by (vm_compute; reflexivity).
  split; [exact Hsave|].
  destruct (Supabase_image_round_trip s today 0 [Byte.x89; Byte.x50] quiet w' Hsave)
    as (_ & Hget & Hexists & Hmissing & _).
  split; [exact (Hget eq_refl)|]. split; [exact (Hexists eq_refl)|].
  exact (proj1 (Hmissing today 1%Z w' eq_refl eq_refl)).
Defined.

Lemma generated_puzzles_are_served_witness :
  let w' := snd (TriggerManualGeneration theScheduler today endToEnd) in
  TriggerManualGeneration theScheduler today endToEnd = (Ok tt, w')
  /\ fst (handlers.GetPuzzlesHandler thePuzzleHandler today w')
     = Ok (handlers.PuzzlesResponse today (rowsFor today w'))
  /\ rowsFor today w' = batch today
  /\ fst (handlers.VerifyAnswerHandler thePuzzleHandler
            (Payload (handlers.mkVerifyRequest "2024-01-15-0" " Time Flies ")) w')
     = Ok (handlers.VerifyResponse true).
Proof.
  intros w'.
  assert (Hwf : cacheWellFormed endToEnd) by (apply cacheWellFormed_empty; reflexivity).
  assert (Hrun : TriggerManualGeneration theScheduler today endToEnd = (Ok tt, w'))
    by (vm_compute; reflexivity).
  split; [exact Hrun|].
  destruct (generated_puzzles_are_served thePuzzleHandler theScheduler today endToEnd w'
              Hwf ltac:(constructor) Hrun eq_refl)
    as (prompts & _ & _ & Hget & Hverify & _).
  split; [exact Hget|].
  assert (Hrows : rowsFor today w' = batch today) by (vm_compute; reflexivity).
  split; [exact Hrows|].
  assert (Hin : In (record today 0 "time flies" "watch the hours") (rowsFor today w')).
  { rewrite Hrows. left. reflexivity. }
  exact (eq_trans (proj1 (Hverify _ " Time Flies " Hin)) eq_refl).
Defined.

Lemma catch_up_and_loop_divide_the_day_witness :
  validClock (clock endToEnd)
  /\ pastScheduledTime theScheduler (clock endToEnd) = true
  /\ nextRunIn theScheduler (clock endToEnd) = (23 * 60 * 60 * 1000000000)%Z
  /\ exists o, fst (checkAndRunIfNeeded theScheduler endToEnd) = Ok (Ran o).
Proof.
  assert (Hclock : validClock (clock endToEnd)) by (vm_compute; intuition discriminate).
  split; [exact Hclock|]. split; [reflexivity|].
  destruct (catch_up_and_loop_divide_the_day theScheduler endToEnd
              ltac:(vm_compute; split; discriminate || reflexivity)
              ltac:(vm_compute; split; discriminate || reflexivity) Hclock)
    as (_ & Hpast & _).
  destruct (Hpast eq_refl) as (Hwake & Hrun).
  split; [|exact (Hrun eq_refl)].
  change (timeOfDay (clock endToEnd)) with (7 * 60 * 60 * 1000000000)%Z in Hwake.
  change (nanosOfDay (hour theScheduler) (minute theScheduler) 0 0)
    with (6 * 60 * 60 * 1000000000)%Z in Hwake.
  unfold day in Hwake. lia.
Defined.

Lemma main_wires_store_and_handler_witness :
  ValidateDate today = None
  /\ handlers.ServeImage (server.imageHandler cloud) "GET" "/api/images/2024-01-15-4.png"
     = handlers.Redirect 301 (GetImageURL (server.storeInstance cloud) today 4)
  /\ GetImageURL (server.storeInstance halfCloud) today 4 = "/api/images/2024-01-15-4.png"
  /\ handlers.ServeImage (server.imageHandler halfCloud) "GET" "/api/images/2024-01-15-4.png"
     = handlers.Redirect 301 "https://cdn.example/rebus/2024-01-15/4.png".
Proof.
  split; [reflexivity|].
  destruct (main_wires_store_and_handler cloud "GET" today 4 eq_refl ltac:(lia)
              ltac:(discriminate)) as (Hagree & _).
  split; [exact (Hagree eq_refl)|].
  destruct (main_wires_store_and_handler halfCloud "GET" today 4 eq_refl ltac:(lia)
              ltac:(discriminate)) as (_ & _ & Hmixed).
  destruct (Hmixed eq_refl eq_refl) as (Hurl & Hredirect).
  split; [exact Hurl | exact Hredirect].
Defined.
